(** * Storage providers of polygon-migration: a shallow embedding

    The development follows [problems/storage/]: the factory
    ([factory.py]), the local-filesystem provider ([local.py]), the Google
    Drive provider ([gdrive.py]) and the two object-store providers
    ([azure.py], [gcs.py]).

    Python code is embedded as functions in a state-and-exception monad.
    The operating system and the remote services are not part of the
    repository; each is modelled by a small executable store whose
    primitive calls may fail (a fault schedule carried by the world).
    Logging has no influence on results or stores and is left out. *)

From Stdlib Require Import String Ascii Bool.
From stdpp Require Import gmap strings list fin_maps.

Set Default Proof Using "Type".
Local Open Scope string_scope.

(** ** Python string operations used by the providers *)

Module PyStr.

Definition slash : ascii := "/"%char.

(** [s.lstrip(c)] for a one-character argument. *)
Fixpoint lstrip (c : ascii) (s : string) : string :=
  match s with
  | EmptyString => EmptyString
  | String a s' => if Ascii.eqb a c then lstrip c s' else s
  end.

(** [s.rstrip(c)]. *)
Fixpoint rstrip (c : ascii) (s : string) : string :=
  match s with
  | EmptyString => EmptyString
  | String a s' =>
      match rstrip c s' with
      | EmptyString => if Ascii.eqb a c then EmptyString else String a EmptyString
      | r => String a r
      end
  end.

(** [s.strip(c)]. *)
Definition strip (c : ascii) (s : string) : string := lstrip c (rstrip c s).

(** [s.split(c)]: never empty, keeps empty fields. *)
Fixpoint split (c : ascii) (s : string) : list string :=
  match s with
  | EmptyString => [EmptyString]
  | String a s' =>
      if Ascii.eqb a c then EmptyString :: split c s'
      else match split c s' with
           | h :: t => String a h :: t
           | [] => [String a EmptyString]
           end
  end.

(** [parts[-1]] and [parts[:-1]] of a list of strings. *)
Definition last_part (parts : list string) : string := List.last parts EmptyString.
Definition init_parts (parts : list string) : list string := List.removelast parts.

(** [s.startswith(c)] and [s.endswith(c)]. *)
Definition startswith (c : ascii) (s : string) : bool :=
  match s with
  | String a _ => Ascii.eqb a c
  | EmptyString => false
  end.

Fixpoint endswith (c : ascii) (s : string) : bool :=
  match s with
  | EmptyString => false
  | String a EmptyString => Ascii.eqb a c
  | String _ s' => endswith c s'
  end.

(** [s.upper()] maps every cased character of Unicode; the mapping is
    part of Python, not of the repository, so where the code calls it
    the function is a parameter. What is known of it here: on a string
    of ASCII characters it is [ascii_upper], which raises the letters a
    to z and leaves the other characters, and it is idempotent. A
    [string] holds the bytes of the text; a character outside ASCII
    takes several bytes, all of them 128 or more. *)
Definition ascii_upper_char (a : ascii) : ascii :=
  let n := nat_of_ascii a in
  if (97 <=? n)%nat && (n <=? 122)%nat then ascii_of_nat (n - 32) else a.

Fixpoint ascii_upper (s : string) : string :=
  match s with
  | EmptyString => EmptyString
  | String a s' => String (ascii_upper_char a) (ascii_upper s')
  end.

Fixpoint is_ascii (s : string) : bool :=
  match s with
  | EmptyString => true
  | String a s' => (nat_of_ascii a <? 128)%nat && is_ascii s'
  end.

Definition upper_on_ascii (upper : string -> string) : Prop :=
  ∀ s, is_ascii s = true → upper s = ascii_upper s.

Definition upper_idempotent (upper : string -> string) : Prop :=
  ∀ s, upper (upper s) = upper s.


End PyStr.

(** ** Exceptions, results and the monad of effectful Python code *)

Module Py.

Abbreviation bytes := (list Byte.byte).

(** Exception classes that the modelled primitives raise. *)
Inductive exn :=
| FileNotFoundError
| FileExistsError
| IsADirectoryError
| NotADirectoryError
| PermissionError
| RecursionError
| ResourceNotFoundError
| ValueError
| HttpError (status : nat).

Inductive result (A : Type) :=
| Ok (a : A)
| Raise (e : exn).
Arguments Ok {A} a.
Arguments Raise {A} e.

(** A world is the store of the backend (a file system, a bucket, a
    drive) together with the faults still to come: every primitive call
    to the backend takes the next entry, and fails with [e] without
    touching the store when the entry is [Some e]. *)
Record world (S : Type) := World { store : S; faults : list (option exn) }.
Arguments World {S} store faults.
Arguments store {S} w.
Arguments faults {S} w.

Definition M (S A : Type) : Type := world S -> result A * world S.

Definition ret {S A} (a : A) : M S A := fun w => (Ok a, w).

Definition raise {S A} (e : exn) : M S A := fun w => (Raise e, w).

Definition bind {S A B} (m : M S A) (k : A -> M S B) : M S B :=
  fun w =>
    match m w with
    | (Ok a, w') => k a w'
    | (Raise e, w') => (Raise e, w')
    end.

(** [try: body except Exception as e: handler(e)]; effects of [body] up
    to the exception stay. *)
Definition try_except {S A} (body : M S A) (handler : exn -> M S A) : M S A :=
  fun w =>
    match body w with
    | (Ok a, w') => (Ok a, w')
    | (Raise e, w') => handler e w'
    end.

(** Reading the store without a backend call that can fail. *)
Definition gets {S A} (f : S -> A) : M S A := fun w => (Ok (f (store w)), w).

(** One primitive backend call. *)
Definition call {S A} (op : S -> result A * S) : M S A :=
  fun w =>
    match faults w with
    | Some e :: fs => (Raise e, World (store w) fs)
    | None :: fs => let (r, s') := op (store w) in (r, World s' fs)
    | [] => let (r, s') := op (store w) in (r, World s' [])
    end.

(** [for x in xs: body(x)]. *)
Fixpoint for_each {S A} (xs : list A) (body : A -> M S unit) : M S unit :=
  match xs with
  | [] => ret tt
  | x :: xs' => bind (body x) (fun _ => for_each xs' body)
  end.

(** No fault is scheduled. *)
Definition calm {S} (w : world S) : Prop := Forall (fun f => f = None) (faults w).

End Py.

Import Py.

Notation "'let*' x ':=' m 'in' k" := (Py.bind m (fun x => k))
  (at level 10, x pattern, m at level 100, k at level 200).

(** ** The operating system: paths and a file tree

    Modelled after POSIX and CPython's [posixpath], [os] and [shutil];
    no symbolic links, no permissions (a refused operation is a fault). *)

Module OS.

Inductive entry :=
| F (content : bytes)
| D.

(** The file tree maps the canonical path of every file and directory
    (its list of names from the root) to its entry; the root itself is
    the empty list and always a directory. [cwd] is the working
    directory of the process. *)
Record fsys := Fsys { tree : gmap (list string) entry; cwd : list string }.

(** [os.path.join(a, b)]. *)
Definition path_join (a b : string) : string :=
  if PyStr.startswith PyStr.slash b then b
  else if String.eqb a "" || PyStr.endswith PyStr.slash a then a ++ b
  else a ++ "/" ++ b.

(** [p[:i], p[i:]] for [i = p.rfind('/') + 1]. *)
Fixpoint rcut (p : string) : string * string :=
  match p with
  | EmptyString => (EmptyString, EmptyString)
  | String a p' =>
      match rcut p' with
      | (EmptyString, t) =>
          if Ascii.eqb a PyStr.slash then (String a EmptyString, t)
          else (EmptyString, String a t)
      | (h, t) => (String a h, t)
      end
  end.

(** [os.path.split(p)]: the head loses its trailing slashes unless it
    consists of slashes only. *)
Definition path_split (p : string) : string * string :=
  let (head, tail) := rcut p in
  match PyStr.rstrip PyStr.slash head with
  | EmptyString => (head, tail)
  | stripped => (stripped, tail)
  end.

(** [os.path.dirname(p)]. *)
Definition path_dirname (p : string) : string := fst (path_split p).

(** The names of a path: empty names (repeated, leading and trailing
    slashes) carry no meaning for the kernel. *)
Definition components (p : string) : list string :=
  List.filter (fun s => negb (String.eqb s "")) (PyStr.split PyStr.slash p).

Definition kind (fs : fsys) (q : list string) : option entry :=
  match q with
  | [] => Some D
  | _ => tree fs !! q
  end.

Definition is_dir (fs : fsys) (q : list string) : bool :=
  match kind fs q with
  | Some D => true
  | _ => false
  end.

(** The location of the name [c] in the directory at [d]. *)
Definition child (d : list string) (c : string) : list string := (d ++ [c])%list.

Definition dots (c : string) : bool := String.eqb c "." || String.eqb c "..".

(** Path walk of the kernel from the directory [cur]: every name is
    looked up in a directory; [.] stays, [..] goes up. The last name
    need not exist. *)
Fixpoint walk (fs : fsys) (cur : list string) (cs : list string) : option (list string) :=
  match cs with
  | [] => Some cur
  | c :: cs' =>
      if is_dir fs cur then
        if String.eqb c "." then walk fs cur cs'
        else if String.eqb c ".." then walk fs (List.removelast cur) cs'
        else walk fs (child cur c) cs'
      else None
  end.

(** One step of the walk, as a function of the name. *)
Definition walk_step (cur : list string) (c : string) : list string :=
  if String.eqb c "." then cur
  else if String.eqb c ".." then List.removelast cur
  else child cur c.

Definition start (fs : fsys) (p : string) : list string :=
  if PyStr.startswith PyStr.slash p then [] else cwd fs.

(** The canonical location a path string denotes, if the walk succeeds. *)
Definition resolve (fs : fsys) (p : string) : option (list string) :=
  if String.eqb p "" then None else walk fs (start fs p) (components p).

(** [os.stat]: a trailing slash demands a directory. *)
Definition stat (fs : fsys) (p : string) : option entry :=
  match resolve fs p with
  | None => None
  | Some q =>
      match kind fs q with
      | Some D => Some D
      | Some (F c) => if PyStr.endswith PyStr.slash p then None else Some (F c)
      | None => None
      end
  end.

(** [os.path.exists], [os.path.isdir], [os.path.isfile]: they never
    raise. *)
Definition path_exists (p : string) : M fsys bool :=
  gets (fun fs => bool_decide (is_Some (stat fs p))).

Definition path_isdir (p : string) : M fsys bool :=
  gets (fun fs => match stat fs p with Some D => true | _ => false end).

Definition path_isfile (p : string) : M fsys bool :=
  gets (fun fs => match stat fs p with Some (F _) => true | _ => false end).

(** The directory that holds the last name of [p], and that name. *)
Definition parent_of (fs : fsys) (p : string) : option (list string * string) :=
  match components p with
  | [] => None
  | cs =>
      match walk fs (start fs p) (List.removelast cs) with
      | Some d => if is_dir fs d then Some (d, List.last cs "") else None
      | None => None
      end
  end.

Definition set_entry (q : list string) (e : entry) (fs : fsys) : fsys :=
  Fsys (<[q := e]> (tree fs)) (cwd fs).

Definition del_entry (q : list string) (fs : fsys) : fsys :=
  Fsys (delete q (tree fs)) (cwd fs).

(** [open(p, 'wb')]: creates the file or truncates it. The result is the
    location of the open file. *)
Definition open_wb (p : string) : M fsys (list string) :=
  call (fun fs =>
    if String.eqb p "" then (Raise FileNotFoundError, fs)
    else match parent_of fs p with
         | None =>
             match components p with
             | [] => (Raise IsADirectoryError, fs)
             | _ => (Raise FileNotFoundError, fs)
             end
         | Some (d, name) =>
             if dots name then (Raise IsADirectoryError, fs)
             else match kind fs (child d name) with
                  | Some D => (Raise IsADirectoryError, fs)
                  | Some (F _) =>
                      if PyStr.endswith PyStr.slash p then (Raise NotADirectoryError, fs)
                      else (Ok (child d name), set_entry (child d name) (F []) fs)
                  | None =>
                      if PyStr.endswith PyStr.slash p then (Raise IsADirectoryError, fs)
                      else (Ok (child d name), set_entry (child d name) (F []) fs)
                  end
         end).

(** [f.write(content)] on a file opened by [open_wb], closed right after. *)
Definition file_write (q : list string) (content : bytes) : M fsys unit :=
  call (fun fs => (Ok tt, set_entry q (F content) fs)).

(** [os.mkdir(p)]. *)
Definition mkdir (p : string) : M fsys unit :=
  call (fun fs =>
    match parent_of fs p with
    | None =>
        match components p with
        | [] => if String.eqb p "" then (Raise FileNotFoundError, fs)
                else (Raise FileExistsError, fs)
        | _ => (Raise FileNotFoundError, fs)
        end
    | Some (d, name) =>
        if dots name then (Raise FileExistsError, fs)
        else match kind fs (child d name) with
             | Some _ => (Raise FileExistsError, fs)
             | None => (Ok tt, set_entry (child d name) D fs)
             end
    end).

(** [os.makedirs(name)] with [exist_ok=False], as CPython writes it:
    the missing head is made first (a [FileExistsError] there is passed
    over), then the directory itself. [fuel] bounds the recursion, which
    is on ever shorter heads. *)
Fixpoint makedirs_rec (fuel : nat) (name : string) : M fsys unit :=
  match fuel with
  | O => raise RecursionError
  | S fuel' =>
      let (head0, tail0) := path_split name in
      let (head, tail) :=
        if String.eqb tail0 "" then path_split head0 else (head0, tail0) in
      let* stop :=
        (if negb (String.eqb head "") && negb (String.eqb tail "") then
           let* ex := path_exists head in
           if negb ex then
             let* _ :=
               try_except (makedirs_rec fuel' head)
                 (fun e => match e with
                           | FileExistsError => ret tt
                           | _ => raise e
                           end) in
             ret (String.eqb tail ".")
           else ret false
         else ret false) in
      if stop then ret tt else mkdir name
  end.

Definition makedirs (name : string) : M fsys unit :=
  makedirs_rec (S (String.length name)) name.

(** [os.remove(p)]. *)
Definition remove (p : string) : M fsys unit :=
  call (fun fs =>
    match parent_of fs p with
    | None => (Raise FileNotFoundError, fs)
    | Some (d, name) =>
        if dots name then (Raise IsADirectoryError, fs)
        else match kind fs (child d name) with
             | Some D => (Raise IsADirectoryError, fs)
             | Some (F _) =>
                 if PyStr.endswith PyStr.slash p then (Raise NotADirectoryError, fs)
                 else (Ok tt, del_entry (child d name) fs)
             | None => (Raise FileNotFoundError, fs)
             end
    end).

(** The tree without everything below [q]. *)
Definition prune_below (q : list string) (fs : fsys) : fsys :=
  Fsys (filter (fun kv => ¬ (q `prefix_of` kv.1 ∧ kv.1 ≠ q)) (tree fs)) (cwd fs).

(** [shutil.rmtree(p)]: removes what is below the directory, then the
    directory itself; that last step fails for the root and for a path
    that ends in [.] or [..]. *)
Definition rmtree (p : string) : M fsys unit :=
  call (fun fs =>
    match resolve fs p with
    | None => (Raise FileNotFoundError, fs)
    | Some q =>
        match kind fs q with
        | Some D =>
            match q with
            | [] => (Raise PermissionError, prune_below q fs)
            | _ =>
                if dots (List.last (components p) "")
                then (Raise FileNotFoundError, prune_below q fs)
                else (Ok tt, del_entry q (prune_below q fs))
            end
        | Some (F _) => (Raise NotADirectoryError, fs)
        | None => (Raise FileNotFoundError, fs)
        end
    end).


(** The two trees hold the same files with the same contents. *)
Definition same_files (fs fs' : fsys) : Prop :=
  ∀ q c, tree fs !! q = Some (F c) ↔ tree fs' !! q = Some (F c).

(** Effectful code that leaves the files of the tree as they are. *)
Definition keeps_files {A} (m : M fsys A) : Prop :=
  ∀ w, same_files (store w) (store (m w).2).

End OS.

(** ** local.py *)

Module Local.

Import OS.

(** [LocalStorageProvider.__init__]: returns [self.base_path]. *)
Definition init (BASE_DIR : string) : M fsys string :=
  let base_path := path_join BASE_DIR "media" in
  let* ex := path_exists base_path in
  let* _ :=
    (if negb ex then try_except (makedirs base_path) (fun e => raise e)
     else ret tt) in
  ret base_path.

(** [LocalStorageProvider.upload]. *)
Definition upload (base_path path : string) (content : bytes) : M fsys unit :=
  let full_path := path_join base_path path in
  let directory := path_dirname full_path in
  try_except
    (let* ex := path_exists directory in
     let* _ := (if negb ex then makedirs directory else ret tt) in
     let* f := open_wb full_path in
     file_write f content)
    (fun e => raise e).

(** [LocalStorageProvider.delete_by_prefix]: the handler logs and does
    not raise again. *)
Definition delete_by_prefix (base_path prefix : string) : M fsys unit :=
  let target_path := path_join base_path prefix in
  try_except
    (let* isd := path_isdir target_path in
     if isd then rmtree target_path
     else
       let* isf := path_isfile target_path in
       if isf then remove target_path
       else ret tt)
    (fun e => ret tt).

End Local.

(** ** factory.py *)

Module Factory.

Import OS.

(** What the factory returns: the provider object, known by its class;
    the local provider holds its [base_path]. *)
Inductive provider :=
| AzureStorageProvider
| GoogleDriveStorageProvider
| GoogleCloudStorageProvider
| LocalStorageProvider (base_path : string).

(** The constructors of the three remote providers read credentials from
    the settings and open a client of the service. That lies outside the
    stores modelled here, so they are parameters: computations that
    return or raise. *)
Record remote := Remote {
  azure_init : M fsys unit;
  gdrive_init : M fsys unit;
  gcs_init : M fsys unit
}.

(** [get_storage_provider]: [upper] is [str.upper]; [STORAGE_PROVIDER]
    is the setting of that name ([None] when the attribute is absent, so
    that [getattr] yields its default ['LOCAL']) and [BASE_DIR] the
    setting that the constructor of the local provider reads. *)
Definition get_storage_provider (upper : string -> string) (ctors : remote)
    (STORAGE_PROVIDER : option string) (BASE_DIR : string) : M fsys provider :=
  let provider_type := upper (default "LOCAL" STORAGE_PROVIDER) in
  if String.eqb provider_type "AZURE" then
    let* _ := azure_init ctors in ret AzureStorageProvider
  else if String.eqb provider_type "GDRIVE" then
    let* _ := gdrive_init ctors in ret GoogleDriveStorageProvider
  else if String.eqb provider_type "GCS" then
    let* _ := gcs_init ctors in ret GoogleCloudStorageProvider
  else if String.eqb provider_type "LOCAL" then
    let* base_path := Local.init BASE_DIR in ret (LocalStorageProvider base_path)
  else
    let* base_path := Local.init BASE_DIR in ret (LocalStorageProvider base_path).

End Factory.

(** ** The Drive service

    The part of the Drive v3 files API that [gdrive.py] calls. The
    provider builds its query strings by putting a name between quotes,
    unescaped. A query is represented by the name and the conditions of
    the string; the conditions are what the string means as long as the
    name holds neither a quote nor a backslash ([plain]). For any other
    name the string is not that query: the service may refuse it or
    read another query in it. What it does then is not decided by the
    repository and belongs to the service ([odd]). *)

Module Drive.

Record item := Item {
  id : nat;
  name : string;
  folder : bool;        (* mimeType = 'application/vnd.google-apps.folder' *)
  parents : list nat;
  trashed : bool;
  content : bytes
}.

(** [name='..' and '..' in parents and trashed=false], with the
    [mimeType] condition when [folders_only]. *)
Record query := Query { q_name : string; q_parent : nat; folders_only : bool }.

(** The files of the drive in the order in which [files().list] reports
    them, the next identifier the service hands out, and the answer of
    the service to the string built from a name that is not plain, as a
    function of the files it holds. *)
Record drive := DriveSt {
  files : list item;
  next_id : nat;
  odd : query -> list item -> result (list item)
}.

Definition matches (q : query) (it : item) : bool :=
  String.eqb (name it) (q_name q)
  && bool_decide (q_parent q ∈ parents it)
  && negb (trashed it)
  && (if folders_only q then folder it else true).

Definition plain_char (a : ascii) : bool :=
  negb (Ascii.eqb a "'"%char) && negb (Ascii.eqb a "\"%char).

Fixpoint plain (s : string) : bool :=
  match s with
  | EmptyString => true
  | String a s' => plain_char a && plain s'
  end.

(** A service that refuses every string that is not a query. *)
Definition refuse : query -> list item -> result (list item) :=
  fun _ _ => Raise (HttpError 400).

(** [service.files().list(q=...).execute().get('files', [])]. *)
Definition files_list (q : query) : M drive (list item) :=
  call (fun d =>
    if plain (q_name q) then (Ok (List.filter (matches q) (files d)), d)
    else (odd d q (files d), d)).

(** [service.files().create(body=..., media_body=...).execute().get('id')]:
    the new file comes last. *)
Definition files_create (nm : string) (is_folder : bool) (parent : nat)
    (data : bytes) : M drive nat :=
  call (fun d =>
    let i := next_id d in
    (Ok i, DriveSt (files d ++ [Item i nm is_folder [parent] false data]) (S i) (odd d))).

Definition set_content (i : nat) (data : bytes) (it : item) : item :=
  if Nat.eqb (id it) i
  then Item (id it) (name it) (folder it) (parents it) (trashed it) data
  else it.

(** [service.files().update(fileId=..., media_body=...).execute()]. *)
Definition files_update (i : nat) (data : bytes) : M drive unit :=
  call (fun d =>
    if existsb (fun it => Nat.eqb (id it) i) (files d)
    then (Ok tt, DriveSt (List.map (set_content i data) (files d)) (next_id d) (odd d))
    else (Raise (HttpError 404), d)).

(** The identifiers of the files that hang, directly or not, under
    one of [ids]. *)
Fixpoint descendants (fuel : nat) (ids : list nat) (fs : list item) : list nat :=
  match fuel with
  | O => ids
  | S fuel' =>
      let below :=
        List.map id
          (List.filter
             (fun it => existsb (fun p => bool_decide (p ∈ ids)) (parents it)) fs) in
      descendants fuel' (ids ++ below) fs
  end.

(** [service.files().delete(fileId=...).execute()]: a folder goes with
    everything under it. *)
Definition files_delete (i : nat) : M drive unit :=
  call (fun d =>
    if existsb (fun it => Nat.eqb (id it) i) (files d)
    then
      let gone := descendants (length (files d)) [i] (files d) in
      (Ok tt,
       DriveSt (List.filter (fun it => negb (bool_decide (id it ∈ gone))) (files d))
         (next_id d) (odd d))
    else (Raise (HttpError 404), d)).

(** What a drive holds, read without a call: the first file a query
    reports, and the folder that a chain of folder names leads to from
    [cur] when every step takes the first match. *)
Definition first_match (q : query) (fs : list item) : option nat :=
  head (List.map id (List.filter (matches q) fs)).

Fixpoint path_folder (fs : list item) (parts : list string) (cur : nat) : option nat :=
  match parts with
  | [] => Some cur
  | part :: rest =>
      match first_match (Query part cur true) fs with
      | Some i => path_folder fs rest i
      | None => None
      end
  end.

(** No two folders of one name in one parent. *)
Definition folder_unique (fs : list item) : Prop :=
  ∀ nm parent, (length (List.filter (matches (Query nm parent true)) fs) ≤ 1)%nat.

(** No two files of any kind of one name in one parent. *)
Definition name_unique (fs : list item) : Prop :=
  ∀ nm parent, (length (List.filter (matches (Query nm parent false)) fs) ≤ 1)%nat.

(** Identifiers in use lie below the next one to be handed out. *)
Definition known (d : drive) (it : item) : Prop :=
  (id it < next_id d)%nat ∧ Forall (fun p => (p < next_id d)%nat) (parents it).

Definition wf (root : nat) (d : drive) : Prop :=
  (root < next_id d)%nat ∧ Forall (known d) (files d).

(** Nothing hangs under [p]. *)
Definition childless (fs : list item) (p : nat) : Prop :=
  Forall (fun it => p ∉ parents it) fs.

End Drive.

(** ** gdrive.py *)

Module GDrive.

Import Drive.

(** [GoogleDriveStorageProvider._get_or_create_folder]. *)
Definition _get_or_create_folder (folder_name : string) (parent_id : nat) : M drive nat :=
  let* files := files_list (Query folder_name parent_id true) in
  match files with
  | f :: _ => ret (id f)
  | [] => files_create folder_name true parent_id []
  end.

(** The loop of [_resolve_path_to_folder]. *)
Fixpoint resolve_loop (folder_path : list string) (current_parent_id : nat) : M drive nat :=
  match folder_path with
  | [] => ret current_parent_id
  | folder :: rest =>
      let* next := _get_or_create_folder folder current_parent_id in
      resolve_loop rest next
  end.

(** [GoogleDriveStorageProvider._resolve_path_to_folder]. *)
Definition _resolve_path_to_folder (root_folder_id : nat) (path : string)
    : M drive (nat * string) :=
  let parts := PyStr.split PyStr.slash (PyStr.strip PyStr.slash path) in
  let file_name := PyStr.last_part parts in
  let folder_path := PyStr.init_parts parts in
  let* current_parent_id := resolve_loop folder_path root_folder_id in
  ret (current_parent_id, file_name).

(** The second half of [upload]: the file of that name in the parent is
    updated if the query reports one (the first one), else created. *)
Definition create_or_update (file_name : string) (parent_id : nat) (content : bytes)
    : M drive unit :=
  let* files := files_list (Query file_name parent_id false) in
  match files with
  | f :: _ => files_update (id f) content
  | [] =>
      let* new_file := files_create file_name false parent_id content in
      ret tt
  end.

(** [GoogleDriveStorageProvider.upload]. *)
Definition upload (root_folder_id : nat) (path : string) (content : bytes) : M drive unit :=
  try_except
    (let* (parent_id, file_name) := _resolve_path_to_folder root_folder_id path in
     create_or_update file_name parent_id content)
    (fun e => raise e).

(** How the loop of [delete_by_prefix] ends: by the early [return] at a
    missing folder, or by running out of parts with [target_id] as it
    was last set (Python's [None] is [None]). *)
Inductive loop_end :=
| Returned
| Finished (target_id : option nat).

(** The loop of [delete_by_prefix]; [i == len(parts) - 1] holds when no
    part is left after the current one. *)
Fixpoint find_loop (parts : list string) (current_parent_id : nat)
    (target_id : option nat) : M drive loop_end :=
  match parts with
  | [] => ret (Finished target_id)
  | part :: rest =>
      let* files := files_list (Query part current_parent_id true) in
      match files with
      | [] => ret Returned
      | f :: _ =>
          find_loop rest (id f)
            (match rest with
             | [] => Some (id f)
             | _ => target_id
             end)
      end
  end.

(** [GoogleDriveStorageProvider.delete_by_prefix]. *)
Definition delete_by_prefix (root_folder_id : nat) (prefix : string) : M drive unit :=
  try_except
    (let folder_path := PyStr.strip PyStr.slash prefix in
     let parts := PyStr.split PyStr.slash folder_path in
     let* ending := find_loop parts root_folder_id None in
     match ending with
     | Returned => ret tt
     | Finished (Some target_id) => files_delete target_id
     | Finished None => ret tt
     end)
    (fun e => raise e).

End GDrive.

(** ** Object stores

    A container or bucket is a finite map from blob names to contents.
    A request that the service refuses is a fault of the world. A blob
    has a name that is not empty: for the empty name Azure's client
    raises before any request ([get_blob_client]); what GCS answers
    then is not in the repository, and the statements about uploads to
    GCS are made for names that are not empty. *)

Module Blob.

(** Listing by name prefix. *)
Definition list_blobs (pre : string) : M (gmap string bytes) (list string) :=
  call (fun m =>
    (Ok (List.filter (fun k => String.prefix pre k) (List.map fst (map_to_list m))), m)).

(** [get_blob_client(container=..., blob=name)]: the client for one
    blob; the SDK raises [ValueError] for an empty name, before any
    request. *)
Definition get_blob_client (name : string) : M (gmap string bytes) string :=
  if String.eqb name "" then raise ValueError else ret name.

(** Upload that overwrites. *)
Definition put_blob (k : string) (data : bytes) : M (gmap string bytes) unit :=
  call (fun m => (Ok tt, <[k := data]> m)).

(** Deletion of one blob; a missing blob is an error of the service. *)
Definition delete_blob (k : string) : M (gmap string bytes) unit :=
  call (fun m =>
    match m !! k with
    | Some _ => (Ok tt, delete k m)
    | None => (Raise ResourceNotFoundError, m)
    end).

End Blob.

(** ** azure.py *)

Module Azure.

(** [AzureStorageProvider.upload]: [upload_blob(content, overwrite=True)]
    on the blob client for [path]. *)
Definition upload (path : string) (content : bytes) : M (gmap string bytes) unit :=
  try_except
    (let* blob_client := Blob.get_blob_client path in
     Blob.put_blob blob_client content)
    (fun e => raise e).

(** [AzureStorageProvider.delete_by_prefix]. *)
Definition delete_by_prefix (prefix : string) : M (gmap string bytes) unit :=
  try_except
    (let* blobs_to_delete := Blob.list_blobs prefix in
     for_each blobs_to_delete (fun blob => Blob.delete_blob blob))
    (fun e => raise e).

End Azure.

(** ** gcs.py *)

Module GCS.

(** [GoogleCloudStorageProvider.upload]. *)
Definition upload (path : string) (content : bytes) : M (gmap string bytes) unit :=
  try_except
    (let blob_path := PyStr.lstrip PyStr.slash path in
     Blob.put_blob blob_path content)
    (fun e => raise e).

(** [GoogleCloudStorageProvider.delete_by_prefix]; [bucket.delete_blobs]
    deletes the blobs one after the other. *)
Definition delete_by_prefix (prefix : string) : M (gmap string bytes) unit :=
  try_except
    (let clean_prefix := PyStr.lstrip PyStr.slash prefix in
     let* blobs := Blob.list_blobs clean_prefix in
     match blobs with
     | [] => ret tt
     | _ => for_each blobs (fun blob => Blob.delete_blob blob)
     end)
    (fun e => raise e).

End GCS.

(** ** Views of the stores for the further properties *)

Module View.

(** What identifies a file of the drive, apart from its content. *)
Definition meta (it : Drive.item) : nat * string * bool * list nat * bool :=
  (Drive.id it, Drive.name it, Drive.folder it, Drive.parents it, Drive.trashed it).

(** The drive [d'] lists the files of [d] first, each with its identity
    unchanged (contents may differ), and hands out later identifiers. *)
Definition keeps_listing (d d' : Drive.drive) : Prop :=
  List.map meta (Drive.files d) `prefix_of` List.map meta (Drive.files d')
  ∧ (Drive.next_id d ≤ Drive.next_id d')%nat.

Definition keeps {A} (m : M Drive.drive A) : Prop :=
  ∀ w, keeps_listing (store w) (store (m w).2).

(** The tree [fs'] has every entry of [fs] and no file that [fs] has
    not: only directories are new. *)
Definition grows (fs fs' : OS.fsys) : Prop :=
  OS.cwd fs' = OS.cwd fs
  ∧ (∀ k e, OS.tree fs !! k = Some e → OS.tree fs' !! k = Some e)
  ∧ (∀ k c, OS.tree fs' !! k = Some (OS.F c) → OS.tree fs !! k = Some (OS.F c)).

Definition only_grows {A} (m : M OS.fsys A) : Prop :=
  ∀ w, grows (store w) (store (m w).2).


End View.

(** ** Sample stores *)

Module Samples.

Definition data (s : string) : bytes := list_byte_of_string s.

(** A file tree with the media root [/srv/media], one uploaded file in
    [/srv/media/folder], and [/etc/passwd] outside the root. *)
Definition tree0 : OS.fsys :=
  OS.Fsys
    (list_to_map
       [(["srv"], OS.D);
        (["srv"; "media"], OS.D);
        (["srv"; "media"; "folder"], OS.D);
        (["srv"; "media"; "folder"; "1.txt"], OS.F (data "data"));
        (["etc"], OS.D);
        (["etc"; "passwd"], OS.F (data "root"))])
    [].

Definition base_path : string := "/srv/media".

(** The root folder of the drive has identifier 0. *)
Definition root_folder_id : nat := 0.

(** The sample drives refuse a string that is not a query. *)
Definition empty_drive : Drive.drive := Drive.DriveSt [] 1 Drive.refuse.

(** A drive that holds the single file [f.txt] in the root folder. *)
Definition leaf_drive : Drive.drive :=
  Drive.DriveSt [Drive.Item 1 "f.txt" false [0] false (data "data")] 2 Drive.refuse.

Definition empty_bucket : gmap string bytes := ∅.

(** A world in which nothing fails. *)
Definition quiet {S} (s : S) : world S := World s [].

(** Constructors of the remote providers that return at once. *)
Definition ready : Factory.remote := Factory.Remote (ret tt) (ret tt) (ret tt).

End Samples.

(** * Properties *)

(** ** The monad in a calm world *)

Lemma calm_tail {S} (s s' : S) fs :
  calm (World s fs) → calm (World s' (tail fs)).
Proof.
  unfold calm; simpl. intros H. destruct fs; [done|]. by inversion H.
Qed.

Lemma call_calm {S A} (op : S → result A * S) (w : world S) :
  calm w →
  call op w = ((op (store w)).1, World (op (store w)).2 (tail (faults w))).
Proof.
  intros H. unfold call. destruct w as [s fs]; simpl in *.
  destruct fs as [|[e|] fs]; simpl; destruct (op s); try done.
  unfold calm in H; simpl in H. inversion H; subst. discriminate.
Qed.

Lemma call_fault {S A} (op : S → result A * S) (s : S) e fs :
  call op (World s (Some e :: fs)) = (Raise e, World s fs).
Proof. reflexivity. Qed.

Lemma try_reraise {S A} (m : M S A) (w : world S) :
  try_except m (fun e => raise e) w = m w.
Proof. unfold try_except, raise. by destruct (m w) as [[a|e] w']. Qed.

(** ** Strings *)

Lemma upper_char_idem a :
  PyStr.ascii_upper_char (PyStr.ascii_upper_char a) = PyStr.ascii_upper_char a.
Proof. destruct a as [[] [] [] [] [] [] [] []]; reflexivity. Qed.

Lemma upper_idem s : PyStr.ascii_upper (PyStr.ascii_upper s) = PyStr.ascii_upper s.
Proof.
  induction s as [|a s IH]; simpl; [done|]. by rewrite upper_char_idem, IH.
Qed.

Lemma lstrip_idem c s : PyStr.lstrip c (PyStr.lstrip c s) = PyStr.lstrip c s.
Proof.
  induction s as [|a s IH]; simpl; [done|].
  destruct (Ascii.eqb a c) eqn:E; [done|]. simpl. by rewrite E.
Qed.

Lemma lstrip_cons_slash s :
  PyStr.lstrip PyStr.slash (String PyStr.slash s) = PyStr.lstrip PyStr.slash s.
Proof. reflexivity. Qed.

Example upper_azure : PyStr.ascii_upper "azure" = "AZURE".
Proof. reflexivity. Qed.

Example split_example : PyStr.split PyStr.slash "a//b/c" = ["a"; ""; "b"; "c"].
Proof. reflexivity. Qed.

Example strip_example : PyStr.strip PyStr.slash "/a//b/c/" = "a//b/c".
Proof. reflexivity. Qed.

(** ** The file tree *)

Lemma call_inv {S A} (op : S → result A * S) (w w' : world S) r :
  call op w = (r, w') →
  (∃ e, r = Raise e ∧ store w' = store w) ∨ op (store w) = (r, store w').
Proof.
  unfold call. destruct w as [s fs]; simpl.
  destruct fs as [|[e|] fs].
  - destruct (op s) as [r0 s0]. intros [= <- <-]. by right.
  - intros [= <- <-]. left. by exists e.
  - destruct (op s) as [r0 s0]. intros [= <- <-]. by right.
Qed.

Lemma call_ok_inv {S A} (op : S → result A * S) (w w' : world S) a :
  call op w = (Ok a, w') → op (store w) = (Ok a, store w').
Proof.
  intros H. apply call_inv in H as [(e & He & _)|H]; [discriminate|exact H].
Qed.

Lemma is_dir_set_file fs q c x :
  q ≠ [] → OS.is_dir fs q = false →
  OS.is_dir (OS.set_entry q (OS.F c) fs) x = OS.is_dir fs x.
Proof.
  intros Hq Hd. unfold OS.is_dir, OS.kind, OS.set_entry in *; simpl.
  destruct x as [|x0 x]; [done|].
  destruct (decide (q = x0 :: x)) as [->|Hne].
  - rewrite lookup_insert_eq. by rewrite Hd.
  - by rewrite lookup_insert_ne.
Qed.

Lemma walk_ext fs fs' cur cs :
  (∀ x, OS.is_dir fs x = OS.is_dir fs' x) →
  OS.walk fs cur cs = OS.walk fs' cur cs.
Proof.
  intros H. revert cur. induction cs as [|c cs IH]; intros cur; simpl; [done|].
  rewrite <- H. destruct (OS.is_dir fs cur); [|done].
  by rewrite !IH.
Qed.

Lemma walk_snoc fs cur cs c :
  OS.walk fs cur (cs ++ [c]) =
  match OS.walk fs cur cs with
  | Some d => if OS.is_dir fs d then Some (OS.walk_step d c) else None
  | None => None
  end.
Proof.
  revert cur. induction cs as [|c0 cs IH]; intros cur; simpl.
  - unfold OS.walk_step. destruct (OS.is_dir fs cur); [|done].
    by destruct (String.eqb c "."), (String.eqb c "..").
  - destruct (OS.is_dir fs cur); [|done].
    by destruct (String.eqb c0 "."), (String.eqb c0 "..").
Qed.

Lemma child_nonempty d c : OS.child d c ≠ [].
Proof. unfold OS.child. by destruct d. Qed.

(** A path whose parent directory exists resolves to the child named by
    its last component. *)
Lemma resolve_of_parent fs p d name :
  p ≠ "" → OS.parent_of fs p = Some (d, name) → OS.dots name = false →
  OS.resolve fs p = Some (OS.child d name).
Proof.
  intros Hp Hpar Hdots. unfold OS.resolve, OS.parent_of in *.
  destruct (String.eqb_spec p ""); [done|].
  destruct (OS.components p) as [|c0 cs] eqn:Hc; [done|].
  rewrite (app_removelast_last "" (l := c0 :: cs)) at 1 by done.
  set (nm := List.last (c0 :: cs) "") in *.
  destruct (OS.walk fs (OS.start fs p) (removelast (c0 :: cs))) as [d'|] eqn:Hw; [|done].
  destruct (OS.is_dir fs d') eqn:Hd; [|done].
  injection Hpar as <- <-.
  rewrite walk_snoc, Hw, Hd. f_equal.
  unfold OS.walk_step, OS.dots in *.
  destruct (String.eqb nm "."); [discriminate Hdots|].
  destruct (String.eqb nm ".."); [discriminate Hdots|done].
Qed.

Lemma open_wb_ok p w q w' :
  OS.open_wb p w = (Ok q, w') →
  OS.resolve (store w) p = Some q ∧ q ≠ [] ∧ OS.is_dir (store w) q = false
  ∧ PyStr.endswith PyStr.slash p = false
  ∧ store w' = OS.set_entry q (OS.F []) (store w).
Proof.
  intros H. apply call_ok_inv in H.
  destruct (String.eqb_spec p ""); [done|].
  destruct (OS.parent_of (store w) p) as [[d name]|] eqn:Hpar.
  2:{ by destruct (OS.components p). }
  destruct (OS.dots name) eqn:Hdots; [done|].
  pose proof (resolve_of_parent _ _ _ _ n Hpar Hdots) as Hres.
  unfold OS.is_dir.
  destruct (OS.kind (store w) (OS.child d name)) as [[c|]|] eqn:Hk; [| done |];
    destruct (PyStr.endswith PyStr.slash p) eqn:He; try done;
    injection H as <- <-; rewrite Hk; eauto using child_nonempty.
Qed.

Lemma file_write_ok q c w w' :
  OS.file_write q c w = (Ok tt, w') → store w' = OS.set_entry q (OS.F c) (store w).
Proof. intros H. apply call_ok_inv in H. by injection H. Qed.

Lemma bind_ok_inv {S A B} (m : M S A) (k : A → M S B) w b w' :
  Py.bind m k w = (Ok b, w') → ∃ a w1, m w = (Ok a, w1) ∧ k a w1 = (Ok b, w').
Proof.
  unfold Py.bind. destruct (m w) as [[a|e] w1]; [|done]. eauto.
Qed.

(** After a successful upload the file at the joined path holds the
    content. *)
Lemma local_upload_ok base p c w w' :
  Local.upload base p c w = (Ok tt, w') →
  OS.stat (store w') (OS.path_join base p) = Some (OS.F c).
Proof.
  unfold Local.upload. rewrite try_reraise. intros H.
  apply bind_ok_inv in H as (ex & w1 & _ & H).
  apply bind_ok_inv in H as (? & w2 & _ & H).
  apply bind_ok_inv in H as (q & w3 & Hopen & Hwrite).
  apply open_wb_ok in Hopen as (Hres & Hq & Hnd & Hend & Hst).
  apply file_write_ok in Hwrite. rewrite Hwrite, Hst.
  set (full := OS.path_join base p) in *.
  assert (Hdir : ∀ y, OS.is_dir (store w2) y
                     = OS.is_dir (OS.set_entry q (OS.F c) (OS.set_entry q (OS.F []) (store w2))) y).
  { intros y. rewrite !is_dir_set_file; try done.
    unfold OS.is_dir, OS.kind, OS.set_entry; simpl.
    destruct q; [done|]. by rewrite lookup_insert_eq. }
  unfold OS.stat, OS.resolve in *. destruct (String.eqb full ""); [done|].
  unfold OS.start in *; simpl OS.cwd. rewrite <- (walk_ext _ _ _ _ Hdir), Hres.
  unfold OS.kind, OS.set_entry; simpl. destruct q; [done|].
  by rewrite lookup_insert_eq, Hend.
Qed.

Lemma path_join_absolute base p :
  PyStr.startswith PyStr.slash p = true → OS.path_join base p = p.
Proof. intros H. unfold OS.path_join. by rewrite H. Qed.




(** Deleting by a prefix that names a directory removes the directory
    and what is below it. *)
Lemma local_delete_dir base prefix w q :
  calm w →
  OS.resolve (store w) (OS.path_join base prefix) = Some q → q ≠ [] →
  OS.kind (store w) q = Some OS.D →
  OS.dots (List.last (OS.components (OS.path_join base prefix)) "") = false →
  Local.delete_by_prefix base prefix w
  = (Ok tt, World (OS.del_entry q (OS.prune_below q (store w))) (tail (faults w))).
Proof.
  intros Hcalm Hres Hq Hk Hdots.
  unfold Local.delete_by_prefix, try_except, Py.bind, OS.path_isdir, gets.
  unfold OS.stat. rewrite Hres, Hk. unfold OS.rmtree. rewrite call_calm by done.
  rewrite Hres, Hk, Hdots. by destruct q.
Qed.

(** Deleting by a prefix that names nothing does nothing. *)
Lemma local_delete_missing base prefix w :
  OS.stat (store w) (OS.path_join base prefix) = None →
  Local.delete_by_prefix base prefix w = (Ok tt, w).
Proof.
  intros Hstat.
  unfold Local.delete_by_prefix, try_except, Py.bind, OS.path_isdir, OS.path_isfile, gets.
  rewrite Hstat. cbv beta iota. by rewrite Hstat.
Qed.

(** The local [delete_by_prefix] reports success whatever happens. *)
Lemma local_delete_never_raises base prefix w :
  (Local.delete_by_prefix base prefix w).1 = Ok tt.
Proof.
  unfold Local.delete_by_prefix, try_except.
  destruct (Py.bind _ _ w) as [[[]|e] w']; reflexivity.
Qed.

(** ** The recursion of [os.makedirs] ends *)

Lemma rcut_length p :
  (String.length (OS.rcut p).1 + String.length (OS.rcut p).2 = String.length p)%nat.
Proof.
  induction p as [|a p IH]; simpl; [done|].
  destruct (OS.rcut p) as [[|b h] t]; simpl in *.
  - destruct (Ascii.eqb a PyStr.slash); simpl; lia.
  - lia.
Qed.

Lemma rstrip_length c s : (String.length (PyStr.rstrip c s) ≤ String.length s)%nat.
Proof.
  induction s as [|a s IH]; simpl; [done|].
  destruct (PyStr.rstrip c s) as [|b r]; simpl in *.
  - destruct (Ascii.eqb a c); simpl; lia.
  - lia.
Qed.

Lemma path_split_length p :
  (String.length (OS.path_split p).1 + String.length (OS.path_split p).2
   ≤ String.length p)%nat.
Proof.
  unfold OS.path_split. pose proof (rcut_length p) as H.
  destruct (OS.rcut p) as [h t]; simpl in *.
  pose proof (rstrip_length PyStr.slash h) as Hr.
  destruct (PyStr.rstrip PyStr.slash h); simpl in *; lia.
Qed.

(** With more fuel than the name is long, the amount of fuel does not
    matter: the bound is never reached. *)
Lemma makedirs_rec_fuel fuel :
  ∀ fuel' name w,
    (String.length name < fuel)%nat → (String.length name < fuel')%nat →
    OS.makedirs_rec fuel name w = OS.makedirs_rec fuel' name w.
Proof.
  induction fuel as [|fuel IH]; intros fuel' name w Hf Hf'; [lia|].
  destruct fuel' as [|fuel']; [lia|]. simpl.
  pose proof (path_split_length name) as Hs0.
  destruct (OS.path_split name) as [head0 tail0]; simpl in Hs0.
  assert (Hs : ∀ head tail,
             (if String.eqb tail0 "" then OS.path_split head0 else (head0, tail0))
             = (head, tail) →
             (String.length head + String.length tail ≤ String.length name)%nat).
  { intros head tail E. destruct (String.eqb tail0 "").
    - pose proof (path_split_length head0) as Hs1. rewrite E in Hs1. simpl in Hs1. lia.
    - injection E as <- <-. lia. }
  destruct (if String.eqb tail0 "" then OS.path_split head0 else (head0, tail0))
    as [head tail].
  specialize (Hs head tail eq_refl).
  destruct (String.eqb_spec tail "") as [|Ht];
    [simpl negb; by rewrite andb_false_r|].
  destruct (negb (String.eqb head "")); [|done]. simpl andb. cbv iota.
  assert (String.length tail ≠ 0)%nat by (by destruct tail).
  unfold Py.bind, try_except.
  destruct (OS.path_exists head w) as [[ex|e] w1]; [|done].
  destruct (negb ex); [|done].
  by rewrite (IH fuel' head w1) by lia.
Qed.

(** ** Paths that normalize to nothing *)

Lemma lstrip_empty c s :
  PyStr.lstrip c s = "" → s = "" ∨ PyStr.endswith c s = true.
Proof.
  induction s as [|a s IH]; [by left|]. simpl.
  destruct (Ascii.eqb a c) eqn:E; [|done]. intros H. right.
  destruct (IH H) as [->|He]; [done|]. by destruct s.
Qed.

Lemma rstrip_no_trailing c p : PyStr.endswith c (PyStr.rstrip c p) = false.
Proof.
  induction p as [|a p IH]; [done|]. simpl.
  destruct (PyStr.rstrip c p) as [|b r] eqn:E.
  - destruct (Ascii.eqb a c) eqn:Ea; [done|]. simpl. by rewrite Ea.
  - done.
Qed.

Lemma rstrip_empty c p :
  PyStr.rstrip c p = "" →
  p = "" ∨ (PyStr.startswith c p = true ∧ PyStr.endswith c p = true).
Proof.
  induction p as [|a p IH]; [by left|]. simpl.
  destruct (PyStr.rstrip c p) as [|b r] eqn:E; [|done].
  destruct (Ascii.eqb a c) eqn:Ea; [|done]. intros _. right. split; [done|].
  destruct (IH eq_refl) as [->|[_ He]]; [done|]. by destruct p.
Qed.

Lemma strip_empty c p :
  PyStr.strip c p = "" →
  p = "" ∨ (PyStr.startswith c p = true ∧ PyStr.endswith c p = true).
Proof.
  unfold PyStr.strip. intros H. apply rstrip_empty.
  destruct (lstrip_empty _ _ H) as [|He]; [done|].
  by rewrite rstrip_no_trailing in He.
Qed.

Lemma endswith_app_slash a : PyStr.endswith PyStr.slash (a ++ "/") = true.
Proof.
  induction a as [|x a IH]; [done|].
  change (String x a ++ "/") with (String x (a ++ "/")).
  simpl. destruct (a ++ "/") eqn:E; [by destruct a|]. done.
Qed.

Lemma string_app_nil_r (a : string) : a ++ "" = a.
Proof.
  induction a as [|x a IH]; [done|].
  change (String x (a ++ "") = String x a). by f_equal.
Qed.

(** The full path of an upload whose path is empty after stripping names
    no file: it is empty or ends with a slash. *)
Lemma join_stripped_empty base p :
  PyStr.strip PyStr.slash p = "" →
  OS.path_join base p = "" ∨ PyStr.endswith PyStr.slash (OS.path_join base p) = true.
Proof.
  intros H. apply strip_empty in H as [->|[Hs He]].
  - unfold OS.path_join. simpl PyStr.startswith. cbv iota.
    destruct (String.eqb_spec base "") as [->|Hb]; [by left|]. right.
    simpl orb. destruct (PyStr.endswith PyStr.slash base) eqn:E.
    + by rewrite string_app_nil_r.
    + apply endswith_app_slash.
  - right. by rewrite path_join_absolute.
Qed.

Lemma open_wb_refuses p w :
  p = "" ∨ PyStr.endswith PyStr.slash p = true →
  ∃ e, (OS.open_wb p w).1 = Raise e ∧ store (OS.open_wb p w).2 = store w.
Proof.
  intros Hp. unfold OS.open_wb, call.
  destruct w as [fs [|[e|] flt]]; simpl; [| by eexists |].
  all: destruct Hp as [->|He]; [by eexists|].
  all: destruct (String.eqb p ""); [by eexists|].
  all: destruct (OS.parent_of fs p) as [[d nm]|]; [|destruct (OS.components p); by eexists].
  all: destruct (OS.dots nm); [by eexists|].
  all: rewrite He; destruct (OS.kind fs (OS.child d nm)) as [[c|]|]; by eexists.
Qed.

Lemma same_files_refl fs : OS.same_files fs fs.
Proof. by intros q c. Qed.

Lemma same_files_trans fs1 fs2 fs3 :
  OS.same_files fs1 fs2 → OS.same_files fs2 fs3 → OS.same_files fs1 fs3.
Proof. intros H1 H2 q c. by rewrite (H1 q c). Qed.

Lemma keeps_ret {A} (a : A) : OS.keeps_files (ret a).
Proof. intros w. apply same_files_refl. Qed.

Lemma keeps_raise {A} e : OS.keeps_files (@raise OS.fsys A e).
Proof. intros w. apply same_files_refl. Qed.

Lemma keeps_gets {A} (f : OS.fsys → A) : OS.keeps_files (gets f).
Proof. intros w. apply same_files_refl. Qed.

Lemma keeps_bind {A B} (m : M OS.fsys A) (k : A → M OS.fsys B) :
  OS.keeps_files m → (∀ a, OS.keeps_files (k a)) → OS.keeps_files (Py.bind m k).
Proof.
  intros Hm Hk w. unfold Py.bind. specialize (Hm w).
  destruct (m w) as [[a|e] w1]; simpl in *; [|done].
  eapply same_files_trans; [exact Hm|]. apply Hk.
Qed.

Lemma keeps_try {A} (m : M OS.fsys A) (h : exn → M OS.fsys A) :
  OS.keeps_files m → (∀ e, OS.keeps_files (h e)) → OS.keeps_files (try_except m h).
Proof.
  intros Hm Hh w. unfold try_except. specialize (Hm w).
  destruct (m w) as [[a|e] w1]; simpl in *; [done|].
  eapply same_files_trans; [exact Hm|]. apply Hh.
Qed.

Lemma keeps_call {A} (op : OS.fsys → result A * OS.fsys) :
  (∀ fs, OS.same_files fs (op fs).2) → OS.keeps_files (call op).
Proof.
  intros H [fs flt]. unfold call; simpl. specialize (H fs).
  destruct flt as [|[e|] flt]; simpl; [| apply same_files_refl |];
    by destruct (op fs).
Qed.

Lemma same_files_new_dir fs q :
  OS.tree fs !! q = None → OS.same_files fs (OS.set_entry q OS.D fs).
Proof.
  intros Hq q' c. unfold OS.set_entry; simpl.
  destruct (decide (q = q')) as [<-|Hne].
  - rewrite lookup_insert_eq, Hq. split; discriminate.
  - by rewrite lookup_insert_ne.
Qed.

Lemma keeps_mkdir p : OS.keeps_files (OS.mkdir p).
Proof.
  apply keeps_call. intros fs.
  destruct (OS.parent_of fs p) as [[d nm]|].
  2:{ destruct (OS.components p); [destruct (String.eqb p "")|]; apply same_files_refl. }
  destruct (OS.dots nm); [apply same_files_refl|].
  destruct (OS.kind fs (OS.child d nm)) eqn:Hk; [apply same_files_refl|].
  apply same_files_new_dir. unfold OS.kind in Hk.
  pose proof (child_nonempty d nm). by destruct (OS.child d nm).
Qed.

Lemma keeps_makedirs_rec fuel name : OS.keeps_files (OS.makedirs_rec fuel name).
Proof.
  revert name. induction fuel as [|fuel IH]; intros name; simpl.
  { apply keeps_raise. }
  destruct (OS.path_split name) as [head0 tail0].
  destruct (if String.eqb tail0 "" then OS.path_split head0 else (head0, tail0))
    as [head tail].
  apply keeps_bind.
  - destruct (negb (String.eqb head "") && negb (String.eqb tail ""));
      [|apply keeps_ret].
    apply keeps_bind; [apply keeps_gets|]. intros ex.
    destruct (negb ex); [|apply keeps_ret].
    apply keeps_bind; [|intros; apply keeps_ret].
    apply keeps_try; [apply IH|].
    intros e. destruct e; try apply keeps_raise. apply keeps_ret.
  - intros stop. destruct stop; [apply keeps_ret|apply keeps_mkdir].
Qed.

(** An upload whose path is empty after stripping raises, and the files
    of the tree stay as they were. *)
Lemma local_upload_stripped_empty base p c w :
  PyStr.strip PyStr.slash p = "" →
  ∃ e w', Local.upload base p c w = (Raise e, w')
          ∧ OS.same_files (store w) (store w').
Proof.
  intros H. apply (join_stripped_empty base) in H.
  unfold Local.upload. rewrite try_reraise.
  set (full := OS.path_join base p) in *.
  unfold Py.bind at 1. unfold OS.path_exists at 1, gets at 1.
  set (pre := if negb _ then OS.makedirs (OS.path_dirname full) else ret ()).
  assert (Hpre : OS.keeps_files pre).
  { unfold pre. destruct (negb _); [apply keeps_makedirs_rec|apply keeps_ret]. }
  unfold Py.bind at 1. specialize (Hpre w).
  destruct (pre w) as [[[]|e] w1]; simpl in Hpre; [|by exists e, w1].
  unfold Py.bind.
  destruct (open_wb_refuses full w1 H) as (e & He & Hst).
  destruct (OS.open_wb full w1) as [[q|e'] w2]; simpl in *; [done|].
  exists e', w2. split; [done|]. by rewrite Hst.
Qed.

(** ** The drive *)

Lemma matches_set_content q i c it :
  Drive.matches q (Drive.set_content i c it) = Drive.matches q it.
Proof. unfold Drive.set_content. by destruct (Nat.eqb (Drive.id it) i). Qed.

Lemma id_set_content i c it : Drive.id (Drive.set_content i c it) = Drive.id it.
Proof. unfold Drive.set_content. by destruct (Nat.eqb (Drive.id it) i). Qed.

Lemma folder_set_content i c it :
  Drive.folder (Drive.set_content i c it) = Drive.folder it.
Proof. unfold Drive.set_content. by destruct (Nat.eqb (Drive.id it) i). Qed.

Lemma filter_set_content q i c fs :
  List.filter (Drive.matches q) (List.map (Drive.set_content i c) fs)
  = List.map (Drive.set_content i c) (List.filter (Drive.matches q) fs).
Proof.
  induction fs as [|it fs IH]; simpl; [done|].
  rewrite matches_set_content. destruct (Drive.matches q it); simpl; by rewrite IH.
Qed.

Lemma first_match_set_content q i c fs :
  Drive.first_match q (List.map (Drive.set_content i c) fs) = Drive.first_match q fs.
Proof.
  unfold Drive.first_match. rewrite filter_set_content.
  destruct (List.filter (Drive.matches q) fs); simpl; [done|].
  by rewrite id_set_content.
Qed.

Lemma first_match_app q fs extra i :
  Drive.first_match q fs = Some i → Drive.first_match q (fs ++ extra) = Some i.
Proof.
  unfold Drive.first_match. rewrite List.filter_app.
  by destruct (List.filter (Drive.matches q) fs).
Qed.

Lemma path_folder_set_content fs i c parts cur :
  Drive.path_folder (List.map (Drive.set_content i c) fs) parts cur
  = Drive.path_folder fs parts cur.
Proof.
  revert cur. induction parts as [|part rest IH]; intros cur; simpl; [done|].
  rewrite first_match_set_content.
  destruct (Drive.first_match _ fs); [apply IH|done].
Qed.

Lemma path_folder_app fs extra parts cur p :
  Drive.path_folder fs parts cur = Some p →
  Drive.path_folder (fs ++ extra) parts cur = Some p.
Proof.
  revert cur. induction parts as [|part rest IH]; intros cur; simpl; [done|].
  destruct (Drive.first_match _ fs) as [i|] eqn:E; [|done].
  rewrite (first_match_app _ _ _ _ E). apply IH.
Qed.

(** The parts of a plain path are plain. *)
Lemma plain_lstrip c s : Drive.plain s = true → Drive.plain (PyStr.lstrip c s) = true.
Proof.
  induction s as [|a s IH]; simpl; [done|]. intros H.
  destruct (Ascii.eqb a c); [|done]. apply IH. by apply andb_prop in H as [_ ?].
Qed.

Lemma plain_rstrip c s : Drive.plain s = true → Drive.plain (PyStr.rstrip c s) = true.
Proof.
  induction s as [|a s IH]; simpl; [done|]. intros [Ha Hs]%andb_prop.
  specialize (IH Hs). destruct (PyStr.rstrip c s) as [|b r].
  - destruct (Ascii.eqb a c); simpl; [done|]. by rewrite Ha.
  - change (Drive.plain_char a && Drive.plain (String b r) = true). by rewrite Ha, IH.
Qed.

Lemma plain_split c s :
  Drive.plain s = true → Forall (fun part => Drive.plain part = true) (PyStr.split c s).
Proof.
  induction s as [|a s IH]; simpl.
  - intros _. by repeat constructor.
  - intros [Ha Hs]%andb_prop. specialize (IH Hs).
    destruct (Ascii.eqb a c); [by constructor|].
    destruct (PyStr.split c s) as [|h t].
    + repeat constructor. simpl. by rewrite Ha.
    + inversion IH as [|? ? Hh Ht]; subst. constructor; [|done]. simpl. by rewrite Ha, Hh.
Qed.

Lemma plain_parts path :
  Drive.plain path = true →
  Forall (fun part => Drive.plain part = true)
    (PyStr.split PyStr.slash (PyStr.strip PyStr.slash path)).
Proof. intros H. by apply plain_split, plain_lstrip, plain_rstrip. Qed.

Lemma plain_init parts :
  Forall (fun part => Drive.plain part = true) parts →
  Forall (fun part => Drive.plain part = true) (PyStr.init_parts parts).
Proof.
  unfold PyStr.init_parts. induction 1 as [|x l Hx Hl IH]; simpl; [done|].
  destruct l; [constructor|]. by constructor.
Qed.

Lemma plain_last parts :
  Forall (fun part => Drive.plain part = true) parts →
  Drive.plain (PyStr.last_part parts) = true.
Proof.
  unfold PyStr.last_part. induction 1 as [|x l Hx Hl IH]; simpl; [done|].
  by destruct l.
Qed.

Lemma plain_path_init path :
  Drive.plain path = true →
  Forall (fun part => Drive.plain part = true)
    (PyStr.init_parts (PyStr.split PyStr.slash (PyStr.strip PyStr.slash path))).
Proof. intros H. by apply plain_init, plain_parts. Qed.

Lemma plain_path_last path :
  Drive.plain path = true →
  Drive.plain (PyStr.last_part (PyStr.split PyStr.slash (PyStr.strip PyStr.slash path)))
  = true.
Proof. intros H. by apply plain_last, plain_parts. Qed.

Lemma files_list_calm q (w : world Drive.drive) :
  calm w → Drive.plain (Drive.q_name q) = true →
  Drive.files_list q w
  = (Ok (List.filter (Drive.matches q) (Drive.files (store w))),
     World (store w) (tail (faults w))).
Proof. intros H Hp. unfold Drive.files_list. rewrite call_calm by done. by rewrite Hp. Qed.

(** Listing never changes the drive. *)
Lemma files_list_store q (w : world Drive.drive) :
  store (Drive.files_list q w).2 = store w.
Proof.
  unfold Drive.files_list, call.
  destruct w as [d [|[e|] flt]]; simpl; [| done |];
    destruct (Drive.plain (Drive.q_name q)); simpl; done.
Qed.

Lemma calm_step {S} (w : world S) (s' : S) : calm w → calm (World s' (tail (faults w))).
Proof. destruct w. apply calm_tail. Qed.

Lemma calm_step2 {S} (w : world S) (s' : S) :
  calm w → calm (World s' (tail (tail (faults w)))).
Proof.
  intros H. apply (calm_step (World (store w) (tail (faults w)))).
  by apply calm_step.
Qed.

(** The loop of [delete_by_prefix] never changes the drive. *)
Lemma find_loop_store parts cur tgt (w : world Drive.drive) :
  store (GDrive.find_loop parts cur tgt w).2 = store w.
Proof.
  revert cur tgt w. induction parts as [|part rest IH]; intros cur tgt w; simpl; [done|].
  unfold Py.bind.
  pose proof (files_list_store (Drive.Query part cur true) w) as Hs.
  destruct (Drive.files_list _ w) as [[[|f fs]|e] w1]; simpl in *; try done.
  by rewrite IH.
Qed.

(** In a calm world the loop returns early exactly when the chain of
    folders breaks. *)
Lemma find_loop_missing parts cur tgt (w : world Drive.drive) :
  calm w → Forall (fun part => Drive.plain part = true) parts →
  Drive.path_folder (Drive.files (store w)) parts cur = None →
  (GDrive.find_loop parts cur tgt w).1 = Ok GDrive.Returned.
Proof.
  revert cur tgt w. induction parts as [|part rest IH]; intros cur tgt w Hc Hpl Hp;
    simpl in *; [done|].
  inversion Hpl as [|? ? Hpart Hrest]; subst.
  unfold Py.bind. rewrite files_list_calm by done.
  unfold Drive.first_match in Hp.
  destruct (List.filter _ (Drive.files (store w))) as [|f fs]; simpl in *; [done|].
  apply IH; [by apply calm_step|done|done].
Qed.

Lemma find_loop_found parts cur tgt (w : world Drive.drive) p :
  calm w → Forall (fun part => Drive.plain part = true) parts → parts ≠ [] →
  Drive.path_folder (Drive.files (store w)) parts cur = Some p →
  (GDrive.find_loop parts cur tgt w).1 = Ok (GDrive.Finished (Some p)).
Proof.
  revert cur tgt w. induction parts as [|part rest IH]; intros cur tgt w Hc Hpl Hne Hp;
    simpl in *; [done|].
  inversion Hpl as [|? ? Hpart Hrest]; subst.
  unfold Py.bind. rewrite files_list_calm by done.
  unfold Drive.first_match in Hp.
  destruct (List.filter _ (Drive.files (store w))) as [|f fs]; simpl in *; [done|].
  destruct rest as [|part' rest'].
  - simpl in *. by injection Hp as ->.
  - apply IH; [by apply calm_step|done|done|done].
Qed.

(** Deleting by a prefix whose chain of folders breaks somewhere does
    nothing and succeeds. *)
Lemma gdrive_delete_missing root prefix (w : world Drive.drive) :
  calm w → Drive.plain prefix = true →
  Drive.path_folder (Drive.files (store w))
    (PyStr.split PyStr.slash (PyStr.strip PyStr.slash prefix)) root = None →
  ∃ w', GDrive.delete_by_prefix root prefix w = (Ok tt, w') ∧ store w' = store w.
Proof.
  intros Hc Hpl Hp. unfold GDrive.delete_by_prefix. rewrite try_reraise.
  unfold Py.bind.
  pose proof (find_loop_missing _ _ None w Hc (plain_parts _ Hpl) Hp) as Hr.
  pose proof (find_loop_store (PyStr.split PyStr.slash (PyStr.strip PyStr.slash prefix))
                root None w) as Hs.
  destruct (GDrive.find_loop _ root None w) as [r w1]; simpl in *. subst r.
  by exists w1.
Qed.

(** ** Object stores *)

Lemma list_blobs_none pre (m : gmap string bytes) :
  (∀ k, is_Some (m !! k) → String.prefix pre k = false) →
  List.filter (fun k => String.prefix pre k) (List.map fst (map_to_list m)) = [].
Proof.
  intros H.
  assert (Hall : ∀ k, In k (List.map fst (map_to_list m)) → String.prefix pre k = false).
  { intros k Hin. apply in_map_iff in Hin as ([k' v] & <- & Hin).
    apply H. exists v. apply elem_of_map_to_list. by apply list_elem_of_In. }
  induction (List.map fst (map_to_list m)) as [|k ks IH]; simpl; [done|].
  rewrite Hall by (by left). apply IH. intros k' Hin. apply Hall. by right.
Qed.

Lemma azure_delete_missing prefix (w : world (gmap string bytes)) :
  calm w →
  (∀ k, is_Some (store w !! k) → String.prefix prefix k = false) →
  Azure.delete_by_prefix prefix w = (Ok tt, World (store w) (tail (faults w))).
Proof.
  intros Hc H. unfold Azure.delete_by_prefix. rewrite try_reraise.
  unfold Py.bind, Blob.list_blobs. rewrite call_calm by done. simpl.
  by rewrite list_blobs_none.
Qed.

Lemma gcs_delete_missing prefix (w : world (gmap string bytes)) :
  calm w →
  (∀ k, is_Some (store w !! k) →
        String.prefix (PyStr.lstrip PyStr.slash prefix) k = false) →
  GCS.delete_by_prefix prefix w = (Ok tt, World (store w) (tail (faults w))).
Proof.
  intros Hc H. unfold GCS.delete_by_prefix. rewrite try_reraise.
  unfold Py.bind, Blob.list_blobs. rewrite call_calm by done. simpl.
  by rewrite list_blobs_none.
Qed.

(** ** Uploading to the drive *)

Lemma upload_unfold root path c (w : world Drive.drive) :
  GDrive.upload root path c w =
  let parts := PyStr.split PyStr.slash (PyStr.strip PyStr.slash path) in
  match GDrive.resolve_loop (PyStr.init_parts parts) root w with
  | (Ok parent, w1) => GDrive.create_or_update (PyStr.last_part parts) parent c w1
  | (Raise e, w1) => (Raise e, w1)
  end.
Proof.
  unfold GDrive.upload. rewrite try_reraise.
  unfold GDrive._resolve_path_to_folder, Py.bind, ret. simpl.
  by destruct (GDrive.resolve_loop _ root w) as [[p|e] w1].
Qed.

Lemma get_or_create_calm nm parent (w : world Drive.drive) :
  calm w → Drive.plain nm = true →
  GDrive._get_or_create_folder nm parent w =
  match List.filter (Drive.matches (Drive.Query nm parent true)) (Drive.files (store w)) with
  | f :: _ => (Ok (Drive.id f), World (store w) (tail (faults w)))
  | [] =>
      (Ok (Drive.next_id (store w)),
       World (Drive.DriveSt
                (Drive.files (store w)
                 ++ [Drive.Item (Drive.next_id (store w)) nm true [parent] false []])
                (S (Drive.next_id (store w))) (Drive.odd (store w)))
         (tail (tail (faults w))))
  end.
Proof.
  intros Hc Hpl. unfold GDrive._get_or_create_folder, Py.bind.
  rewrite files_list_calm by done.
  destruct (List.filter _ (Drive.files (store w))); [|done].
  unfold Drive.files_create. rewrite call_calm by (by apply calm_step). done.
Qed.

Lemma in_filter_head {A} (P : A → bool) (l : list A) f r :
  List.filter P l = f :: r → In f l ∧ P f = true.
Proof.
  intros H. apply filter_In. rewrite H. by left.
Qed.

Lemma existsb_id_in fs f :
  In f fs → existsb (fun it => Nat.eqb (Drive.id it) (Drive.id f)) fs = true.
Proof.
  intros H. apply existsb_exists. exists f. split; [done|]. apply Nat.eqb_refl.
Qed.

(** What [create_or_update] does in a calm world. *)
Lemma create_or_update_calm nm parent c (w : world Drive.drive) :
  calm w → Drive.plain nm = true →
  ∃ w', GDrive.create_or_update nm parent c w = (Ok tt, w') ∧ calm w'
    ∧ ((List.filter (Drive.matches (Drive.Query nm parent false)) (Drive.files (store w)) = []
        ∧ Drive.files (store w')
          = (Drive.files (store w)
             ++ [Drive.Item (Drive.next_id (store w)) nm false [parent] false c])%list)
       ∨ (∃ f r,
            List.filter (Drive.matches (Drive.Query nm parent false)) (Drive.files (store w))
            = f :: r
            ∧ Drive.files (store w')
              = List.map (Drive.set_content (Drive.id f) c) (Drive.files (store w)))).
Proof.
  intros Hc Hpl. unfold GDrive.create_or_update, Py.bind.
  rewrite files_list_calm by done.
  destruct (List.filter _ (Drive.files (store w))) as [|f r] eqn:E.
  - unfold Drive.files_create. rewrite call_calm by (by apply calm_step). simpl.
    eexists. split; [done|]. split; [by apply calm_step2|]. by left.
  - unfold Drive.files_update. rewrite call_calm by (by apply calm_step). simpl.
    apply in_filter_head in E as [Hin _]. rewrite (existsb_id_in _ _ Hin). simpl.
    eexists. split; [done|]. split; [by apply calm_step2|].
    right. by exists f, r.
Qed.

Lemma matches_new_leaf nm parent n c :
  Drive.matches (Drive.Query nm parent false) (Drive.Item n nm false [parent] false c) = true.
Proof.
  unfold Drive.matches; simpl. rewrite String.eqb_refl.
  rewrite bool_decide_eq_true_2; [done|]. by apply list_elem_of_singleton.
Qed.

(** The file that [create_or_update] leaves is the first of its name in
    the parent and holds the content. *)
Lemma create_or_update_first nm parent c (w : world Drive.drive) :
  calm w → Drive.plain nm = true →
  ∃ w' it r, GDrive.create_or_update nm parent c w = (Ok tt, w') ∧ calm w'
    ∧ List.filter (Drive.matches (Drive.Query nm parent false)) (Drive.files (store w'))
      = it :: r
    ∧ Drive.content it = c
    ∧ length (it :: r)
      = Nat.max 1 (length (List.filter (Drive.matches (Drive.Query nm parent false))
                             (Drive.files (store w)))).
Proof.
  intros Hc Hpl.
  destruct (create_or_update_calm nm parent c w Hc Hpl)
    as (w' & Hrun & Hc' & [[Hnone Hfs]|(f & r & Hsome & Hfs)]).
  - eexists w', _, []. repeat split; try done.
    + rewrite Hfs, List.filter_app, Hnone. simpl. by rewrite matches_new_leaf.
    + done.
    + by rewrite Hnone.
  - exists w', (Drive.set_content (Drive.id f) c f),
      (List.map (Drive.set_content (Drive.id f) c) r).
    repeat split; try done.
    + by rewrite Hfs, filter_set_content, Hsome.
    + unfold Drive.set_content. by rewrite Nat.eqb_refl.
    + rewrite Hsome. simpl. by rewrite length_map.
Qed.

Lemma folder_unique_add_folder fs n nm parent :
  List.filter (Drive.matches (Drive.Query nm parent true)) fs = [] →
  Drive.folder_unique fs →
  Drive.folder_unique (fs ++ [Drive.Item n nm true [parent] false []]).
Proof.
  intros Hnone Hu nm' parent'. rewrite List.filter_app, length_app. simpl.
  destruct (Drive.matches _ _) eqn:Hm; simpl; [|specialize (Hu nm' parent'); lia].
  unfold Drive.matches in Hm; simpl in Hm.
  apply andb_prop in Hm as [Hm _]. apply andb_prop in Hm as [Hm _].
  apply andb_prop in Hm as [Hn Hp].
  apply String.eqb_eq in Hn as <-.
  apply bool_decide_eq_true_1, list_elem_of_singleton in Hp as ->.
  by rewrite Hnone.
Qed.

Lemma folder_unique_add_leaf fs n nm parent c :
  Drive.folder_unique fs →
  Drive.folder_unique (fs ++ [Drive.Item n nm false [parent] false c]).
Proof.
  intros Hu nm' parent'. rewrite List.filter_app, length_app. simpl.
  replace (Drive.matches _ _) with false.
  - specialize (Hu nm' parent'). simpl. lia.
  - unfold Drive.matches; simpl. by rewrite andb_false_r.
Qed.

Lemma folder_unique_set_content fs i c :
  Drive.folder_unique fs → Drive.folder_unique (List.map (Drive.set_content i c) fs).
Proof.
  intros Hu nm parent. rewrite filter_set_content, length_map. apply Hu.
Qed.

Lemma known_mono d d' it :
  (Drive.next_id d ≤ Drive.next_id d')%nat → Drive.known d it → Drive.known d' it.
Proof.
  intros Hle [Hid Hps]. split; [lia|].
  eapply Forall_impl; [exact Hps|]. simpl. intros; lia.
Qed.

Lemma childless_no_match fs p nm fo :
  Drive.childless fs p → List.filter (Drive.matches (Drive.Query nm p fo)) fs = [].
Proof.
  intros Hc. induction fs as [|it fs IH]; simpl; [done|].
  inversion Hc as [|? ? Hit Hrest]; subst.
  replace (Drive.matches _ it) with false; [by apply IH|].
  unfold Drive.matches; simpl.
  rewrite (bool_decide_eq_false_2 _ Hit). by rewrite andb_false_r.
Qed.

(** The walk of [_resolve_path_to_folder] in a calm world: it returns a
    folder, adds folders only (at the end of the listing), and afterwards
    the chain of names leads to the folder it returned. *)
Lemma resolve_loop_spec parts :
  Forall (fun part => Drive.plain part = true) parts →
  ∀ cur (w : world Drive.drive), calm w →
  ∃ p w' extra,
    GDrive.resolve_loop parts cur w = (Ok p, w') ∧ calm w'
    ∧ Drive.files (store w') = (Drive.files (store w) ++ extra)%list
    ∧ Forall (fun it => Drive.folder it = true) extra
    ∧ Drive.path_folder (Drive.files (store w')) parts cur = Some p
    ∧ (Drive.folder_unique (Drive.files (store w)) →
       Drive.folder_unique (Drive.files (store w')))
    ∧ (Forall (Drive.known (store w)) (Drive.files (store w)) →
       (cur < Drive.next_id (store w))%nat →
       Forall (Drive.known (store w')) (Drive.files (store w'))
       ∧ (p < Drive.next_id (store w'))%nat
       ∧ (extra = [] ∨ Drive.childless (Drive.files (store w')) p)
       ∧ (Drive.childless (Drive.files (store w)) cur →
          Drive.childless (Drive.files (store w')) p)).
Proof.
  induction 1 as [|part rest Hpart Hrest IH]; intros cur w Hc.
  { exists cur, w, []. simpl. rewrite app_nil_r. repeat split; auto. }
  simpl. unfold Py.bind. rewrite get_or_create_calm by done.
  destruct (List.filter _ (Drive.files (store w))) as [|f r] eqn:E.
  - (* the folder is created *)
    set (n := Drive.next_id (store w)).
    set (new := Drive.Item n part true [cur] false []).
    set (w1 := World (Drive.DriveSt (Drive.files (store w) ++ [new]) (S n) _) _).
    assert (Hc1 : calm w1) by (by apply calm_step2).
    destruct (IH n w1 Hc1) as (p & w' & extra & Hrun & Hc' & Hfs & Hfo & Hpath & Hun & Hwf).
    simpl in Hfs.
    exists p, w', (new :: extra). rewrite Hrun.
    split; [done|]. split; [done|].
    split; [by rewrite Hfs, <- app_assoc|].
    split; [by constructor|].
    assert (Hfirst : Drive.first_match (Drive.Query part cur true) (Drive.files (store w'))
                     = Some n).
    { rewrite Hfs. apply first_match_app. unfold Drive.first_match.
      rewrite List.filter_app, E. simpl.
      unfold Drive.matches; simpl. rewrite String.eqb_refl.
      rewrite bool_decide_eq_true_2; [done|]. by apply list_elem_of_singleton. }
    split; [by rewrite Hfirst|].
    split; [intros Hu; apply Hun; simpl; by apply folder_unique_add_folder|].
    intros Hk Hcur.
    assert (Hk1 : Forall (Drive.known (store w1)) (Drive.files (store w1))).
    { simpl. apply Forall_app. split.
      - eapply Forall_impl; [exact Hk|]. intros it. apply known_mono. simpl. lia.
      - constructor; [|done]. split; simpl; [lia|]. constructor; [lia|done]. }
    assert (Hch1 : Drive.childless (Drive.files (store w1)) n).
    { simpl. apply Forall_app. split.
      - eapply Forall_impl; [exact Hk|]. intros it [_ Hps] Hin.
        rewrite Forall_forall in Hps. specialize (Hps _ Hin). unfold n in Hps. lia.
      - constructor; [|done]. simpl. intros Hin.
        apply list_elem_of_singleton in Hin. lia. }
    destruct (Hwf Hk1) as (Hk' & Hp & _ & Hch); [simpl; lia|].
    repeat split; auto.
  - (* the folder is found *)
    set (w1 := World (store w) (tail (faults w))).
    assert (Hc1 : calm w1) by (by apply calm_step).
    destruct (IH (Drive.id f) w1 Hc1)
      as (p & w' & extra & Hrun & Hc' & Hfs & Hfo & Hpath & Hun & Hwf).
    simpl in Hfs, Hun, Hwf.
    exists p, w', extra. rewrite Hrun. repeat split; auto.
    + assert (Hfirst : Drive.first_match (Drive.Query part cur true)
                         (Drive.files (store w')) = Some (Drive.id f)).
      { rewrite Hfs. apply first_match_app. unfold Drive.first_match. by rewrite E. }
      by rewrite Hfirst.
    + apply Hwf; [done|]. apply in_filter_head in E as [Hin _].
      rewrite Forall_forall in H. apply list_elem_of_In in Hin. by destruct (H _ Hin).
    + apply Hwf; [done|]. apply in_filter_head in E as [Hin _].
      rewrite Forall_forall in H. apply list_elem_of_In in Hin. by destruct (H _ Hin).
    + apply Hwf; [done|]. apply in_filter_head in E as [Hin _].
      rewrite Forall_forall in H. apply list_elem_of_In in Hin. by destruct (H _ Hin).
    + intros Hch. exfalso.
      rewrite (childless_no_match _ _ _ _ Hch) in E. discriminate.
Qed.

(** When the chain of folders is there, the walk finds it and creates
    nothing. *)
Lemma resolve_loop_found parts :
  Forall (fun part => Drive.plain part = true) parts →
  ∀ cur (w : world Drive.drive) p, calm w →
  Drive.path_folder (Drive.files (store w)) parts cur = Some p →
  ∃ w', GDrive.resolve_loop parts cur w = (Ok p, w') ∧ calm w' ∧ store w' = store w.
Proof.
  induction 1 as [|part rest Hpart Hrest IH]; intros cur w p Hc Hp; simpl in *.
  { injection Hp as <-. by exists w. }
  unfold Py.bind. rewrite get_or_create_calm by done.
  unfold Drive.first_match in Hp.
  destruct (List.filter _ (Drive.files (store w))) as [|f r]; [done|]. simpl in Hp.
  destruct (IH (Drive.id f) (World (store w) (tail (faults w))) p) as (w' & Hrun & Hc' & Hst);
    [by apply calm_step|done|].
  exists w'. by rewrite Hrun.
Qed.

Lemma length_le_1_cons {A} (x : A) r : (length (x :: r) ≤ 1)%nat → r = [].
Proof. destruct r; simpl; [done|lia]. Qed.

(** The first upload to a path on a well-formed drive without duplicate
    names leaves exactly one file of the leaf's name in the resolved
    folder, with the content. *)
Lemma gdrive_upload_fresh root path c (w : world Drive.drive) :
  calm w → Drive.plain path = true →
  Drive.wf root (store w) → Drive.name_unique (Drive.files (store w)) →
  let parts := PyStr.split PyStr.slash (PyStr.strip PyStr.slash path) in
  ∃ w' parent it,
    GDrive.upload root path c w = (Ok tt, w') ∧ calm w'
    ∧ Drive.path_folder (Drive.files (store w')) (PyStr.init_parts parts) root = Some parent
    ∧ List.filter (Drive.matches (Drive.Query (PyStr.last_part parts) parent false))
        (Drive.files (store w')) = [it]
    ∧ Drive.content it = c.
Proof.
  intros Hc Hpl [Hroot Hk] Hu parts. rewrite upload_unfold. cbv zeta. fold parts.
  destruct (resolve_loop_spec (PyStr.init_parts parts) (plain_path_init path Hpl) root w Hc)
    as (parent & w1 & extra & Hrun & Hc1 & Hfs & _ & Hpath & _ & Hwf).
  destruct (Hwf Hk Hroot) as (_ & _ & Hcase & _).
  rewrite Hrun.
  set (q := Drive.Query (PyStr.last_part parts) parent false).
  assert (Hle : (length (List.filter (Drive.matches q) (Drive.files (store w1))) ≤ 1)%nat).
  { destruct Hcase as [->|Hch].
    - rewrite app_nil_r in Hfs. rewrite Hfs. apply Hu.
    - unfold q. rewrite (childless_no_match _ _ _ _ Hch). simpl. lia. }
  unfold q in Hle. clear q.
  destruct (create_or_update_calm (PyStr.last_part parts) parent c w1 Hc1
              (plain_path_last path Hpl))
    as (w' & Hput & Hc' & [[Hnone Hfs']|(f & r & Hsome & Hfs')]).
  - exists w', parent, (Drive.Item (Drive.next_id (store w1)) (PyStr.last_part parts)
                          false [parent] false c).
    repeat split; try done.
    + rewrite Hfs'. by apply path_folder_app.
    + rewrite Hfs', List.filter_app, Hnone. simpl. by rewrite matches_new_leaf.
  - rewrite Hsome in Hle. apply length_le_1_cons in Hle as ->.
    exists w', parent, (Drive.set_content (Drive.id f) c f).
    repeat split; try done.
    + by rewrite Hfs', path_folder_set_content.
    + by rewrite Hfs', filter_set_content, Hsome.
    + unfold Drive.set_content. by rewrite Nat.eqb_refl.
Qed.

(** An upload to a path whose folders exist and whose leaf is the only
    file of its name there updates that file and creates nothing. *)
Lemma gdrive_upload_again root path c (w : world Drive.drive) parent it :
  calm w → Drive.plain path = true →
  let parts := PyStr.split PyStr.slash (PyStr.strip PyStr.slash path) in
  Drive.path_folder (Drive.files (store w)) (PyStr.init_parts parts) root = Some parent →
  List.filter (Drive.matches (Drive.Query (PyStr.last_part parts) parent false))
    (Drive.files (store w)) = [it] →
  ∃ w',
    GDrive.upload root path c w = (Ok tt, w') ∧ calm w'
    ∧ Drive.files (store w')
      = List.map (Drive.set_content (Drive.id it) c) (Drive.files (store w)).
Proof.
  intros Hc Hpl parts Hpath Hleaf. rewrite upload_unfold. cbv zeta. fold parts.
  destruct (resolve_loop_found (PyStr.init_parts parts) (plain_path_init path Hpl)
              root w parent Hc Hpath)
    as (w1 & Hrun & Hc1 & Hst).
  rewrite Hrun.
  destruct (create_or_update_calm (PyStr.last_part parts) parent c w1 Hc1
              (plain_path_last path Hpl))
    as (w' & Hput & Hc' & [[Hnone Hfs']|(f & r & Hsome & Hfs')]);
    rewrite Hst in *.
  - by rewrite Hnone in Hleaf.
  - rewrite Hsome in Hleaf. injection Hleaf as -> ->. by exists w'.
Qed.

Lemma calm_quiet {S} (s : S) : calm (Samples.quiet s).
Proof. constructor. Qed.

Lemma split_nonempty c s : PyStr.split c s ≠ [].
Proof.
  destruct s as [|a s]; simpl; [done|].
  destruct (Ascii.eqb a c); [done|]. by destruct (PyStr.split c s).
Qed.








(** ** Failures, empty paths and slashes *)

(** With the media root /srv/media, an upload to /etc/passwd overwrites
    that file, and deleting by the prefix /etc removes the directory
    /etc: both lie outside the root. *)
Example local_escape_example :
  (∃ w', Local.upload Samples.base_path "/etc/passwd" (Samples.data "x")
           (Samples.quiet Samples.tree0) = (Ok tt, w')
         ∧ OS.tree (store w') !! ["etc"; "passwd"] = Some (OS.F (Samples.data "x")))
  ∧ (∃ w', Local.delete_by_prefix Samples.base_path "/etc" (Samples.quiet Samples.tree0)
           = (Ok tt, w')
         ∧ OS.tree (store w') !! ["etc"] = None
         ∧ OS.tree (store w') !! ["etc"; "passwd"] = None).
Proof.
  split; eexists; (split; [by vm_compute|]); by vm_compute.
Qed.

(** C3 does not hold for the local provider: its [delete_by_prefix]
    never raises, and when [shutil.rmtree] fails the call still reports
    success, with the directory in place. *)
Theorem C3_local_delete_swallows_failure :
  (∀ base_path prefix (w : world OS.fsys),
      (Local.delete_by_prefix base_path prefix w).1 = Ok tt)
  ∧ OS.rmtree "/srv/media/folder/" (World Samples.tree0 [Some PermissionError])
    = (Raise PermissionError, World Samples.tree0 [])
  ∧ Local.delete_by_prefix Samples.base_path "folder/"
      (World Samples.tree0 [Some PermissionError])
    = (Ok tt, World Samples.tree0 []).
Proof.
  split; [apply local_delete_never_raises|]. split; reflexivity.
Qed.

(** The other providers, and the local upload, hand a failure of their
    first backend call on to the caller. *)
Lemma siblings_raise_first_fault e flt :
  (∀ path c m, path ≠ "" →
      Azure.upload path c (World m (Some e :: flt)) = (Raise e, World m flt))
  ∧ (∀ prefix m, Azure.delete_by_prefix prefix (World m (Some e :: flt))
                 = (Raise e, World m flt))
  ∧ (∀ path c m, GCS.upload path c (World m (Some e :: flt)) = (Raise e, World m flt))
  ∧ (∀ prefix m, GCS.delete_by_prefix prefix (World m (Some e :: flt))
                 = (Raise e, World m flt))
  ∧ (∀ root prefix d, GDrive.delete_by_prefix root prefix (World d (Some e :: flt))
                      = (Raise e, World d flt)).
Proof.
  split.
  { intros path c m Hne. unfold Azure.upload, Blob.get_blob_client.
    by destruct (String.eqb_spec path ""). }
  split; [reflexivity|]. split; [reflexivity|].
  split; [reflexivity|].
  intros root prefix d.
  unfold GDrive.delete_by_prefix. rewrite try_reraise. unfold Py.bind.
  pose proof (split_nonempty PyStr.slash (PyStr.strip PyStr.slash prefix)) as Hne.
  destruct (PyStr.split PyStr.slash (PyStr.strip PyStr.slash prefix)); [done|].
  reflexivity.
Qed.

(** An Azure deletion that fails in the middle raises, and what was
    deleted before stays deleted. *)
Example azure_partial_delete :
  ∃ w1 w2,
    (let* _ := Azure.upload "a/1" (Samples.data "d") in
     Azure.upload "a/2" (Samples.data "e"))
      (World Samples.empty_bucket [None; None; None; None; Some (HttpError 503)])
    = (Ok tt, w1)
    ∧ Azure.delete_by_prefix "a/" w1 = (Raise (HttpError 503), w2)
    ∧ store w2 !! "a/1" = None ∧ store w2 !! "a/2" = Some (Samples.data "e").
Proof.
  do 2 eexists. split; [by vm_compute|]. split; [by vm_compute|]. by vm_compute.
Qed.

(** C4, as the code has it: no provider checks the path. On the local
    file system an upload whose path is empty after stripping slashes
    raises the error of the operating system and no file is written or
    changed; on the drive such an upload succeeds and leaves a file with
    the empty name in the root folder that holds the content. *)
Theorem C4_empty_leaf_local_raises_gdrive_stores :
  (∀ base_path path c (w : world OS.fsys),
      PyStr.strip PyStr.slash path = "" →
      ∃ e w', Local.upload base_path path c w = (Raise e, w')
              ∧ OS.same_files (store w) (store w'))
  ∧ (∀ root path c (w : world Drive.drive),
      PyStr.strip PyStr.slash path = "" → calm w →
      ∃ w' it rest,
        GDrive.upload root path c w = (Ok tt, w')
        ∧ List.filter (Drive.matches (Drive.Query "" root false)) (Drive.files (store w'))
          = it :: rest
        ∧ Drive.content it = c).
Proof.
  split.
  - intros. by apply local_upload_stripped_empty.
  - intros root path c w Hs Hc. rewrite upload_unfold, Hs. simpl.
    destruct (create_or_update_first "" root c w Hc eq_refl)
      as (w' & it & r & Hrun & _ & Hf & Hcont & _).
    by exists w', it, r.
Qed.

(** C4 fails on the drive: an upload with the empty path to an empty
    drive succeeds and stores a file. *)
Lemma C4_counterexample_gdrive_accepts_empty_path :
  GDrive.upload Samples.root_folder_id "" (Samples.data "data")
    (Samples.quiet Samples.empty_drive)
  = (Ok tt,
     Samples.quiet
       (Drive.DriveSt [Drive.Item 1 "" false [0] false (Samples.data "data")] 2
          Drive.refuse)).
Proof. reflexivity. Qed.

(** Paths of slashes only, on the sample tree and the empty drive. *)
Lemma C4_witness :
  (∃ e w', Local.upload Samples.base_path "//" (Samples.data "data")
             (Samples.quiet Samples.tree0) = (Raise e, w')
           ∧ OS.same_files Samples.tree0 (store w'))
  ∧ (∃ w' it rest,
        GDrive.upload Samples.root_folder_id "/" (Samples.data "data")
          (Samples.quiet Samples.empty_drive) = (Ok tt, w')
        ∧ List.filter (Drive.matches (Drive.Query "" Samples.root_folder_id false))
            (Drive.files (store w')) = it :: rest
        ∧ Drive.content it = Samples.data "data").
Proof.
  destruct C4_empty_leaf_local_raises_gdrive_stores as [Hlocal Hdrive].
  split.
  - apply (Hlocal Samples.base_path "//" _ (Samples.quiet Samples.tree0)). reflexivity.
  - apply Hdrive; [reflexivity|apply calm_quiet].
Defined.

Lemma blob_put_calm k c (w : world (gmap string bytes)) :
  calm w → Blob.put_blob k c w = (Ok tt, World (<[k := c]> (store w)) (tail (faults w))).
Proof. intros H. unfold Blob.put_blob. by rewrite call_calm. Qed.

Lemma blob_put_ok k c (w w' : world (gmap string bytes)) :
  Blob.put_blob k c w = (Ok tt, w') → store w' = <[k := c]> (store w).
Proof. intros H. apply call_ok_inv in H. by injection H. Qed.

Lemma azure_upload_calm p c (w : world (gmap string bytes)) :
  p ≠ "" → calm w →
  Azure.upload p c w = (Ok tt, World (<[p := c]> (store w)) (tail (faults w))).
Proof.
  intros Hne Hc. unfold Azure.upload, Blob.get_blob_client. rewrite try_reraise.
  destruct (String.eqb_spec p ""); [done|].
  unfold Py.bind, ret. by rewrite blob_put_calm.
Qed.

Lemma azure_upload_ok p c (w w' : world (gmap string bytes)) :
  Azure.upload p c w = (Ok tt, w') → p ≠ "" ∧ store w' = <[p := c]> (store w).
Proof.
  unfold Azure.upload, Blob.get_blob_client. rewrite try_reraise.
  destruct (String.eqb_spec p ""); [done|].
  unfold Py.bind, ret. intros H. split; [done|]. by apply blob_put_ok in H.
Qed.

Lemma gcs_upload_calm p c (w : world (gmap string bytes)) :
  calm w →
  GCS.upload p c w
  = (Ok tt, World (<[PyStr.lstrip PyStr.slash p := c]> (store w)) (tail (faults w))).
Proof. intros Hc. unfold GCS.upload. by rewrite try_reraise, blob_put_calm. Qed.




(** ** Putting twice *)

Lemma first_match_unique fs nm parent i :
  Drive.folder_unique fs →
  Drive.first_match (Drive.Query nm parent true) fs = Some i →
  List.map Drive.id (List.filter (Drive.matches (Drive.Query nm parent true)) fs) = [i].
Proof.
  intros Hu. unfold Drive.first_match. specialize (Hu nm parent).
  destruct (List.filter _ fs) as [|f r]; [done|].
  apply length_le_1_cons in Hu as ->. simpl. by intros [= ->].
Qed.

Lemma folders_set_content i c fs :
  length (List.filter Drive.folder (List.map (Drive.set_content i c) fs))
  = length (List.filter Drive.folder fs).
Proof.
  induction fs as [|it fs IH]; simpl; [done|].
  rewrite folder_set_content. destruct (Drive.folder it); simpl; by rewrite IH.
Qed.

(** [create_or_update] keeps the chains of folders, the uniqueness of
    folders and the number of folders. *)
Lemma create_or_update_keeps nm parent c (w : world Drive.drive) :
  calm w → Drive.plain nm = true →
  ∃ w', GDrive.create_or_update nm parent c w = (Ok tt, w') ∧ calm w'
    ∧ (∀ parts cur p, Drive.path_folder (Drive.files (store w)) parts cur = Some p →
                      Drive.path_folder (Drive.files (store w')) parts cur = Some p)
    ∧ (Drive.folder_unique (Drive.files (store w)) →
       Drive.folder_unique (Drive.files (store w')))
    ∧ length (List.filter Drive.folder (Drive.files (store w')))
      = length (List.filter Drive.folder (Drive.files (store w))).
Proof.
  intros Hc Hpl.
  destruct (create_or_update_calm nm parent c w Hc Hpl)
    as (w' & Hrun & Hc' & [[_ Hfs]|(f & r & _ & Hfs)]);
    exists w'; rewrite Hfs; repeat split; try done.
  - intros. by apply path_folder_app.
  - apply folder_unique_add_leaf.
  - rewrite List.filter_app. simpl. by rewrite app_nil_r.
  - intros. by rewrite path_folder_set_content.
  - apply folder_unique_set_content.
  - apply folders_set_content.
Qed.

(** C7: on a drive without duplicate folders, in a calm world, the two
    uploads succeed; afterwards the root folder holds exactly one folder
    x and that folder exactly one folder y, and the second upload has
    added no folder. *)
Theorem C7_second_put_reuses_folders (root : nat) (d1 d2 : bytes) (w : world Drive.drive) :
  calm w → Drive.folder_unique (Drive.files (store w)) →
  ∃ w1 w2 x y,
    GDrive.upload root "x/y/1" d1 w = (Ok tt, w1)
    ∧ GDrive.upload root "x/y/2" d2 w1 = (Ok tt, w2)
    ∧ List.map Drive.id
        (List.filter (Drive.matches (Drive.Query "x" root true)) (Drive.files (store w2)))
      = [x]
    ∧ List.map Drive.id
        (List.filter (Drive.matches (Drive.Query "y" x true)) (Drive.files (store w2)))
      = [y]
    ∧ length (List.filter Drive.folder (Drive.files (store w2)))
      = length (List.filter Drive.folder (Drive.files (store w1))).
Proof.
  intros Hc Hu. rewrite upload_unfold.
  change (PyStr.split PyStr.slash (PyStr.strip PyStr.slash "x/y/1")) with ["x"; "y"; "1"].
  cbv zeta. change (PyStr.init_parts ["x"; "y"; "1"]) with ["x"; "y"].
  change (PyStr.last_part ["x"; "y"; "1"]) with "1".
  assert (Hxy : Forall (fun part => Drive.plain part = true) ["x"; "y"])
    by (by repeat constructor).
  destruct (resolve_loop_spec ["x"; "y"] Hxy root w Hc)
    as (p & wa & extra & Hrun & Hca & _ & _ & Hpath & Hun & _).
  rewrite Hrun.
  destruct (create_or_update_keeps "1" p d1 wa Hca eq_refl) as (w1 & Hput & Hc1 & Hkeep & Hun1 & _).
  rewrite Hput.
  pose proof (Hkeep _ _ _ Hpath) as Hpath1.
  exists w1. rewrite upload_unfold.
  change (PyStr.split PyStr.slash (PyStr.strip PyStr.slash "x/y/2")) with ["x"; "y"; "2"].
  cbv zeta. change (PyStr.init_parts ["x"; "y"; "2"]) with ["x"; "y"].
  change (PyStr.last_part ["x"; "y"; "2"]) with "2".
  destruct (resolve_loop_found ["x"; "y"] Hxy root w1 p Hc1 Hpath1) as (wb & Hrun2 & Hcb & Hst).
  rewrite Hrun2.
  destruct (create_or_update_keeps "2" p d2 wb Hcb eq_refl) as (w2 & Hput2 & _ & Hkeep2 & Hun2 & Hn2).
  rewrite Hput2. rewrite Hst in *.
  pose proof (Hkeep2 _ _ _ Hpath1) as Hpath2.
  assert (Hu2 : Drive.folder_unique (Drive.files (store w2))) by auto.
  simpl in Hpath2.
  destruct (Drive.first_match (Drive.Query "x" root true) (Drive.files (store w2)))
    as [x|] eqn:Hx; [|done].
  exists w2, x, p. repeat split; try done.
  - by apply first_match_unique.
  - apply first_match_unique; [done|].
    by destruct (Drive.first_match (Drive.Query "y" x true) (Drive.files (store w2))).
Qed.

Lemma folder_unique_empty : Drive.folder_unique [].
Proof. intros nm parent. simpl. lia. Qed.

(** The two uploads on the empty drive. *)
Lemma C7_witness :
  ∃ w1 w2 x y,
    GDrive.upload Samples.root_folder_id "x/y/1" (Samples.data "data")
      (Samples.quiet Samples.empty_drive) = (Ok tt, w1)
    ∧ GDrive.upload Samples.root_folder_id "x/y/2" (Samples.data "data") w1 = (Ok tt, w2)
    ∧ List.map Drive.id
        (List.filter (Drive.matches (Drive.Query "x" Samples.root_folder_id true))
           (Drive.files (store w2))) = [x]
    ∧ List.map Drive.id
        (List.filter (Drive.matches (Drive.Query "y" x true)) (Drive.files (store w2)))
      = [y]
    ∧ length (List.filter Drive.folder (Drive.files (store w2)))
      = length (List.filter Drive.folder (Drive.files (store w1))).
Proof.
  apply (C7_second_put_reuses_folders Samples.root_folder_id (Samples.data "data")
           (Samples.data "data") (Samples.quiet Samples.empty_drive)).
  - apply calm_quiet.
  - apply folder_unique_empty.
Defined.

(** * Further properties of the providers *)

(** ** Deleting blobs by prefix *)

Lemma blob_keys_nodup (m : gmap string bytes) pre :
  List.NoDup (List.filter (fun k => String.prefix pre k) (List.map fst (map_to_list m))).
Proof.
  apply List.NoDup_filter, NoDup_ListNoDup, NoDup_fst_map_to_list.
Qed.

Lemma blob_keys_in (m : gmap string bytes) pre k :
  In k (List.filter (fun k => String.prefix pre k) (List.map fst (map_to_list m)))
  ↔ is_Some (m !! k) ∧ String.prefix pre k = true.
Proof.
  rewrite filter_In, in_map_iff. split.
  - intros [([k' v] & <- & Hin) Hp]. split; [|done]. exists v.
    apply elem_of_map_to_list. by apply list_elem_of_In.
  - intros [[v Hv] Hp]. split; [|done]. exists (k, v). split; [done|].
    apply list_elem_of_In. by apply elem_of_map_to_list.
Qed.

(** The loop that deletes the listed blobs, in a calm world. *)
Lemma delete_loop_calm ks :
  ∀ (w : world (gmap string bytes)),
    calm w → List.NoDup ks → (∀ k, In k ks → is_Some (store w !! k)) →
    ∃ w', for_each ks (fun blob => Blob.delete_blob blob) w = (Ok tt, w') ∧ calm w'
          ∧ ∀ k, (In k ks → store w' !! k = None)
                 ∧ (¬ In k ks → store w' !! k = store w !! k).
Proof.
  induction ks as [|k0 ks IH]; intros w Hc Hnd Hin; simpl.
  { exists w. repeat split; try done. }
  unfold Py.bind, Blob.delete_blob. rewrite call_calm by done.
  destruct (Hin k0) as [v Hv]; [by left|]. rewrite Hv. simpl.
  inversion Hnd as [|? ? Hk0 Hnd']; subst.
  destruct (IH (World (delete k0 (store w)) (tail (faults w)))) as (w' & Hrun & Hc' & Hl).
  - by apply calm_step.
  - done.
  - intros k Hk. simpl. rewrite lookup_delete_ne; [apply Hin; by right|].
    intros ->. done.
  - exists w'. split; [done|]. split; [done|]. intros k.
    destruct (Hl k) as [Hl1 Hl2]. simpl in Hl2. split.
    + intros [->|Hk]; [|by apply Hl1].
      rewrite Hl2 by done. apply lookup_delete_eq.
    + intros Hk. rewrite Hl2 by tauto. apply lookup_delete_ne. tauto.
Qed.

Lemma delete_listed_calm pre (w : world (gmap string bytes)) :
  calm w →
  ∃ w', for_each (List.filter (fun k => String.prefix pre k)
                    (List.map fst (map_to_list (store w))))
          (fun blob => Blob.delete_blob blob) w = (Ok tt, w') ∧ calm w'
        ∧ ∀ k, store w' !! k = if String.prefix pre k then None else store w !! k.
Proof.
  intros Hc.
  destruct (delete_loop_calm _ w Hc (blob_keys_nodup (store w) pre)) as (w' & Hrun & Hc' & Hl).
  { intros k Hk. by apply blob_keys_in in Hk as [? _]. }
  exists w'. split; [done|]. split; [done|]. intros k.
  destruct (Hl k) as [Hl1 Hl2].
  destruct (String.prefix pre k) eqn:Hp.
  - destruct (store w !! k) as [v|] eqn:Hv.
    + apply Hl1, blob_keys_in. eauto.
    + apply Hl2. intros Hk. apply blob_keys_in in Hk as [[? ?] _]. congruence.
  - apply Hl2. intros Hk. apply blob_keys_in in Hk as [_ ?]. congruence.
Qed.

(** X1: in a calm world the Azure [delete_by_prefix] succeeds, and
    afterwards the container holds exactly the blobs whose names do not
    start with the prefix, with their contents. *)
Theorem X1_azure_delete_removes_exactly_the_prefix
    (prefix : string) (w : world (gmap string bytes)) :
  calm w →
  ∃ w', Azure.delete_by_prefix prefix w = (Ok tt, w')
        ∧ ∀ k, store w' !! k = if String.prefix prefix k then None else store w !! k.
Proof.
  intros Hc. unfold Azure.delete_by_prefix. rewrite try_reraise.
  unfold Py.bind, Blob.list_blobs. rewrite call_calm by done. simpl.
  destruct (delete_listed_calm prefix (World (store w) (tail (faults w))))
    as (w' & Hrun & _ & Hl); [by apply calm_step|].
  simpl in Hrun. exists w'. by split.
Qed.

(** The blobs a/1 and a/2 go, b/1 stays. *)
Lemma X1_witness :
  ∃ w', Azure.delete_by_prefix "a/"
          (Samples.quiet (<["a/1" := Samples.data "x"]>
                            (<["a/2" := Samples.data "y"]>
                               (<["b/1" := Samples.data "z"]> Samples.empty_bucket))))
        = (Ok tt, w')
        ∧ store w' !! "a/1" = None ∧ store w' !! "a/2" = None
        ∧ store w' !! "b/1" = Some (Samples.data "z").
Proof.
  destruct (X1_azure_delete_removes_exactly_the_prefix "a/"
              (Samples.quiet (<["a/1" := Samples.data "x"]>
                                (<["a/2" := Samples.data "y"]>
                                   (<["b/1" := Samples.data "z"]> Samples.empty_bucket)))))
    as (w' & Hrun & Hl); [apply calm_quiet|].
  exists w'. split; [exact Hrun|]. rewrite !Hl. clear. vm_compute. repeat split.
Defined.

(** X2: in a calm world the GCS [delete_by_prefix] succeeds, and
    afterwards the bucket holds exactly the blobs whose names do not
    start with the prefix taken without its leading slashes. *)
Theorem X2_gcs_delete_removes_exactly_the_clean_prefix
    (prefix : string) (w : world (gmap string bytes)) :
  calm w →
  ∃ w', GCS.delete_by_prefix prefix w = (Ok tt, w')
        ∧ ∀ k, store w' !! k
               = if String.prefix (PyStr.lstrip PyStr.slash prefix) k then None
                 else store w !! k.
Proof.
  intros Hc. unfold GCS.delete_by_prefix. rewrite try_reraise.
  unfold Py.bind, Blob.list_blobs. rewrite call_calm by done. simpl.
  set (pre := PyStr.lstrip PyStr.slash prefix).
  destruct (delete_listed_calm pre (World (store w) (tail (faults w))))
    as (w' & Hrun & _ & Hl); [by apply calm_step|].
  simpl in Hrun, Hl.
  destruct (List.filter _ (List.map fst (map_to_list (store w)))) as [|k0 ks];
    exists w'; (split; [exact Hrun|exact Hl]).
Qed.

(** The prefix /a/ removes the blobs under a/. *)
Lemma X2_witness :
  ∃ w', GCS.delete_by_prefix "/a/"
          (Samples.quiet (<["a/1" := Samples.data "x"]>
                            (<["b/1" := Samples.data "z"]> Samples.empty_bucket)))
        = (Ok tt, w')
        ∧ store w' !! "a/1" = None ∧ store w' !! "b/1" = Some (Samples.data "z").
Proof.
  destruct (X2_gcs_delete_removes_exactly_the_clean_prefix "/a/"
              (Samples.quiet (<["a/1" := Samples.data "x"]>
                                (<["b/1" := Samples.data "z"]> Samples.empty_bucket))))
    as (w' & Hrun & Hl); [apply calm_quiet|].
  exists w'. split; [exact Hrun|]. rewrite !Hl. clear. vm_compute. repeat split.
Defined.

(** Whatever fails, the loop deletes listed blobs only. *)
Lemma delete_loop_any ks :
  ∀ (w : world (gmap string bytes)) k,
    store (for_each ks (fun blob => Blob.delete_blob blob) w).2 !! k = store w !! k
    ∨ (In k ks ∧ store (for_each ks (fun blob => Blob.delete_blob blob) w).2 !! k = None).
Proof.
  induction ks as [|k0 ks IH]; intros w k; simpl; [by left|].
  unfold Py.bind.
  destruct (Blob.delete_blob k0 w) as [[[]|e] w1] eqn:E.
  - apply call_ok_inv in E. destruct (store w !! k0) eqn:Hk0; [|done].
    injection E as E. destruct (IH w1 k) as [H|[Hin H]].
    + rewrite H, <- E. destruct (decide (k0 = k)) as [->|Hne].
      * right. split; [by left|apply lookup_delete_eq].
      * left. by apply lookup_delete_ne.
    + right. split; [by right|done].
  - left. simpl. apply call_inv in E as [(e' & _ & ->)|E]; [done|].
    destruct (store w !! k0); [done|]. by injection E as _ ->.
Qed.

(** X3: whatever fails on the way, [delete_by_prefix] on Azure and on
    GCS leaves every blob whose name does not start with the prefix (for
    GCS: the prefix without leading slashes) as it was, and it never
    adds or rewrites a blob. *)
Theorem X3_blob_delete_touches_the_prefix_only :
  (∀ prefix (w : world (gmap string bytes)) k,
      (String.prefix prefix k = false →
       store (Azure.delete_by_prefix prefix w).2 !! k = store w !! k)
      ∧ (∀ v, store (Azure.delete_by_prefix prefix w).2 !! k = Some v →
              store w !! k = Some v))
  ∧ (∀ prefix (w : world (gmap string bytes)) k,
      (String.prefix (PyStr.lstrip PyStr.slash prefix) k = false →
       store (GCS.delete_by_prefix prefix w).2 !! k = store w !! k)
      ∧ (∀ v, store (GCS.delete_by_prefix prefix w).2 !! k = Some v →
              store w !! k = Some v)).
Proof.
  assert (Hgen : ∀ pre (w : world (gmap string bytes)) k,
    let w' := (Py.bind (Blob.list_blobs pre)
                 (fun blobs => for_each blobs (fun blob => Blob.delete_blob blob)) w).2 in
    (String.prefix pre k = false → store w' !! k = store w !! k)
    ∧ (∀ v, store w' !! k = Some v → store w !! k = Some v)).
  { intros pre w k. unfold Py.bind.
    destruct (Blob.list_blobs pre w) as [[ks|e] w1] eqn:E; simpl.
    - apply call_ok_inv in E. injection E as <- E.
      destruct (delete_loop_any
                  (List.filter (fun k => String.prefix pre k)
                     (List.map fst (map_to_list (store w)))) w1 k) as [H|[Hin H]].
      + rewrite H, <- E. by split.
      + rewrite H. split; [|done]. intros Hp.
        apply filter_In in Hin as [_ Hin]. congruence.
    - apply call_inv in E as [(e' & _ & ->)|E]; [done|]. by injection E. }
  split.
  - intros prefix w k. unfold Azure.delete_by_prefix. rewrite try_reraise. apply Hgen.
  - intros prefix w k. unfold GCS.delete_by_prefix. rewrite try_reraise.
    specialize (Hgen (PyStr.lstrip PyStr.slash prefix) w k). simpl in Hgen.
    unfold Py.bind in *.
    destruct (Blob.list_blobs (PyStr.lstrip PyStr.slash prefix) w) as [[[|k0 ks]|e] w1];
      simpl in *; done.
Qed.

(** A failure in the middle of the Azure loop. *)
Lemma X3_witness :
  store (Azure.delete_by_prefix "a/"
           (World (<["a/1" := Samples.data "x"]>
                     (<["b/1" := Samples.data "z"]> Samples.empty_bucket))
              [None; Some (HttpError 503)])).2 !! "b/1"
  = Some (Samples.data "z").
Proof.
  destruct X3_blob_delete_touches_the_prefix_only as [Hazure _].
  rewrite (proj1 (Hazure "a/" _ "b/1")); clear; vm_compute; reflexivity.
Defined.

(** ** Deleting on the local file system *)

Lemma prune_lookup q fs k :
  OS.tree (OS.del_entry q (OS.prune_below q fs)) !! k
  = if bool_decide (q `prefix_of` k) then None else OS.tree fs !! k.
Proof.
  simpl. destruct (decide (q = k)) as [->|Hne].
  - rewrite lookup_delete_eq. by rewrite bool_decide_eq_true_2.
  - rewrite lookup_delete_ne by done. apply option_eq. intros e.
    rewrite map_lookup_filter_Some. simpl. case_bool_decide as Hp.
    + split; [|done]. intros [_ H]. exfalso. apply H. split; [done|]. congruence.
    + split; [by intros [? _]|]. intros H. split; [done|]. by intros [? _].
Qed.

Lemma prune_lookup_outside q fs k :
  ¬ q `prefix_of` k → OS.tree (OS.prune_below q fs) !! k = OS.tree fs !! k.
Proof.
  intros Hp. simpl. apply option_eq. intros e. rewrite map_lookup_filter_Some. simpl.
  split; [by intros [? _]|]. intros H. split; [done|]. by intros [? _].
Qed.

(** A walk in a tree with fewer directories fails or ends where the
    walk in the larger tree ends. *)
Lemma walk_sub fs fs' cur cs :
  (∀ x, OS.is_dir fs' x = true → OS.is_dir fs x = true) →
  OS.walk fs' cur cs = None ∨ OS.walk fs' cur cs = OS.walk fs cur cs.
Proof.
  intros H. revert cur. induction cs as [|c cs IH]; intros cur; simpl; [by right|].
  destruct (OS.is_dir fs' cur) eqn:E; [|by left]. rewrite (H _ E).
  destruct (String.eqb c "."); [apply IH|].
  destruct (String.eqb c ".."); apply IH.
Qed.

(** X4: in a calm world, deleting by a prefix whose joined path is a
    directory (not the root, and not written with a last name . or ..)
    succeeds; afterwards every entry at or below that directory is gone,
    every other entry is as before, and the joined path no longer
    exists. *)
Theorem X4_local_delete_removes_the_whole_directory
    (base_path prefix : string) (w : world OS.fsys) (q : list string) :
  calm w →
  OS.resolve (store w) (OS.path_join base_path prefix) = Some q → q ≠ [] →
  OS.kind (store w) q = Some OS.D →
  OS.dots (List.last (OS.components (OS.path_join base_path prefix)) "") = false →
  ∃ w', Local.delete_by_prefix base_path prefix w = (Ok tt, w')
        ∧ (∀ k, OS.tree (store w') !! k
                = if bool_decide (q `prefix_of` k) then None else OS.tree (store w) !! k)
        ∧ OS.stat (store w') (OS.path_join base_path prefix) = None.
Proof.
  intros Hc Hres Hq Hk Hdots.
  rewrite (local_delete_dir base_path prefix w q Hc Hres Hq Hk Hdots).
  eexists. split; [done|]. cbn [store].
  assert (Hl : ∀ k, OS.tree (OS.del_entry q (OS.prune_below q (store w))) !! k
                    = if bool_decide (q `prefix_of` k) then None
                      else OS.tree (store w) !! k) by apply prune_lookup.
  split; [exact Hl|].
  set (fs' := OS.del_entry q (OS.prune_below q (store w))) in *.
  assert (Hsub : ∀ x, OS.is_dir fs' x = true → OS.is_dir (store w) x = true).
  { intros x. unfold OS.is_dir, OS.kind. destruct x as [|x0 x]; [done|].
    rewrite Hl. by case_bool_decide. }
  unfold OS.stat, OS.resolve in *.
  destruct (String.eqb (OS.path_join base_path prefix) ""); [done|].
  change (OS.start fs' (OS.path_join base_path prefix))
    with (OS.start (store w) (OS.path_join base_path prefix)).
  destruct (walk_sub (store w) fs' (OS.start (store w) (OS.path_join base_path prefix))
              (OS.components (OS.path_join base_path prefix)) Hsub) as [Hw|Hw];
    rewrite Hw; [done|].
  rewrite Hres. unfold OS.kind. destruct q as [|q0 q]; [done|].
  rewrite Hl. by rewrite bool_decide_eq_true_2.
Qed.

(** The directory folder under /srv/media. *)
Lemma X4_witness :
  ∃ w', Local.delete_by_prefix Samples.base_path "folder/" (Samples.quiet Samples.tree0)
        = (Ok tt, w')
        ∧ (∀ k, OS.tree (store w') !! k
                = if bool_decide (["srv"; "media"; "folder"] `prefix_of` k) then None
                  else OS.tree Samples.tree0 !! k)
        ∧ OS.stat (store w') "/srv/media/folder/" = None.
Proof.
  apply (X4_local_delete_removes_the_whole_directory Samples.base_path "folder/"
           (Samples.quiet Samples.tree0) ["srv"; "media"; "folder"]).
  - apply calm_quiet.
  - vm_compute. reflexivity.
  - discriminate.
  - vm_compute. reflexivity.
  - vm_compute. reflexivity.
Defined.

(** The local [delete_by_prefix] by the cases of what the joined path
    is; whatever the deletion raises is dropped. *)
Lemma local_delete_cases base_path prefix (w : world OS.fsys) :
  Local.delete_by_prefix base_path prefix w =
  match OS.stat (store w) (OS.path_join base_path prefix) with
  | Some OS.D => (Ok tt, (OS.rmtree (OS.path_join base_path prefix) w).2)
  | Some (OS.F _) => (Ok tt, (OS.remove (OS.path_join base_path prefix) w).2)
  | None => (Ok tt, w)
  end.
Proof.
  unfold Local.delete_by_prefix, try_except, Py.bind, OS.path_isdir, OS.path_isfile, gets.
  destruct (OS.stat (store w) (OS.path_join base_path prefix)) as [[c|]|] eqn:Hs;
    cbv beta iota; rewrite ?Hs; cbv beta iota.
  - by destruct (OS.remove _ w) as [[[]|e] w1].
  - by destruct (OS.rmtree _ w) as [[[]|e] w1].
  - done.
Qed.

(** X5: whatever fails, the local [delete_by_prefix] changes nothing
    when the joined path does not resolve, and otherwise leaves every
    entry that is not at or below the resolved location as it was; the
    working directory stays. *)
Theorem X5_local_delete_stays_below_its_target
    (base_path prefix : string) (w : world OS.fsys) :
  let target := OS.path_join base_path prefix in
  let w' := (Local.delete_by_prefix base_path prefix w).2 in
  OS.cwd (store w') = OS.cwd (store w)
  ∧ (OS.resolve (store w) target = None → store w' = store w)
  ∧ (∀ q k, OS.resolve (store w) target = Some q → ¬ q `prefix_of` k →
            OS.tree (store w') !! k = OS.tree (store w) !! k).
Proof.
  intros target w'. subst w'. rewrite local_delete_cases. fold target.
  unfold OS.stat.
  destruct (OS.resolve (store w) target) as [q|] eqn:Hres; [|done].
  destruct (OS.kind (store w) q) as [[c|]|] eqn:Hk.
  - (* a file, or a file named with a trailing slash *)
    destruct (PyStr.endswith PyStr.slash target) eqn:He; [done|].
    destruct (OS.remove target w) as [[[]|e] w1] eqn:E; cbn [snd].
    + apply call_ok_inv in E.
      destruct (OS.parent_of (store w) target) as [[d nm]|] eqn:Hpar; [|done].
      destruct (OS.dots nm) eqn:Hdots; [done|].
      assert (Hp : target ≠ "").
      { intros Heq. unfold OS.resolve in Hres. by rewrite Heq in Hres. }
      rewrite (resolve_of_parent _ _ _ _ Hp Hpar Hdots) in Hres.
      injection Hres as Hq. subst q. rewrite Hk, He in E. injection E as <-. simpl.
      split; [done|]. split; [done|]. intros q k [= <-] Hnp.
      apply lookup_delete_ne. intros Heq. apply Hnp. by rewrite Heq.
    + apply call_inv in E as [(e' & _ & ->)|E]; [done|]. simpl.
      destruct (OS.parent_of (store w) target) as [[d nm]|] eqn:Hpar;
        [|by injection E as _ <-].
      destruct (OS.dots nm); [by injection E as _ <-|].
      destruct (OS.kind (store w) (OS.child d nm)) as [[c'|]|];
        [destruct (PyStr.endswith PyStr.slash target)| |];
        try (by injection E as _ <-); done.
  - (* a directory *)
    destruct (OS.rmtree target w) as [r w1] eqn:E.
    assert (Hgoal : OS.cwd (store w1) = OS.cwd (store w)
                    ∧ ∀ k, ¬ q `prefix_of` k →
                           OS.tree (store w1) !! k = OS.tree (store w) !! k).
    { apply call_inv in E as [(e' & _ & ->)|E]; [done|].
      rewrite Hres, Hk in E.
      destruct q as [|q0 q].
      - injection E as _ <-. split; [done|]. intros k Hnp. exfalso. apply Hnp, prefix_nil.
      - destruct (OS.dots _); injection E as _ <-; (split; [done|]); intros k Hnp.
        + by apply prune_lookup_outside.
        + rewrite prune_lookup. by rewrite bool_decide_eq_false_2. }
    destruct Hgoal as [Hcwd Hout].
    cbn [snd]. split; [done|]. split; [done|]. intros q' k [= <-]. apply Hout.
  - done.
Qed.

(** With a failing [rmtree], nothing outside the folder changes. *)
Lemma X5_witness :
  OS.tree (store (Local.delete_by_prefix Samples.base_path "folder"
                    (World Samples.tree0 [Some PermissionError])).2) !! ["etc"; "passwd"]
  = OS.tree Samples.tree0 !! ["etc"; "passwd"].
Proof.
  refine (proj2 (proj2 (X5_local_delete_stays_below_its_target Samples.base_path "folder"
                          (World Samples.tree0 [Some PermissionError])))
            ["srv"; "media"; "folder"] ["etc"; "passwd"] _ _).
  - vm_compute. reflexivity.
  - intros [k Hk]. discriminate.
Defined.

(** ** Uploading on the local file system *)

Lemma grows_refl fs : View.grows fs fs.
Proof. by repeat split. Qed.

Lemma grows_trans fs1 fs2 fs3 :
  View.grows fs1 fs2 → View.grows fs2 fs3 → View.grows fs1 fs3.
Proof.
  intros (Hc1 & Ha1 & Hb1) (Hc2 & Ha2 & Hb2). repeat split.
  - congruence.
  - intros k e H. by apply Ha2, Ha1.
  - intros k c H. by apply Hb1, Hb2.
Qed.

Lemma og_ret {A} (a : A) : View.only_grows (ret a).
Proof. intros w. apply grows_refl. Qed.

Lemma og_raise {A} e : View.only_grows (@raise OS.fsys A e).
Proof. intros w. apply grows_refl. Qed.

Lemma og_gets {A} (f : OS.fsys → A) : View.only_grows (gets f).
Proof. intros w. apply grows_refl. Qed.

Lemma og_bind {A B} (m : M OS.fsys A) (k : A → M OS.fsys B) :
  View.only_grows m → (∀ a, View.only_grows (k a)) → View.only_grows (Py.bind m k).
Proof.
  intros Hm Hk w. unfold Py.bind. specialize (Hm w).
  destruct (m w) as [[a|e] w1]; simpl in *; [|done].
  eapply grows_trans; [exact Hm|]. apply Hk.
Qed.

Lemma og_try {A} (m : M OS.fsys A) (h : exn → M OS.fsys A) :
  View.only_grows m → (∀ e, View.only_grows (h e)) → View.only_grows (try_except m h).
Proof.
  intros Hm Hh w. unfold try_except. specialize (Hm w).
  destruct (m w) as [[a|e] w1]; simpl in *; [done|].
  eapply grows_trans; [exact Hm|]. apply Hh.
Qed.

Lemma og_call {A} (op : OS.fsys → result A * OS.fsys) :
  (∀ fs, View.grows fs (op fs).2) → View.only_grows (call op).
Proof.
  intros H [fs flt]. unfold call; simpl. specialize (H fs).
  destruct flt as [|[e|] flt]; simpl; [| apply grows_refl |];
    by destruct (op fs).
Qed.

Lemma grows_new_dir fs q :
  OS.tree fs !! q = None → View.grows fs (OS.set_entry q OS.D fs).
Proof.
  intros Hq. repeat split; simpl.
  - intros k e H. rewrite lookup_insert_ne; [done|]. intros ->. congruence.
  - intros k c. destruct (decide (q = k)) as [->|Hne].
    + by rewrite lookup_insert_eq.
    + by rewrite lookup_insert_ne.
Qed.

Lemma og_mkdir p : View.only_grows (OS.mkdir p).
Proof.
  apply og_call. intros fs.
  destruct (OS.parent_of fs p) as [[d nm]|].
  2:{ destruct (OS.components p); [destruct (String.eqb p "")|]; apply grows_refl. }
  destruct (OS.dots nm); [apply grows_refl|].
  destruct (OS.kind fs (OS.child d nm)) eqn:Hk; [apply grows_refl|].
  apply grows_new_dir. unfold OS.kind in Hk.
  pose proof (child_nonempty d nm). by destruct (OS.child d nm).
Qed.

Lemma og_makedirs_rec fuel name : View.only_grows (OS.makedirs_rec fuel name).
Proof.
  revert name. induction fuel as [|fuel IH]; intros name; simpl.
  { apply og_raise. }
  destruct (OS.path_split name) as [head0 tail0].
  destruct (if String.eqb tail0 "" then OS.path_split head0 else (head0, tail0))
    as [head tail].
  apply og_bind.
  - destruct (negb (String.eqb head "") && negb (String.eqb tail ""));
      [|apply og_ret].
    apply og_bind; [apply og_gets|]. intros ex.
    destruct (negb ex); [|apply og_ret].
    apply og_bind; [|intros; apply og_ret].
    apply og_try; [apply IH|].
    intros e. destruct e; try apply og_raise. apply og_ret.
  - intros stop. destruct stop; [apply og_ret|apply og_mkdir].
Qed.

Lemma grows_is_dir fs fs' x :
  View.grows fs fs' → OS.is_dir fs x = true → OS.is_dir fs' x = true.
Proof.
  intros (_ & Ha & _). unfold OS.is_dir, OS.kind. destruct x as [|x0 x]; [done|].
  destruct (OS.tree fs !! (x0 :: x)) as [[c|]|] eqn:E; try done.
  by rewrite (Ha _ _ E).
Qed.

Lemma walk_mono fs fs' cur cs r :
  (∀ x, OS.is_dir fs x = true → OS.is_dir fs' x = true) →
  OS.walk fs cur cs = Some r → OS.walk fs' cur cs = Some r.
Proof.
  intros H. revert cur. induction cs as [|c cs IH]; intros cur; simpl; [done|].
  destruct (OS.is_dir fs cur) eqn:E; [|done]. rewrite (H _ E).
  destruct (String.eqb c "."); [apply IH|].
  destruct (String.eqb c ".."); apply IH.
Qed.

Lemma resolve_after_write fs q c p :
  q ≠ [] → OS.is_dir fs q = false →
  OS.resolve (OS.set_entry q (OS.F c) (OS.set_entry q (OS.F []) fs)) p = OS.resolve fs p.
Proof.
  intros Hq Hd. unfold OS.resolve. destruct (String.eqb p ""); [done|].
  change (OS.start (OS.set_entry q (OS.F c) (OS.set_entry q (OS.F []) fs)) p)
    with (OS.start fs p).
  apply walk_ext. intros y. rewrite !is_dir_set_file; try done.
  unfold OS.is_dir, OS.kind, OS.set_entry; simpl.
  destruct q; [done|]. by rewrite lookup_insert_eq.
Qed.

(** What a successful upload has done: directories were made, then one
    file was opened at [q] and written. *)
Lemma local_upload_inv base p c (w w' : world OS.fsys) :
  Local.upload base p c w = (Ok tt, w') →
  ∃ fs2 q, View.grows (store w) fs2
           ∧ OS.resolve fs2 (OS.path_join base p) = Some q ∧ q ≠ []
           ∧ OS.is_dir fs2 q = false
           ∧ store w' = OS.set_entry q (OS.F c) (OS.set_entry q (OS.F []) fs2).
Proof.
  unfold Local.upload. rewrite try_reraise. intros H.
  apply bind_ok_inv in H as (ex & w1 & Hex & H).
  unfold OS.path_exists, gets in Hex. injection Hex as _ <-.
  apply bind_ok_inv in H as (u & w2 & Hpre & H).
  apply bind_ok_inv in H as (q & w3 & Hopen & Hwrite).
  apply open_wb_ok in Hopen as (Hres & Hq & Hnd & Hend & Hst).
  apply file_write_ok in Hwrite.
  assert (Hg : View.only_grows
                 (if negb ex then OS.makedirs (OS.path_dirname (OS.path_join base p))
                  else ret ())).
  { destruct (negb ex); [apply og_makedirs_rec|apply og_ret]. }
  specialize (Hg w). rewrite Hpre in Hg.
  exists (store w2), q. split; [exact Hg|]. repeat split; try done.
  by rewrite Hwrite, Hst.
Qed.

(** X6: a successful local upload has written exactly one file: the
    joined path resolves to it and it holds the content; every other
    entry of the tree is still there unchanged, and no other file is
    new (missing directories may have been made). *)
Theorem X6_local_upload_writes_one_file
    (base_path path : string) (content : bytes) (w w' : world OS.fsys) :
  Local.upload base_path path content w = (Ok tt, w') →
  ∃ q, OS.resolve (store w') (OS.path_join base_path path) = Some q
       ∧ OS.tree (store w') !! q = Some (OS.F content)
       ∧ (∀ k e, k ≠ q → OS.tree (store w) !! k = Some e →
                 OS.tree (store w') !! k = Some e)
       ∧ (∀ k c, k ≠ q → OS.tree (store w') !! k = Some (OS.F c) →
                 OS.tree (store w) !! k = Some (OS.F c)).
Proof.
  intros H. apply local_upload_inv in H as (fs2 & q & (_ & Ha & Hb) & Hres & Hq & Hd & ->).
  exists q. split; [by rewrite resolve_after_write|].
  simpl. split; [apply lookup_insert_eq|]. split.
  - intros k e Hne Hk. rewrite !lookup_insert_ne by done. by apply Ha.
  - intros k c Hne Hk. rewrite !lookup_insert_ne in Hk by done. by apply Hb.
Qed.

(** The upload of the repository's test, on the sample tree. *)
Lemma X6_witness :
  ∃ q, OS.resolve
         (store (Local.upload Samples.base_path "test_folder/file.txt"
                   (Samples.data "Hello Local Storage") (Samples.quiet Samples.tree0)).2)
         "/srv/media/test_folder/file.txt" = Some q
       ∧ OS.tree
           (store (Local.upload Samples.base_path "test_folder/file.txt"
                     (Samples.data "Hello Local Storage") (Samples.quiet Samples.tree0)).2)
           !! q = Some (OS.F (Samples.data "Hello Local Storage")).
Proof.
  destruct (X6_local_upload_writes_one_file Samples.base_path "test_folder/file.txt"
              (Samples.data "Hello Local Storage") (Samples.quiet Samples.tree0)
              (Local.upload Samples.base_path "test_folder/file.txt"
                 (Samples.data "Hello Local Storage") (Samples.quiet Samples.tree0)).2)
    as (q & Hres & Hq & _).
  - vm_compute. reflexivity.
  - exists q. split; [exact Hres|exact Hq].
Defined.

(** ** Relative paths stay under the base path *)

Lemma string_app_cons x (a b : string) : String x a ++ b = String x (a ++ b).
Proof. reflexivity. Qed.

Lemma string_app_assoc (a b c : string) : (a ++ b) ++ c = a ++ (b ++ c).
Proof.
  induction a as [|x a IH]; [done|]. rewrite !string_app_cons. by f_equal.
Qed.

Lemma split_app_sep c (a b : string) :
  PyStr.split c (a ++ String c b) = (PyStr.split c a ++ PyStr.split c b)%list.
Proof.
  induction a as [|x a IH].
  - change ("" ++ String c b) with (String c b). simpl. by rewrite Ascii.eqb_refl.
  - rewrite string_app_cons. simpl. rewrite IH.
    destruct (Ascii.eqb x c); [done|].
    pose proof (split_nonempty c a). by destruct (PyStr.split c a).
Qed.

Lemma components_app_sep (a b : string) :
  OS.components (a ++ String PyStr.slash b) = (OS.components a ++ OS.components b)%list.
Proof. unfold OS.components. by rewrite split_app_sep, List.filter_app. Qed.

Lemma endswith_inv c (a : string) :
  PyStr.endswith c a = true → ∃ a', a = a' ++ String c "".
Proof.
  induction a as [|x a IH]; [done|]. simpl. destruct a as [|y a].
  - intros H. apply Ascii.eqb_eq in H as ->. by exists "".
  - intros H. destruct (IH H) as [a' Ha']. exists (String x a').
    rewrite string_app_cons. by f_equal.
Qed.



Lemma join_nonempty base p : base ≠ "" → OS.path_join base p ≠ "" ∨ PyStr.startswith PyStr.slash p = true.
Proof.
  intros Hb. unfold OS.path_join. destruct (PyStr.startswith PyStr.slash p); [by right|].
  left. destruct base as [|x base]; [done|].
  by destruct (String.eqb (String x base) "" || PyStr.endswith PyStr.slash (String x base)).
Qed.

Lemma walk_app fs cur xs ys :
  OS.walk fs cur (xs ++ ys) =
  match OS.walk fs cur xs with
  | Some d => OS.walk fs d ys
  | None => None
  end.
Proof.
  revert cur. induction xs as [|x xs IH]; intros cur; simpl; [done|].
  destruct (OS.is_dir fs cur); [|done].
  destruct (String.eqb x "."); [apply IH|].
  destruct (String.eqb x ".."); apply IH.
Qed.







(** ** The constructor of the local provider *)

Lemma rcut_slash_free (b : string) :
  (∀ h t, OS.rcut b = (h, t) → h = "" → t = b) .
Proof.
  induction b as [|x b IH]; simpl; intros h t.
  { by intros [= <- <-]. }
  destruct (OS.rcut b) as [[|y h'] t'] eqn:E.
  - destruct (Ascii.eqb x PyStr.slash); intros [= <- <-]; [done|].
    intros _. f_equal. by apply (IH "" t').
  - by intros [= <- <-].
Qed.

(** The tail that [rcut] finds does not change when a name without
    slash is put behind the path. *)
Lemma rcut_app_tail (a b : string) :
  (OS.rcut b).1 = "" → (OS.rcut (a ++ b)).2 = (OS.rcut a).2 ++ b.
Proof.
  intros Hb. induction a as [|x a IH].
  - change ("" ++ b) with b. simpl.
    destruct (OS.rcut b) as [h t] eqn:E. simpl in *. subst h.
    change (t = b). by apply (rcut_slash_free b "" t).
  - rewrite string_app_cons. simpl.
    assert (Hh : (OS.rcut (a ++ b)).1 = "" ↔ (OS.rcut a).1 = "").
    { clear IH. induction a as [|y a IHa].
      - change ("" ++ b) with b. by rewrite Hb.
      - rewrite string_app_cons. simpl.
        destruct (OS.rcut (a ++ b)) as [[|z1 h1] t1], (OS.rcut a) as [[|z2 h2] t2];
          simpl in *; try (destruct (Ascii.eqb y PyStr.slash)); simpl; try done;
          try (destruct IHa as [H1 H2]; (by specialize (H1 eq_refl)) || (by specialize (H2 eq_refl))). }
    destruct (OS.rcut (a ++ b)) as [[|z1 h1] t1], (OS.rcut a) as [[|z2 h2] t2];
      simpl in *; subst.
    + destruct (Ascii.eqb x PyStr.slash); simpl; [done|]. by rewrite string_app_cons.
    + destruct Hh as [H _]. by specialize (H eq_refl).
    + destruct Hh as [_ H]. by specialize (H eq_refl).
    + done.
Qed.

Lemma path_split_tail p : (OS.path_split p).2 = (OS.rcut p).2.
Proof.
  unfold OS.path_split. destruct (OS.rcut p) as [h t].
  by destruct (PyStr.rstrip PyStr.slash h).
Qed.

Lemma join_media BASE_DIR : ∃ a, OS.path_join BASE_DIR "media" = a ++ "media".
Proof.
  unfold OS.path_join. simpl PyStr.startswith. cbv iota.
  destruct (String.eqb BASE_DIR "" || PyStr.endswith PyStr.slash BASE_DIR).
  - by exists BASE_DIR.
  - exists (BASE_DIR ++ "/"). by rewrite string_app_assoc.
Qed.

Lemma app_media_long (t : string) : t ++ "media" ≠ "" ∧ t ++ "media" ≠ ".".
Proof.
  destruct t as [|x [|y t]]; try (split; discriminate).
Qed.

(** A directory made by [os.mkdir] is there afterwards. *)
Lemma mkdir_ok p (w w' : world OS.fsys) :
  OS.mkdir p w = (Ok tt, w') → OS.stat (store w') p = Some OS.D.
Proof.
  intros H. apply call_ok_inv in H.
  destruct (OS.parent_of (store w) p) as [[d nm]|] eqn:Hpar.
  2:{ destruct (OS.components p); [destruct (String.eqb p "")|]; done. }
  destruct (OS.dots nm) eqn:Hdots; [done|].
  destruct (OS.kind (store w) (OS.child d nm)) eqn:Hk; [done|].
  injection H as <-.
  assert (Hp : p ≠ "").
  { intros ->. unfold OS.parent_of in Hpar. done. }
  pose proof (resolve_of_parent _ _ _ _ Hp Hpar Hdots) as Hres.
  pose proof (child_nonempty d nm) as Hne.
  assert (Hg : View.grows (store w) (OS.set_entry (OS.child d nm) OS.D (store w))).
  { apply grows_new_dir. unfold OS.kind in Hk. by destruct (OS.child d nm). }
  unfold OS.stat, OS.resolve in *. destruct (String.eqb p ""); [done|].
  change (OS.start (OS.set_entry (OS.child d nm) OS.D (store w)) p)
    with (OS.start (store w) p).
  rewrite (walk_mono (store w) _ _ _ _ (fun x => grows_is_dir _ _ x Hg) Hres).
  unfold OS.kind, OS.set_entry; simpl. destruct (OS.child d nm); [done|].
  by rewrite lookup_insert_eq.
Qed.

(** When [os.makedirs] of a path that ends in the name media returns,
    the path is a directory. *)
Lemma makedirs_media_ok a (w w' : world OS.fsys) :
  OS.makedirs (a ++ "media") w = (Ok tt, w') →
  OS.stat (store w') (a ++ "media") = Some OS.D.
Proof.
  unfold OS.makedirs. simpl OS.makedirs_rec.
  pose proof (path_split_tail (a ++ "media")) as Ht.
  rewrite (rcut_app_tail a "media" eq_refl) in Ht.
  destruct (OS.path_split (a ++ "media")) as [head0 tail0]. simpl in Ht. subst tail0.
  destruct (app_media_long (OS.rcut a).2) as [Hne Hdot].
  destruct (String.eqb_spec ((OS.rcut a).2 ++ "media") ""); [done|].
  destruct (String.eqb_spec ((OS.rcut a).2 ++ "media") "."); [done|].
  intros H. apply bind_ok_inv in H as (stop & w1 & Hstop & H).
  assert (stop = false) as ->.
  { destruct (negb (String.eqb head0 "") && negb _); [|by injection Hstop].
    apply bind_ok_inv in Hstop as (ex & w0 & _ & Hstop).
    destruct (negb ex); [|by injection Hstop].
    apply bind_ok_inv in Hstop as (u & w0' & _ & Hstop). by injection Hstop. }
  by apply mkdir_ok in H.
Qed.

(** X8: when the constructor of the local provider returns, its base
    path is BASE_DIR joined with media and exists (made now as a
    directory, or there before as whatever it was); the tree has all its
    former entries and no new file; and when the base path existed
    already nothing was touched. *)
Theorem X8_local_init_leaves_an_existing_base_path
    (BASE_DIR base_path : string) (w w' : world OS.fsys) :
  Local.init BASE_DIR w = (Ok base_path, w') →
  base_path = OS.path_join BASE_DIR "media"
  ∧ is_Some (OS.stat (store w') base_path)
  ∧ View.grows (store w) (store w')
  ∧ (is_Some (OS.stat (store w) base_path) → w' = w)
  ∧ (OS.stat (store w) base_path = None → OS.stat (store w') base_path = Some OS.D).
Proof.
  unfold Local.init. intros H.
  apply bind_ok_inv in H as (ex & w1 & Hex & H).
  unfold OS.path_exists, gets in Hex. injection Hex as <- <-.
  apply bind_ok_inv in H as (u & w2 & Hpre & H). injection H as <- <-.
  split; [done|].
  set (bp := OS.path_join BASE_DIR "media") in *.
  destruct (OS.stat (store w) bp) as [e|] eqn:Hs.
  - rewrite bool_decide_eq_true_2 in Hpre by eauto. injection Hpre as Hw. subst w2.
    rewrite Hs. split; [eauto|]. split; [apply grows_refl|]. by split.
  - rewrite bool_decide_eq_false_2 in Hpre by (by intros [? ?]). simpl in Hpre.
    rewrite try_reraise in Hpre.
    assert (Hg : View.grows (store w) (store w2)).
    { pose proof (og_makedirs_rec (S (String.length bp)) bp w) as Hg.
      unfold OS.makedirs in Hpre. by rewrite Hpre in Hg. }
    destruct (join_media BASE_DIR) as [a Ha]. fold bp in Ha. rewrite Ha in Hpre.
    destruct u. apply makedirs_media_ok in Hpre. rewrite <- Ha in Hpre.
    rewrite Hpre. split; [eauto|]. split; [exact Hg|]. split; [by intros [? ?]|done].
Qed.

(** Construction on a tree that has /srv but not /srv/media. *)
Lemma X8_witness :
  OS.stat
    (store (Local.init "/srv"
              (Samples.quiet (OS.Fsys (<[ ["srv"] := OS.D ]> ∅) []))).2)
    "/srv/media" = Some OS.D.
Proof.
  refine (proj2 (proj2 (proj2 (proj2
            (X8_local_init_leaves_an_existing_base_path "/srv" "/srv/media"
               (Samples.quiet (OS.Fsys (<[ ["srv"] := OS.D ]> ∅) []))
               (Local.init "/srv" (Samples.quiet (OS.Fsys (<[ ["srv"] := OS.D ]> ∅) []))).2
               _)))) _).
  - vm_compute. reflexivity.
  - vm_compute. reflexivity.
Defined.

(** ** Splitting a path and its names *)

Lemma rcut_spec p : p = (OS.rcut p).1 ++ (OS.rcut p).2.
Proof.
  induction p as [|x p IH]; [done|]. simpl.
  destruct (OS.rcut p) as [[|y h] t]; simpl in *.
  - destruct (Ascii.eqb x PyStr.slash); simpl; by rewrite IH at 1.
  - rewrite string_app_cons. by rewrite IH at 1.
Qed.

Lemma rcut_head p : (OS.rcut p).1 = "" ∨ PyStr.endswith PyStr.slash (OS.rcut p).1 = true.
Proof.
  induction p as [|x p IH]; [by left|]. simpl.
  destruct (OS.rcut p) as [[|y h] t]; simpl in *.
  - destruct (Ascii.eqb x PyStr.slash) eqn:E; simpl; [right|by left]. by rewrite E.
  - right. by destruct IH.
Qed.

Lemma rcut_tail_split p : PyStr.split PyStr.slash (OS.rcut p).2 = [(OS.rcut p).2].
Proof.
  induction p as [|x p IH]; [done|]. simpl.
  destruct (OS.rcut p) as [[|y h] t]; simpl in *; [|done].
  destruct (Ascii.eqb x PyStr.slash) eqn:E; simpl; [done|]. by rewrite E, IH.
Qed.

Lemma rcut_tail_empty p :
  (OS.rcut p).2 = "" → p = "" ∨ PyStr.endswith PyStr.slash p = true.
Proof.
  intros H. pose proof (rcut_spec p) as Hp. rewrite H, string_app_nil_r in Hp.
  destruct (rcut_head p) as [Hh|Hh]; [left|right]; congruence.
Qed.

(** Stripping trailing slashes only drops empty fields at the end. *)
Lemma split_rstrip p :
  ∃ k, PyStr.split PyStr.slash p
       = (PyStr.split PyStr.slash (PyStr.rstrip PyStr.slash p) ++ replicate k "")%list.
Proof.
  induction p as [|x p [k IH]]; [by exists 0|]. simpl.
  destruct (PyStr.rstrip PyStr.slash p) as [|y r] eqn:Er.
  - simpl in IH. destruct (Ascii.eqb x PyStr.slash) eqn:E.
    + exists (S k). by rewrite IH.
    + exists k. rewrite IH. simpl. by rewrite E.
  - exists k. change (PyStr.split PyStr.slash (String x (String y r)))
      with (if Ascii.eqb x PyStr.slash then "" :: PyStr.split PyStr.slash (String y r)
            else match PyStr.split PyStr.slash (String y r) with
                 | h :: t => String x h :: t
                 | [] => [String x ""]
                 end).
    rewrite IH. destruct (Ascii.eqb x PyStr.slash); [done|].
    pose proof (split_nonempty PyStr.slash (String y r)) as Hne.
    by destruct (PyStr.split PyStr.slash (String y r)).
Qed.

Lemma components_rstrip p : OS.components (PyStr.rstrip PyStr.slash p) = OS.components p.
Proof.
  unfold OS.components. destruct (split_rstrip p) as [k ->].
  rewrite List.filter_app.
  assert (List.filter (fun s => negb (String.eqb s "")) (replicate k "") = []) as ->.
  { induction k as [|k IH]; [done|]. simpl. exact IH. }
  by rewrite app_nil_r.
Qed.

Lemma components_all_slashes p : PyStr.rstrip PyStr.slash p = "" → OS.components p = [].
Proof. intros H. by rewrite <- components_rstrip, H. Qed.

(** What [os.path.split] gives for a path that names something: the
    last name, and a head with the names before it. *)
Lemma path_split_names p :
  p ≠ "" → PyStr.endswith PyStr.slash p = false →
  (OS.path_split p).2 ≠ ""
  ∧ OS.components p = (OS.components (OS.path_split p).1 ++ [(OS.path_split p).2])%list
  ∧ ((OS.path_split p).1 ≠ "" →
     PyStr.startswith PyStr.slash (OS.path_split p).1 = PyStr.startswith PyStr.slash p)
  ∧ (OS.components (OS.path_split p).1 ≠ [] →
     PyStr.endswith PyStr.slash (OS.path_split p).1 = false)
  ∧ (String.length (OS.path_split p).1 < String.length p)%nat.
Proof.
  intros Hp He.
  pose proof (rcut_spec p) as Hspec. pose proof (rcut_head p) as Hhead.
  pose proof (rcut_tail_split p) as Htail. pose proof (rcut_tail_empty p) as Hte.
  pose proof (path_split_length p) as Hlen. pose proof (path_split_tail p) as Hpt.
  unfold OS.path_split in *. destruct (OS.rcut p) as [h0 t]. simpl in *.
  assert (Ht : t ≠ "").
  { intros ->. destruct Hte as [?|?]; [done|done|congruence]. }
  assert (Hct : OS.components t = [t]).
  { unfold OS.components. rewrite Htail. simpl. by destruct t. }
  assert (Hc0 : OS.components p = (OS.components h0 ++ [t])%list).
  { destruct Hhead as [->|Hh].
    - change ("" ++ t) with t in Hspec. by rewrite Hspec, Hct.
    - apply endswith_inv in Hh as [a ->]. rewrite Hspec at 1.
      rewrite string_app_assoc. change (String PyStr.slash "" ++ t) with (String PyStr.slash t).
      rewrite !components_app_sep, Hct. change (OS.components "") with (@nil string).
      by rewrite app_nil_r. }
  assert (Hstart : ∀ h, h ≠ "" → (∃ r, h0 = h ++ r) →
                        PyStr.startswith PyStr.slash h = PyStr.startswith PyStr.slash p).
  { intros h Hh [r Hr]. rewrite Hspec, Hr. by destruct h. }
  assert (Hpre : ∀ s, ∃ r, s = PyStr.rstrip PyStr.slash s ++ r).
  { clear. intros s. induction s as [|x s [r IH]]; [by exists ""|]. simpl.
    destruct (PyStr.rstrip PyStr.slash s) as [|y q] eqn:E.
    - destruct (Ascii.eqb x PyStr.slash).
      + by exists (String x s).
      + exists s. done.
    - exists r. rewrite string_app_cons. by rewrite <- IH. }
  destruct (PyStr.rstrip PyStr.slash h0) as [|y q] eqn:Er; simpl.
  - split; [done|]. split; [done|]. split; [intros Hh; apply Hstart; [done|by exists ""; rewrite string_app_nil_r]|].
    split; [by rewrite (components_all_slashes h0 Er)|].
    simpl in Hlen. assert (String.length t ≠ 0)%nat by (by destruct t). lia.
  - split; [done|]. rewrite <- Er, components_rstrip. split; [done|].
    split; [intros _; apply (Hstart (String y q)); [done|rewrite <- Er; apply Hpre]|].
    split; [intros _; change (PyStr.endswith PyStr.slash (String y q) = false);
            rewrite <- Er; apply rstrip_no_trailing|].
    simpl in Hlen. assert (String.length t ≠ 0)%nat by (by destruct t). simpl. lia.
Qed.

(** ** Making the missing directories *)

Lemma nodots_eqb c : OS.dots c = false → String.eqb c "." = false ∧ String.eqb c ".." = false.
Proof. unfold OS.dots. by intros [? ?]%orb_false_elim. Qed.

(** A walk over proper names through existing directories ends at the
    location they spell. *)
Lemma walk_dirs fs ds :
  ∀ s, Forall (fun c => OS.dots c = false) ds →
       (∀ i, (i < length ds)%nat → OS.is_dir fs (s ++ take i ds) = true) →
       OS.walk fs s ds = Some (s ++ ds)%list.
Proof.
  induction ds as [|c ds IH]; intros s Hnd Hd; simpl.
  { by rewrite app_nil_r. }
  inversion Hnd as [|? ? Hc Hnd']; subst.
  pose proof (Hd 0 ltac:(simpl; lia)) as H0. simpl in H0. rewrite app_nil_r in H0.
  rewrite H0. destruct (nodots_eqb c Hc) as [-> ->].
  unfold OS.child. rewrite (IH (s ++ [c])%list Hnd').
  - by rewrite <- app_assoc.
  - intros i Hi. rewrite <- app_assoc. apply (Hd (S i)). simpl. lia.
Qed.

(** When the directories exist up to the n-th name and the next one is
    missing, the path does not exist. *)
Lemma walk_missing fs s ds n :
  Forall (fun c => OS.dots c = false) ds → (n < length ds)%nat →
  (∀ i, (i ≤ n)%nat → OS.is_dir fs (s ++ take i ds) = true) →
  OS.tree fs !! (s ++ take (S n) ds)%list = None →
  match OS.walk fs s ds with
  | Some q => OS.kind fs q = None
  | None => True
  end.
Proof.
  intros Hnd Hn Hd Hmiss.
  replace (OS.walk fs s ds) with (OS.walk fs s (take (S n) ds ++ drop (S n) ds))
    by (by rewrite take_drop).
  rewrite walk_app.
  rewrite (walk_dirs fs (take (S n) ds) s).
  - assert (Hk : OS.kind fs (s ++ take (S n) ds) = None).
    { unfold OS.kind. destruct (s ++ take (S n) ds)%list eqn:E; [|done].
      apply app_eq_nil in E as [_ E]. destruct ds; simpl in *; [lia|done]. }
    destruct (drop (S n) ds) as [|c r]; simpl; [done|].
    unfold OS.is_dir. by rewrite Hk.
  - by apply Forall_take.
  - intros i Hi. rewrite length_take in Hi. rewrite take_take.
    replace (i `min` S n)%nat with i by lia. apply Hd. lia.
Qed.

Lemma is_dir_same_lookup fs fs' k :
  OS.tree fs' !! k = OS.tree fs !! k → OS.is_dir fs' k = OS.is_dir fs k.
Proof. intros H. unfold OS.is_dir, OS.kind. destruct k; [done|]. by rewrite H. Qed.

Lemma is_dir_lookup_D fs k : OS.tree fs !! k = Some OS.D → OS.is_dir fs k = true.
Proof. intros H. unfold OS.is_dir, OS.kind. destruct k; [done|]. by rewrite H. Qed.

(** [os.mkdir] in a calm world, for a path whose parent is a directory
    and whose last name is free. *)
Lemma mkdir_calm name (w : world OS.fsys) d nm :
  calm w → OS.parent_of (store w) name = Some (d, nm) → OS.dots nm = false →
  OS.tree (store w) !! OS.child d nm = None →
  OS.mkdir name w
  = (Ok tt, World (OS.set_entry (OS.child d nm) OS.D (store w)) (tail (faults w))).
Proof.
  intros Hc Hpar Hdots Hfree. unfold OS.mkdir. rewrite call_calm by done.
  rewrite Hpar, Hdots. unfold OS.kind.
  pose proof (child_nonempty d nm). destruct (OS.child d nm) eqn:E; [done|].
  by rewrite Hfree.
Qed.

Lemma parent_of_names fs name ds tl :
  OS.components name = (ds ++ [tl])%list →
  OS.walk fs (OS.start fs name) ds = Some (OS.start fs name ++ ds)%list →
  OS.is_dir fs (OS.start fs name ++ ds) = true →
  OS.parent_of fs name = Some ((OS.start fs name ++ ds)%list, tl).
Proof.
  intros Hcs Hw Hd. unfold OS.parent_of. rewrite Hcs.
  destruct (ds ++ [tl])%list eqn:E; [by destruct ds|]. rewrite <- E.
  rewrite removelast_last, Hw, Hd. by rewrite List.last_last.
Qed.

(** [os.makedirs] of a path of proper names whose first n directories
    exist and whose further ones are free: in a calm world it succeeds
    and makes exactly the missing directories. *)
Lemma makedirs_rec_creates fuel :
  ∀ name (w : world OS.fsys) ds n,
    (String.length name < fuel)%nat → calm w →
    name ≠ "" → PyStr.endswith PyStr.slash name = false →
    OS.components name = ds → Forall (fun c => OS.dots c = false) ds →
    (n < length ds)%nat →
    (∀ i, (i ≤ n)%nat → OS.is_dir (store w) (OS.start (store w) name ++ take i ds) = true) →
    (∀ i, (n < i ≤ length ds)%nat →
          OS.tree (store w) !! (OS.start (store w) name ++ take i ds)%list = None) →
    ∃ w', OS.makedirs_rec fuel name w = (Ok tt, w') ∧ calm w'
          ∧ OS.cwd (store w') = OS.cwd (store w)
          ∧ (∀ i, (n < i ≤ length ds)%nat →
                  OS.tree (store w') !! (OS.start (store w) name ++ take i ds)%list
                  = Some OS.D)
          ∧ (∀ k, (∀ i, (n < i ≤ length ds)%nat →
                        k ≠ (OS.start (store w) name ++ take i ds)%list) →
                  OS.tree (store w') !! k = OS.tree (store w) !! k).
Proof.
  induction fuel as [|fuel IH]; intros name w ds n Hlen Hc Hne Hend Hcs Hnd Hn Hdirs Hfree;
    [lia|].
  destruct (path_split_names name Hne Hend) as (Htl & Hnames & Hstart & Hhend & Hshort).
  simpl OS.makedirs_rec.
  destruct (OS.path_split name) as [head tl] eqn:Hsplit. simpl in Htl, Hnames, Hstart, Hhend, Hshort.
  destruct (String.eqb_spec tl "") as [|_]; [done|].
  set (ds' := OS.components head) in *. rewrite Hnames in Hcs. subst ds.
  rewrite length_app in *. simpl length in *.
  set (s := OS.start (store w) name) in *.
  apply Forall_app in Hnd as [Hnd' Hndt]. inversion Hndt as [|? ? Hdtl _]; subst.
  assert (Htake : ∀ i, (i ≤ length ds')%nat → take i (ds' ++ [tl]) = take i ds').
  { intros i Hi. by rewrite take_app_le. }
  assert (Hall : take (length ds' + 1) (ds' ++ [tl]) = (ds' ++ [tl])%list).
  { apply take_ge. rewrite length_app. simpl. lia. }
  (* the last step: the directory itself *)
  assert (Hlast : ∀ w1 : world OS.fsys,
    calm w1 → OS.cwd (store w1) = OS.cwd (store w) →
    (∀ i, (i ≤ length ds')%nat → OS.is_dir (store w1) (s ++ take i ds') = true) →
    OS.tree (store w1) !! (s ++ ds' ++ [tl])%list = None →
    OS.mkdir name w1
    = (Ok tt, World (OS.set_entry (s ++ ds' ++ [tl])%list OS.D (store w1)) (tail (faults w1)))).
  { intros w1 Hc1 Hcwd Hd1 Hf1.
    assert (Hs1 : OS.start (store w1) name = s).
    { unfold s, OS.start. by rewrite Hcwd. }
    assert (Hpar : OS.parent_of (store w1) name = Some ((s ++ ds')%list, tl)).
    { rewrite <- Hs1. apply parent_of_names; rewrite ?Hs1; [done| |].
      - apply walk_dirs; [done|]. intros i Hi. apply Hd1. lia.
      - specialize (Hd1 (length ds') ltac:(lia)). by rewrite firstn_all in Hd1. }
    rewrite (mkdir_calm name w1 _ _ Hc1 Hpar Hdtl); unfold OS.child; rewrite <- app_assoc; done. }
  assert (Htle : String.eqb tl "" = false) by (by apply String.eqb_neq).
  unfold Py.bind at 1. rewrite Htle.
  destruct (String.eqb_spec head "") as [Hh|Hh]; cbn [negb andb].
  - (* a single relative name *)
    assert (ds' = []) as Hds' by (unfold ds'; by rewrite Hh).
    rewrite Hds' in *. simpl in *.
    rewrite (Hlast w Hc eq_refl).
    + eexists. split; [done|]. split; [by apply calm_step|]. split; [done|]. simpl. split.
      * intros i Hi. assert (i = 1)%nat as -> by lia. simpl. apply lookup_insert_eq.
      * intros k Hk. apply lookup_insert_ne. intros Heq. by apply (Hk 1%nat ltac:(lia)).
    + intros i Hi. assert (i = 0)%nat as -> by lia. apply (Hdirs 0%nat). lia.
    + apply (Hfree 1%nat). lia.
  - (* a head that exists, or is made first *)
    assert (Hsh : OS.start (store w) head = s).
    { unfold s, OS.start. by rewrite (Hstart Hh). }
    unfold Py.bind at 1. unfold OS.path_exists at 1, gets at 1. cbv beta iota.
    destruct (decide (n = length ds')) as [Hn'|Hn'].
    + (* the head exists *)
      assert (Hstat : OS.stat (store w) head = Some OS.D).
      { unfold OS.stat, OS.resolve. destruct (String.eqb_spec head ""); [done|].
        rewrite Hsh, (walk_dirs _ ds' s Hnd').
        - specialize (Hdirs (length ds') ltac:(lia)).
          rewrite Htake, firstn_all in Hdirs by lia.
          unfold OS.is_dir in Hdirs. by destruct (OS.kind (store w) (s ++ ds')) as [[?|]|].
        - intros i Hi. rewrite <- Htake by lia. apply Hdirs. lia. }
      rewrite Hstat. rewrite bool_decide_eq_true_2 by eauto. cbn [negb].
      unfold ret at 1. cbv beta iota. rewrite (Hlast w Hc eq_refl).
      * eexists. split; [done|]. split; [by apply calm_step|]. split; [done|]. simpl. split.
        -- intros i Hi. assert (i = length ds' + 1)%nat as -> by lia.
           rewrite Hall. apply lookup_insert_eq.
        -- intros k Hk. apply lookup_insert_ne. intros Heq.
           apply (Hk (length ds' + 1)%nat ltac:(lia)). by rewrite Hall.
      * intros i Hi. rewrite <- Htake by lia. apply Hdirs. lia.
      * rewrite <- Hall. apply Hfree. lia.
    + (* the head is missing *)
      assert (Hstat : OS.stat (store w) head = None).
      { unfold OS.stat, OS.resolve. destruct (String.eqb_spec head ""); [done|].
        rewrite Hsh. fold ds'.
        pose proof (walk_missing (store w) s ds' n Hnd' ltac:(lia)) as Hm.
        destruct (OS.walk (store w) s ds') as [q|]; [|done].
        rewrite Hm; [done| |].
        - intros i Hi. rewrite <- Htake by lia. by apply Hdirs.
        - rewrite <- Htake by lia. apply Hfree. lia. }
      rewrite Hstat. rewrite bool_decide_eq_false_2 by (by intros [? ?]). cbn [negb].
      destruct (IH head w ds' n) as (w1 & Hrun & Hc1 & Hcwd & Hmade & Hkept);
        try done; try lia.
      { apply Hhend. intros Hnil. unfold ds' in *. rewrite Hnil in *. simpl in *. lia. }
      { rewrite Hsh. intros i Hi. rewrite <- Htake by lia. by apply Hdirs. }
      { rewrite Hsh. intros i Hi. rewrite <- Htake by lia. apply Hfree. lia. }
      rewrite Hsh in Hmade, Hkept.
      unfold Py.bind at 1. unfold try_except. rewrite Hrun. unfold ret at 1.
      destruct (nodots_eqb tl Hdtl) as [-> _]. cbv beta iota.
      assert (Hd1 : ∀ i, (i ≤ length ds')%nat → OS.is_dir (store w1) (s ++ take i ds') = true).
      { intros i Hi. destruct (decide (i ≤ n)%nat).
        - rewrite (is_dir_same_lookup (store w)).
          + rewrite <- Htake by lia. by apply Hdirs.
          + apply Hkept. intros j Hj Heq. apply app_inv_head in Heq.
            apply (f_equal length) in Heq. rewrite !length_take in Heq. lia.
        - apply is_dir_lookup_D, Hmade. lia. }
      assert (Hf1 : OS.tree (store w1) !! (s ++ ds' ++ [tl])%list = None).
      { rewrite Hkept.
        - rewrite <- Hall. apply Hfree. lia.
        - intros j Hj Heq. apply app_inv_head in Heq.
          apply (f_equal length) in Heq. rewrite length_take, length_app in Heq.
          simpl in Heq. lia. }
      rewrite (Hlast w1 Hc1 Hcwd Hd1 Hf1).
      eexists. split; [done|]. split; [by apply calm_step|]. split; [done|]. simpl. split.
      * intros i Hi. destruct (decide (i = length ds' + 1)%nat) as [->|Hi'].
        -- rewrite Hall. apply lookup_insert_eq.
        -- rewrite lookup_insert_ne.
           ++ rewrite Htake by lia. apply Hmade. lia.
           ++ intros Heq. apply app_inv_head in Heq.
              apply (f_equal length) in Heq. rewrite length_take, !length_app in Heq.
              simpl in Heq. lia.
      * intros k Hk. rewrite lookup_insert_ne.
        -- apply Hkept. intros j Hj. rewrite <- Htake by lia. apply Hk. lia.
        -- intros Heq. apply (Hk (length ds' + 1)%nat ltac:(lia)). by rewrite Hall.
Qed.

(** [open(p, 'wb')] in a calm world, for a path whose parent is a
    directory and whose last name is not a directory. *)
Lemma open_wb_calm p (w : world OS.fsys) d nm :
  calm w → p ≠ "" → PyStr.endswith PyStr.slash p = false →
  OS.parent_of (store w) p = Some (d, nm) → OS.dots nm = false →
  OS.is_dir (store w) (OS.child d nm) = false →
  OS.open_wb p w
  = (Ok (OS.child d nm),
     World (OS.set_entry (OS.child d nm) (OS.F []) (store w)) (tail (faults w))).
Proof.
  intros Hc Hne Hend Hpar Hdots Hnd. unfold OS.open_wb. rewrite call_calm by done.
  destruct (String.eqb_spec p ""); [done|]. rewrite Hpar, Hdots, Hend.
  unfold OS.is_dir in Hnd. by destruct (OS.kind (store w) (OS.child d nm)) as [[?|]|].
Qed.

(** A path of proper names whose directories all exist is a directory. *)
Lemma stat_dirs fs p :
  p ≠ "" → Forall (fun c => OS.dots c = false) (OS.components p) →
  (∀ i, (i ≤ length (OS.components p))%nat →
        OS.is_dir fs (OS.start fs p ++ take i (OS.components p)) = true) →
  OS.stat fs p = Some OS.D.
Proof.
  intros Hne Hnd Hd. unfold OS.stat, OS.resolve.
  destruct (String.eqb_spec p ""); [done|].
  rewrite walk_dirs; [|done|intros i Hi; apply Hd; lia].
  specialize (Hd (length (OS.components p)) ltac:(lia)). rewrite firstn_all in Hd.
  unfold OS.is_dir in Hd.
  by destruct (OS.kind fs (OS.start fs p ++ OS.components p)) as [[?|]|].
Qed.

(** A path of proper names with a missing directory does not exist. *)
Lemma stat_missing fs p n :
  Forall (fun c => OS.dots c = false) (OS.components p) →
  (n < length (OS.components p))%nat →
  (∀ i, (i ≤ n)%nat → OS.is_dir fs (OS.start fs p ++ take i (OS.components p)) = true) →
  OS.tree fs !! (OS.start fs p ++ take (S n) (OS.components p))%list = None →
  OS.stat fs p = None.
Proof.
  intros Hnd Hn Hd Hmiss. unfold OS.stat, OS.resolve.
  destruct (String.eqb_spec p ""); [done|].
  pose proof (walk_missing fs (OS.start fs p) (OS.components p) n Hnd Hn Hd Hmiss) as Hm.
  destruct (OS.walk fs (OS.start fs p) (OS.components p)) as [q|]; [|done].
  by rewrite Hm.
Qed.

Lemma try_ok {S A} (m : M S A) h (w w' : world S) a :
  m w = (Ok a, w') → try_except m h w = (Ok a, w').
Proof. intros H. unfold try_except. by rewrite H. Qed.

(** The local upload where the names of the joined path are proper
    names, the first [n] directories exist, the further ones are free
    and the target is not a directory. *)
Lemma local_upload_creates
    (base_path path : string) (content : bytes) (w : world OS.fsys) (n : nat) :
  let full := OS.path_join base_path path in
  let cs := OS.components full in
  let s := OS.start (store w) full in
  calm w →
  OS.path_dirname full ≠ "" →
  PyStr.endswith PyStr.slash full = false →
  Forall (fun c => OS.dots c = false) cs →
  (n < length cs)%nat →
  (∀ i, (i ≤ n)%nat → OS.is_dir (store w) (s ++ take i cs) = true) →
  (∀ i, (n < i < length cs)%nat → OS.tree (store w) !! (s ++ take i cs)%list = None) →
  OS.is_dir (store w) (s ++ cs) = false →
  ∃ w', Local.upload base_path path content w = (Ok tt, w') ∧ calm w'
        ∧ OS.tree (store w') !! (s ++ cs)%list = Some (OS.F content)
        ∧ (∀ i, (n < i < length cs)%nat →
                OS.tree (store w') !! (s ++ take i cs)%list = Some OS.D)
        ∧ (∀ k, (∀ i, (n < i ≤ length cs)%nat → k ≠ (s ++ take i cs)%list) →
                OS.tree (store w') !! k = OS.tree (store w) !! k)
        ∧ OS.cwd (store w') = OS.cwd (store w).
Proof.
  intros full cs s Hc Hdir Hend Hnd Hn Hdirs Hfree Htarget.
  assert (Hne : full ≠ "").
  { intros E. apply Hdir. by rewrite E. }
  destruct (path_split_names full Hne Hend) as (Htl & Hnames & Hstart & Hhend & Hshort).
  unfold Local.upload. fold full. unfold OS.path_dirname in *.
  destruct (OS.path_split full) as [head tl] eqn:Hsplit. cbn [fst snd] in *.
  assert (Hs : OS.start (store w) full = s) by reflexivity.
  assert (Hcs : OS.components full = cs) by reflexivity.
  clearbody s cs. rewrite Hcs in Hnames. subst cs.
  set (ds := OS.components head) in *.
  rewrite length_app in *. simpl length in *.
  apply Forall_app in Hnd as [Hnd' Hndt]. inversion Hndt as [|? ? Hdtl _]; subst x l.
  assert (Hsh : OS.start (store w) head = s).
  { rewrite <- Hs. unfold OS.start. by rewrite (Hstart Hdir). }
  assert (Htake : ∀ i, (i ≤ length ds)%nat → take i (ds ++ [tl]) = take i ds).
  { intros i Hi. by rewrite take_app_le. }
  assert (Hall : take (length ds + 1) (ds ++ [tl]) = (ds ++ [tl])%list).
  { apply take_ge. rewrite length_app. simpl. lia. }
  (* opening and writing the file once the directories are there *)
  assert (Hwrite : ∀ w1 : world OS.fsys,
    calm w1 → OS.cwd (store w1) = OS.cwd (store w) →
    (∀ i, (i ≤ length ds)%nat → OS.is_dir (store w1) (s ++ take i ds) = true) →
    OS.is_dir (store w1) (s ++ ds ++ [tl]) = false →
    (let* f := OS.open_wb full in OS.file_write f content) w1
    = (Ok tt,
       World (OS.set_entry (s ++ ds ++ [tl])%list (OS.F content)
                (OS.set_entry (s ++ ds ++ [tl])%list (OS.F []) (store w1)))
             (tail (tail (faults w1))))).
  { intros w1 Hc1 Hcwd Hd1 Hf1.
    assert (Hs1 : OS.start (store w1) full = s).
    { rewrite <- Hs. unfold OS.start. by rewrite Hcwd. }
    assert (Hpar : OS.parent_of (store w1) full = Some ((s ++ ds)%list, tl)).
    { rewrite <- Hs1. apply parent_of_names; rewrite ?Hs1; [done| |].
      - apply walk_dirs; [done|]. intros i Hi. apply Hd1. lia.
      - specialize (Hd1 (length ds) ltac:(lia)). by rewrite firstn_all in Hd1. }
    unfold Py.bind.
    rewrite (open_wb_calm full w1 _ _ Hc1 Hne Hend Hpar Hdtl);
      unfold OS.child; rewrite <- app_assoc; [|done].
    unfold OS.file_write. rewrite call_calm by (by apply calm_step). done. }
  destruct (decide (n = length ds)) as [Hn'|Hn'].
  - (* the directory exists: nothing is made *)
    assert (Hstat : OS.stat (store w) head = Some OS.D).
    { apply stat_dirs; [done|done|]. fold ds. rewrite Hsh.
      intros i Hi. rewrite <- Htake by lia. apply Hdirs. lia. }
    eexists. split.
    { apply try_ok. unfold Py.bind at 1. unfold OS.path_exists at 1, gets at 1.
      cbv beta iota. rewrite Hstat. rewrite bool_decide_eq_true_2 by eauto. cbn [negb].
      unfold Py.bind at 1, ret at 1. cbv beta iota.
      apply (Hwrite w Hc eq_refl).
      - intros i Hi. rewrite <- Htake by lia. apply Hdirs. lia.
      - done. }
    split; [by apply calm_step2|]. simpl. split; [apply lookup_insert_eq|]. split.
    + intros i Hi. lia.
    + split; [|done]. intros k Hk.
      assert (k ≠ (s ++ ds ++ [tl])%list).
      { intros Heq. apply (Hk (length ds + 1)%nat ltac:(lia)). by rewrite Hall. }
      by rewrite !lookup_insert_ne.
  - (* directories are missing: they are made first *)
    assert (Hstat : OS.stat (store w) head = None).
    { apply (stat_missing _ _ n); fold ds; rewrite ?Hsh; [done|lia| |].
      - intros i Hi. rewrite <- Htake by lia. by apply Hdirs.
      - rewrite <- Htake by lia. apply Hfree. lia. }
    destruct (makedirs_rec_creates (S (String.length head)) head w ds n)
      as (w1 & Hrun & Hc1 & Hcwd & Hmade & Hkept); try done; try lia.
    { apply Hhend. fold ds. intros Hnil. rewrite Hnil in *. simpl in *. lia. }
    { rewrite Hsh. intros i Hi. rewrite <- Htake by lia. by apply Hdirs. }
    { rewrite Hsh. intros i Hi. rewrite <- Htake by lia. apply Hfree. lia. }
    rewrite Hsh in Hmade, Hkept.
    assert (Hd1 : ∀ i, (i ≤ length ds)%nat → OS.is_dir (store w1) (s ++ take i ds) = true).
    { intros i Hi. destruct (decide (i ≤ n)%nat).
      - rewrite (is_dir_same_lookup (store w)).
        + rewrite <- Htake by lia. by apply Hdirs.
        + apply Hkept. intros j Hj Heq. apply app_inv_head in Heq.
          apply (f_equal length) in Heq. rewrite !length_take in Heq. lia.
      - apply is_dir_lookup_D, Hmade. lia. }
    assert (Hsame : OS.tree (store w1) !! (s ++ ds ++ [tl])%list
                    = OS.tree (store w) !! (s ++ ds ++ [tl])%list).
    { apply Hkept. intros j Hj Heq. apply app_inv_head in Heq.
      apply (f_equal length) in Heq. rewrite length_take, length_app in Heq.
      simpl in Heq. lia. }
    eexists. split.
    { apply try_ok. unfold Py.bind at 1. unfold OS.path_exists at 1, gets at 1.
      cbv beta iota. rewrite Hstat. rewrite bool_decide_eq_false_2 by (by intros [? ?]).
      cbn [negb]. unfold Py.bind at 1. unfold OS.makedirs. rewrite Hrun. cbv beta iota.
      apply (Hwrite w1 Hc1 Hcwd Hd1).
      by rewrite (is_dir_same_lookup (store w)). }
    split; [by apply calm_step2|]. simpl. split; [apply lookup_insert_eq|]. split.
    + intros i Hi.
      assert ((s ++ take i (ds ++ [tl]))%list ≠ (s ++ ds ++ [tl])%list).
      { intros Heq. apply app_inv_head in Heq. apply (f_equal length) in Heq.
        rewrite length_take, !length_app in Heq. simpl in Heq. lia. }
      rewrite !lookup_insert_ne by done. rewrite Htake by lia. apply Hmade. lia.
    + split; [|exact Hcwd]. intros k Hk.
      assert (k ≠ (s ++ ds ++ [tl])%list).
      { intros Heq. apply (Hk (length ds + 1)%nat ltac:(lia)). by rewrite Hall. }
      rewrite !lookup_insert_ne by done.
      apply Hkept. intros j Hj. rewrite <- Htake by lia. apply Hk. lia.
Qed.


(** X16: directories are materialized lazily. When the names of the
    joined path are proper names, its first [n] directories exist, the
    further ones are free and the target is not a directory,
    [LocalStorageProvider.upload] succeeds in a calm world: it makes
    exactly the missing directories, the file at the target holds the
    content, and every other entry of the tree is as before. *)
Theorem X16_local_upload_makes_the_missing_directories
    (base_path path : string) (content : bytes) (w : world OS.fsys) (n : nat) :
  let full := OS.path_join base_path path in
  let cs := OS.components full in
  let s := OS.start (store w) full in
  calm w →
  OS.path_dirname full ≠ "" →
  PyStr.endswith PyStr.slash full = false →
  Forall (fun c => OS.dots c = false) cs →
  (n < length cs)%nat →
  (∀ i, (i ≤ n)%nat → OS.is_dir (store w) (s ++ take i cs) = true) →
  (∀ i, (n < i < length cs)%nat → OS.tree (store w) !! (s ++ take i cs)%list = None) →
  OS.is_dir (store w) (s ++ cs) = false →
  ∃ w', Local.upload base_path path content w = (Ok tt, w') ∧ calm w'
        ∧ OS.tree (store w') !! (s ++ cs)%list = Some (OS.F content)
        ∧ (∀ i, (n < i < length cs)%nat →
                OS.tree (store w') !! (s ++ take i cs)%list = Some OS.D)
        ∧ (∀ k, (∀ i, (n < i ≤ length cs)%nat → k ≠ (s ++ take i cs)%list) →
                OS.tree (store w') !! k = OS.tree (store w) !! k).
Proof.
  intros full cs s Hc Hdir Hend Hnd Hn Hdirs Hfree Htarget.
  destruct (local_upload_creates base_path path content w n Hc Hdir Hend Hnd Hn Hdirs
              Hfree Htarget) as (w' & Hrun & Hc' & Hfile & Hmade & Hrest & _).
  exists w'. split; [exact Hrun|]. split; [exact Hc'|]. split; [exact Hfile|].
  split; [exact Hmade|exact Hrest].
Qed.

Lemma X16_witness :
  ∃ w', Local.upload Samples.base_path "a/b/f.txt" (Samples.data "x")
          (Samples.quiet Samples.tree0) = (Ok tt, w')
        ∧ OS.tree (store w') !! ["srv"; "media"; "a"; "b"; "f.txt"]
          = Some (OS.F (Samples.data "x"))
        ∧ OS.tree (store w') !! ["srv"; "media"; "a"] = Some OS.D
        ∧ OS.tree (store w') !! ["srv"; "media"; "a"; "b"] = Some OS.D.
Proof.
  destruct (X16_local_upload_makes_the_missing_directories
              Samples.base_path "a/b/f.txt" (Samples.data "x")
              (Samples.quiet Samples.tree0) 2)
    as (w' & Hrun & _ & Hfile & Hmade & _).
  - constructor.
  - clear. by vm_compute.
  - clear. vm_compute. reflexivity.
  - clear. vm_compute. repeat constructor.
  - clear. vm_compute. lia.
  - clear. intros i Hi. destruct i as [|[|[|i]]]; [vm_compute; reflexivity..|lia].
  - clear. intros i Hi. change (length _) with 5%nat in Hi.
    destruct i as [|[|[|[|[|i]]]]]; try lia; vm_compute; reflexivity.
  - clear. vm_compute. reflexivity.
  - exists w'. split; [exact Hrun|]. split; [exact Hfile|].
    split; [apply (Hmade 3%nat)|apply (Hmade 4%nat)]; clear; vm_compute; lia.
Defined.

(** ** Resolving and uploading on the drive *)

Lemma resolve_path_unfold root path (w : world Drive.drive) :
  GDrive._resolve_path_to_folder root path w =
  let parts := PyStr.split PyStr.slash (PyStr.strip PyStr.slash path) in
  match GDrive.resolve_loop (PyStr.init_parts parts) root w with
  | (Ok parent, w1) => (Ok (parent, PyStr.last_part parts), w1)
  | (Raise e, w1) => (Raise e, w1)
  end.
Proof.
  unfold GDrive._resolve_path_to_folder, Py.bind, ret. simpl.
  by destruct (GDrive.resolve_loop _ root w) as [[p|e] w1].
Qed.

(** X9: in a calm world, for a path that holds neither quote nor
    backslash, [_resolve_path_to_folder] returns a folder and
    adds folders only, at the end of the listing; resolving the same
    path again returns the same folder and the same name and leaves the
    drive as it is. *)
Theorem X9_gdrive_resolving_twice_creates_once
    (root : nat) (path : string) (w : world Drive.drive) :
  calm w → Drive.plain path = true →
  ∃ parent name w1 w2 extra,
    GDrive._resolve_path_to_folder root path w = (Ok (parent, name), w1)
    ∧ Drive.files (store w1) = (Drive.files (store w) ++ extra)%list
    ∧ Forall (fun it => Drive.folder it = true) extra
    ∧ GDrive._resolve_path_to_folder root path w1 = (Ok (parent, name), w2)
    ∧ store w2 = store w1.
Proof.
  intros Hc Hpl. rewrite resolve_path_unfold. cbv zeta.
  set (parts := PyStr.split PyStr.slash (PyStr.strip PyStr.slash path)).
  destruct (resolve_loop_spec (PyStr.init_parts parts) (plain_path_init path Hpl) root w Hc)
    as (p & w1 & extra & Hrun & Hc1 & Hfs & Hfo & Hpath & _).
  destruct (resolve_loop_found (PyStr.init_parts parts) (plain_path_init path Hpl)
              root w1 p Hc1 Hpath) as (w2 & Hrun2 & _ & Hst).
  exists p, (PyStr.last_part parts), w1, w2, extra.
  rewrite Hrun. split; [done|]. split; [done|]. split; [done|].
  rewrite resolve_path_unfold. cbv zeta. fold parts. rewrite Hrun2. by split.
Qed.

(** Resolving x/y/1 twice on the empty drive. *)
Lemma X9_witness :
  ∃ parent name w1 w2 extra,
    GDrive._resolve_path_to_folder Samples.root_folder_id "x/y/1"
      (Samples.quiet Samples.empty_drive) = (Ok (parent, name), w1)
    ∧ Drive.files (store w1) = (Drive.files Samples.empty_drive ++ extra)%list
    ∧ Forall (fun it => Drive.folder it = true) extra
    ∧ GDrive._resolve_path_to_folder Samples.root_folder_id "x/y/1" w1
      = (Ok (parent, name), w2)
    ∧ store w2 = store w1.
Proof.
  apply (X9_gdrive_resolving_twice_creates_once Samples.root_folder_id "x/y/1"
           (Samples.quiet Samples.empty_drive)).
  - apply calm_quiet.
  - reflexivity.
Defined.

(** X10: in a calm world an upload, with a path that holds neither
    quote nor backslash, to a drive without duplicate folders
    succeeds and leaves a drive without duplicate folders, in a world
    that is calm again, so the next upload starts from the same
    condition. *)
Theorem X10_gdrive_upload_keeps_folders_unique
    (root : nat) (path : string) (content : bytes) (w : world Drive.drive) :
  calm w → Drive.plain path = true → Drive.folder_unique (Drive.files (store w)) →
  ∃ w', GDrive.upload root path content w = (Ok tt, w') ∧ calm w'
        ∧ Drive.folder_unique (Drive.files (store w')).
Proof.
  intros Hc Hpl Hu. rewrite upload_unfold. cbv zeta.
  set (parts := PyStr.split PyStr.slash (PyStr.strip PyStr.slash path)).
  destruct (resolve_loop_spec (PyStr.init_parts parts) (plain_path_init path Hpl) root w Hc)
    as (p & w1 & extra & Hrun & Hc1 & _ & _ & _ & Hun & _).
  rewrite Hrun.
  destruct (create_or_update_keeps (PyStr.last_part parts) p content w1 Hc1
              (plain_path_last path Hpl))
    as (w' & Hput & Hc' & _ & Hun' & _).
  exists w'. split; [done|]. split; [done|]. auto.
Qed.

(** An upload to the drive that holds one file. *)
Lemma X10_witness :
  ∃ w', GDrive.upload Samples.root_folder_id "a/a/f.txt" (Samples.data "x")
          (Samples.quiet Samples.leaf_drive) = (Ok tt, w')
        ∧ calm w' ∧ Drive.folder_unique (Drive.files (store w')).
Proof.
  apply (X10_gdrive_upload_keeps_folders_unique Samples.root_folder_id "a/a/f.txt"
           (Samples.data "x") (Samples.quiet Samples.leaf_drive)).
  - apply calm_quiet.
  - reflexivity.
  - intros nm parent. simpl. destruct (Drive.matches _ _); simpl; lia.
Defined.

(** ** What the drive provider never does *)

Lemma kl_refl d : View.keeps_listing d d.
Proof. split; [done|lia]. Qed.

Lemma kl_trans d1 d2 d3 :
  View.keeps_listing d1 d2 → View.keeps_listing d2 d3 → View.keeps_listing d1 d3.
Proof. intros [H1 L1] [H2 L2]. split; [by etrans|lia]. Qed.

Lemma keeps_ret_d {A} (a : A) : View.keeps (ret a).
Proof. intros w. apply kl_refl. Qed.

Lemma keeps_bind_d {A B} (m : M Drive.drive A) (k : A → M Drive.drive B) :
  View.keeps m → (∀ a, View.keeps (k a)) → View.keeps (Py.bind m k).
Proof.
  intros Hm Hk w. unfold Py.bind. specialize (Hm w).
  destruct (m w) as [[a|e] w1]; simpl in *; [|done].
  eapply kl_trans; [exact Hm|]. apply Hk.
Qed.

Lemma keeps_call_d {A} (op : Drive.drive → result A * Drive.drive) :
  (∀ d, View.keeps_listing d (op d).2) → View.keeps (call op).
Proof.
  intros H [d flt]. unfold call; simpl. specialize (H d).
  destruct flt as [|[e|] flt]; simpl; [| apply kl_refl |];
    by destruct (op d).
Qed.

Lemma meta_set_content i c it : View.meta (Drive.set_content i c it) = View.meta it.
Proof. unfold Drive.set_content. by destruct (Nat.eqb (Drive.id it) i). Qed.

Lemma keeps_list q : View.keeps (Drive.files_list q).
Proof.
  apply keeps_call_d. intros d. destruct (Drive.plain (Drive.q_name q)); apply kl_refl.
Qed.

Lemma keeps_create nm fo parent c : View.keeps (Drive.files_create nm fo parent c).
Proof.
  apply keeps_call_d. intros d. split; simpl; [|lia].
  rewrite List.map_app. by apply prefix_app_r.
Qed.

Lemma keeps_update i c : View.keeps (Drive.files_update i c).
Proof.
  apply keeps_call_d. intros d.
  destruct (existsb _ (Drive.files d)); [|apply kl_refl].
  split; simpl; [|lia]. rewrite List.map_map.
  rewrite (List.map_ext (fun x => View.meta (Drive.set_content i c x)) View.meta);
    [done|]. intros it. apply meta_set_content.
Qed.

Lemma keeps_resolve_loop parts : ∀ cur, View.keeps (GDrive.resolve_loop parts cur).
Proof.
  induction parts as [|part rest IH]; intros cur; simpl; [apply keeps_ret_d|].
  apply keeps_bind_d; [|intros; apply IH].
  unfold GDrive._get_or_create_folder.
  apply keeps_bind_d; [apply keeps_list|].
  intros [|f r]; [apply keeps_create|apply keeps_ret_d].
Qed.

(** X11: whatever fails, an upload to the drive only appends files and
    rewrites contents: every file listed before is listed afterwards at
    the same place with the same identifier, name, kind, parents and
    trash flag. *)
Theorem X11_gdrive_upload_never_removes_or_renames
    (root : nat) (path : string) (content : bytes) (w : world Drive.drive) :
  View.keeps_listing (store w) (store (GDrive.upload root path content w).2).
Proof.
  revert w. change (View.keeps (GDrive.upload root path content)).
  intros w. rewrite upload_unfold. cbv zeta.
  pose proof (keeps_resolve_loop
                (PyStr.init_parts (PyStr.split PyStr.slash (PyStr.strip PyStr.slash path)))
                root w) as H1.
  destruct (GDrive.resolve_loop _ root w) as [[p|e] w1]; simpl in *; [|done].
  eapply kl_trans; [exact H1|].
  assert (Hk : View.keeps
                 (GDrive.create_or_update
                    (PyStr.last_part (PyStr.split PyStr.slash (PyStr.strip PyStr.slash path)))
                    p content)).
  { unfold GDrive.create_or_update. apply keeps_bind_d; [apply keeps_list|].
    intros [|f r]; [|apply keeps_update].
    apply keeps_bind_d; [apply keeps_create|intros; apply keeps_ret_d]. }
  apply Hk.
Qed.

Lemma list_filter_sublist {A} (P : A → bool) (l : list A) : List.filter P l `sublist_of` l.
Proof.
  induction l as [|x l IH]; simpl; [done|].
  destruct (P x); [by apply sublist_skip|by apply sublist_cons].
Qed.

(** X12: whatever fails, [delete_by_prefix] on the drive creates and
    rewrites nothing: the files afterwards are files of before, in
    their order, and no identifier was handed out. *)
Theorem X12_gdrive_delete_never_creates
    (root : nat) (prefix : string) (w : world Drive.drive) :
  Drive.files (store (GDrive.delete_by_prefix root prefix w).2)
    `sublist_of` Drive.files (store w)
  ∧ Drive.next_id (store (GDrive.delete_by_prefix root prefix w).2)
    = Drive.next_id (store w).
Proof.
  unfold GDrive.delete_by_prefix. rewrite try_reraise. unfold Py.bind.
  pose proof (find_loop_store (PyStr.split PyStr.slash (PyStr.strip PyStr.slash prefix))
                root None w) as Hs.
  destruct (GDrive.find_loop _ root None w) as [[[|[t|]]|e] w1]; simpl in *;
    try (by rewrite Hs).
  destruct (Drive.files_delete t w1) as [r w2] eqn:E. simpl.
  apply call_inv in E as [(e' & _ & ->)|E]; [by rewrite Hs|].
  rewrite Hs in E.
  destruct (existsb _ (Drive.files (store w))); injection E as _ <-; [|done].
  simpl. split; [apply list_filter_sublist|done].
Qed.

(** ** The leaf name of a drive path *)

Lemma split_singleton_empty c s : PyStr.split c s = [""] → s = "".
Proof.
  destruct s as [|a s]; [done|]. simpl.
  destruct (Ascii.eqb a c).
  - pose proof (split_nonempty c s). intros [= H']. done.
  - destruct (PyStr.split c s); discriminate.
Qed.

Lemma last_part_cons x l : l ≠ [] → PyStr.last_part (x :: l) = PyStr.last_part l.
Proof. unfold PyStr.last_part. by destruct l. Qed.

Lemma split_last_empty c s :
  PyStr.last_part (PyStr.split c s) = "" ↔ s = "" ∨ PyStr.endswith c s = true.
Proof.
  induction s as [|a s IH]; [by split; [left|]|].
  simpl PyStr.split. destruct (Ascii.eqb a c) eqn:Ea.
  - rewrite last_part_cons by apply split_nonempty. rewrite IH.
    simpl. rewrite Ea. split.
    + intros [->|H]; right; [done|]. by destruct s.
    + intros [?|H]; [done|]. destruct s; [by left|by right].
  - pose proof (split_nonempty c s) as Hne.
    destruct (PyStr.split c s) as [|h t] eqn:E; [done|].
    destruct t as [|h' t'].
    + split; [done|]. intros [?|H]; [done|]. exfalso.
      simpl in H. rewrite Ea in H. destruct s as [|b s]; [done|].
      assert (Hl : PyStr.last_part [h] = "") by (apply IH; by right).
      unfold PyStr.last_part in Hl. simpl in Hl. subst h.
      by apply split_singleton_empty in E.
    + rewrite last_part_cons by done. rewrite IH. simpl. rewrite Ea. split.
      * intros [->|H]; [done|]. right. by destruct s.
      * intros [?|H]; [done|]. destruct s; [done|by right].
Qed.

Lemma lstrip_endswith c s :
  PyStr.endswith c (PyStr.lstrip c s) = true → PyStr.endswith c s = true.
Proof.
  induction s as [|a s IH]; [done|]. simpl PyStr.lstrip.
  destruct (Ascii.eqb a c) eqn:Ea; [|done].
  intros H. specialize (IH H). simpl. by destruct s.
Qed.

Lemma strip_no_trailing c p : PyStr.endswith c (PyStr.strip c p) = false.
Proof.
  unfold PyStr.strip. destruct (PyStr.endswith c (PyStr.lstrip c (PyStr.rstrip c p))) eqn:E;
    [|done].
  apply lstrip_endswith in E. by rewrite rstrip_no_trailing in E.
Qed.

Lemma split_parts_sep_free c s part :
  In part (PyStr.split c s) → ¬ In c (list_ascii_of_string part).
Proof.
  revert part. induction s as [|a s IH]; intros part; simpl.
  { intros [<-|[]]. simpl. tauto. }
  destruct (Ascii.eqb a c) eqn:Ea.
  - intros [<-|H]; [simpl; tauto|by apply IH].
  - pose proof (split_nonempty c s) as Hne.
    destruct (PyStr.split c s) as [|h t]; [done|].
    intros [<-|H]; [|apply IH; by right].
    simpl. intros [->|H].
    + by rewrite Ascii.eqb_refl in Ea.
    + revert H. apply IH. by left.
Qed.

(** X13: the file name that [_resolve_path_to_folder] returns holds no
    slash, and it is empty exactly when the path is empty after
    stripping slashes. *)
Theorem X13_gdrive_leaf_name
    (root : nat) (path : string) (w w' : world Drive.drive) (parent : nat) (name : string) :
  GDrive._resolve_path_to_folder root path w = (Ok (parent, name), w') →
  ¬ In PyStr.slash (list_ascii_of_string name)
  ∧ (name = "" ↔ PyStr.strip PyStr.slash path = "").
Proof.
  rewrite resolve_path_unfold. cbv zeta.
  destruct (GDrive.resolve_loop _ root w) as [[p|e] w1]; [|done].
  intros [= _ <- _]. split.
  - apply (split_parts_sep_free PyStr.slash (PyStr.strip PyStr.slash path)).
    unfold PyStr.last_part.
    pose proof (split_nonempty PyStr.slash (PyStr.strip PyStr.slash path)) as Hne.
    destruct (exists_last Hne) as (l & x & ->).
    rewrite List.last_last. apply in_app_iff. right. by left.
  - rewrite split_last_empty, strip_no_trailing. split; [by intros [?|?]|by left].
Qed.

(** The path /x/y/1/ has the leaf name 1. *)
Lemma X13_witness :
  ¬ In PyStr.slash (list_ascii_of_string "1")
  ∧ ("1" = "" ↔ PyStr.strip PyStr.slash "/x/y/1/" = "").
Proof.
  apply (X13_gdrive_leaf_name Samples.root_folder_id "/x/y/1/"
           (Samples.quiet Samples.empty_drive)
           (GDrive._resolve_path_to_folder Samples.root_folder_id "/x/y/1/"
              (Samples.quiet Samples.empty_drive)).2 2 "1").
  reflexivity.
Defined.

(** ** Putting and then deleting on the drive *)

Lemma find_loop_found_world parts :
  Forall (fun part => Drive.plain part = true) parts →
  ∀ cur tgt (w : world Drive.drive) p,
    calm w → parts ≠ [] →
    Drive.path_folder (Drive.files (store w)) parts cur = Some p →
    ∃ w', GDrive.find_loop parts cur tgt w = (Ok (GDrive.Finished (Some p)), w')
          ∧ calm w' ∧ store w' = store w.
Proof.
  induction 1 as [|part rest Hpart Hrest IH]; intros cur tgt w p Hc Hne Hp;
    simpl in *; [done|].
  unfold Py.bind. rewrite files_list_calm by done.
  unfold Drive.first_match in Hp.
  destruct (List.filter _ (Drive.files (store w))) as [|f fs]; simpl in *; [done|].
  destruct rest as [|part' rest'].
  - simpl in *. injection Hp as ->. eexists. split; [done|]. split; [by apply calm_step|done].
  - destruct (IH (Drive.id f) tgt (World (store w) (tail (faults w))) p)
      as (w' & Hrun & Hc' & Hst); [by apply calm_step|done|done|].
    exists w'. by rewrite Hrun.
Qed.

Lemma path_folder_in fs parts cur p :
  parts ≠ [] → Drive.path_folder fs parts cur = Some p →
  ∃ it, In it fs ∧ Drive.id it = p.
Proof.
  revert cur. induction parts as [|part rest IH]; intros cur Hne; simpl; [done|].
  unfold Drive.first_match.
  destruct (List.filter _ fs) as [|f r] eqn:E; simpl; [done|].
  destruct rest as [|part' rest'].
  - simpl. intros [= <-]. apply in_filter_head in E as [Hin _]. eauto.
  - by apply IH.
Qed.

Lemma descendants_incl fuel : ∀ ids fs i, i ∈ ids → i ∈ Drive.descendants fuel ids fs.
Proof.
  induction fuel as [|fuel IH]; intros ids fs i Hi; simpl; [done|].
  apply IH. apply elem_of_app. by left.
Qed.

Lemma descendants_child fuel ids fs it p :
  (0 < fuel)%nat → In it fs → p ∈ Drive.parents it → p ∈ ids →
  Drive.id it ∈ Drive.descendants fuel ids fs.
Proof.
  intros Hf Hin Hp Hids. destruct fuel as [|fuel]; [lia|]. simpl.
  apply descendants_incl. apply elem_of_app. right.
  apply list_elem_of_In, in_map, filter_In. split; [done|].
  apply existsb_exists. exists p. split; [by apply list_elem_of_In|].
  by apply bool_decide_eq_true_2.
Qed.

(** X14: in a calm world, after an upload to a path with at least one
    folder and with neither quote nor backslash, deleting by the prefix that names the chain of folders of
    that path succeeds; afterwards neither the resolved folder nor any
    file that hung directly under it is on the drive, so the uploaded
    leaf is gone. *)
Theorem X14_gdrive_delete_removes_what_upload_stored
    (root : nat) (path prefix : string) (content : bytes) (w : world Drive.drive) :
  calm w → Drive.plain path = true →
  let parts := PyStr.split PyStr.slash (PyStr.strip PyStr.slash path) in
  PyStr.init_parts parts ≠ [] →
  PyStr.split PyStr.slash (PyStr.strip PyStr.slash prefix) = PyStr.init_parts parts →
  ∃ w1 w2 p,
    GDrive.upload root path content w = (Ok tt, w1)
    ∧ Drive.path_folder (Drive.files (store w1)) (PyStr.init_parts parts) root = Some p
    ∧ List.filter (Drive.matches (Drive.Query (PyStr.last_part parts) p false))
        (Drive.files (store w1)) ≠ []
    ∧ GDrive.delete_by_prefix root prefix w1 = (Ok tt, w2)
    ∧ Forall (fun it => Drive.id it ≠ p ∧ p ∉ Drive.parents it) (Drive.files (store w2))
    ∧ List.filter (Drive.matches (Drive.Query (PyStr.last_part parts) p false))
        (Drive.files (store w2)) = [].
Proof.
  intros Hc Hpl parts Hne Hpre. rewrite upload_unfold. cbv zeta. fold parts.
  pose proof (plain_path_init path Hpl) as Hpi. fold parts in Hpi.
  pose proof (plain_path_last path Hpl) as Hpla. fold parts in Hpla.
  destruct (resolve_loop_spec (PyStr.init_parts parts) Hpi root w Hc)
    as (p & wa & extra & Hrun & Hca & _ & _ & Hpath & _).
  rewrite Hrun.
  destruct (create_or_update_first (PyStr.last_part parts) p content wa Hca Hpla)
    as (w1 & it & r & Hput & Hc1 & Hleaf & _ & _).
  destruct (create_or_update_keeps (PyStr.last_part parts) p content wa Hca Hpla)
    as (w1' & Hput' & _ & Hkeep & _).
  rewrite Hput in Hput'. injection Hput' as <-.
  pose proof (Hkeep _ _ _ Hpath) as Hpath1.
  exists w1. unfold GDrive.delete_by_prefix. rewrite try_reraise, Hpre. unfold Py.bind.
  destruct (find_loop_found_world _ Hpi root None w1 p Hc1 Hne Hpath1)
    as (wb & Hfind & Hcb & Hst).
  rewrite Hfind.
  destruct (path_folder_in _ _ _ _ Hne Hpath1) as (fp & Hfp & Hid).
  unfold Drive.files_delete. rewrite call_calm by done. rewrite Hst.
  assert (Hex : existsb (fun it => Nat.eqb (Drive.id it) p) (Drive.files (store w1)) = true).
  { apply existsb_exists. exists fp. split; [done|]. rewrite Hid. apply Nat.eqb_refl. }
  rewrite Hex. simpl.
  set (gone := Drive.descendants (length (Drive.files (store w1))) [p] (Drive.files (store w1))).
  assert (Hall : Forall (fun it => Drive.id it ≠ p ∧ p ∉ Drive.parents it)
                   (List.filter (fun it => negb (bool_decide (Drive.id it ∈ gone)))
                      (Drive.files (store w1)))).
  { apply Forall_forall. intros x Hx. apply list_elem_of_In, filter_In in Hx as [Hin Hx].
    apply negb_true_iff, bool_decide_eq_false_1 in Hx. split.
    - intros Heq. apply Hx. rewrite Heq. apply descendants_incl.
      by apply list_elem_of_singleton.
    - intros Hp. apply Hx. apply (descendants_child _ _ _ _ p); try done.
      + destruct (Drive.files (store w1)); [done|simpl; lia].
      + by apply list_elem_of_singleton. }
  eexists _, p. split; [done|]. split; [done|]. split; [by rewrite Hleaf|].
  split; [done|]. simpl. split; [exact Hall|].
  apply childless_no_match. eapply Forall_impl; [exact Hall|]. by intros x [_ ?].
Qed.

(** The upload and the deletion of the repository's drive test. *)
Lemma X14_witness :
  ∃ w1 w2 p,
    GDrive.upload Samples.root_folder_id "integration_test/drive_check.txt"
      (Samples.data "Content") (Samples.quiet Samples.empty_drive) = (Ok tt, w1)
    ∧ Drive.path_folder (Drive.files (store w1)) ["integration_test"]
        Samples.root_folder_id = Some p
    ∧ List.filter (Drive.matches (Drive.Query "drive_check.txt" p false))
        (Drive.files (store w1)) ≠ []
    ∧ GDrive.delete_by_prefix Samples.root_folder_id "integration_test/" w1 = (Ok tt, w2)
    ∧ Forall (fun it => Drive.id it ≠ p ∧ p ∉ Drive.parents it) (Drive.files (store w2))
    ∧ List.filter (Drive.matches (Drive.Query "drive_check.txt" p false))
        (Drive.files (store w2)) = [].
Proof.
  apply (X14_gdrive_delete_removes_what_upload_stored Samples.root_folder_id
           "integration_test/drive_check.txt" "integration_test/" (Samples.data "Content")
           (Samples.quiet Samples.empty_drive)).
  - apply calm_quiet.
  - reflexivity.
  - discriminate.
  - reflexivity.
Defined.

(** ** Several files of one name *)

Lemma set_content_other i c it : Drive.id it ≠ i → Drive.set_content i c it = it.
Proof.
  intros H. unfold Drive.set_content.
  destruct (Nat.eqb_spec (Drive.id it) i); [done|done].
Qed.

(** X15: when the folders of the path exist and several files of the
    leaf's name hang in the resolved folder, an upload in a calm world,
    with a path that holds neither quote nor backslash,
    rewrites the first one listed and leaves the others as they are
    (identifiers being distinct). *)
Theorem X15_gdrive_upload_rewrites_the_first_match
    (root : nat) (path : string) (content : bytes) (w : world Drive.drive)
    (parent : nat) (f : Drive.item) (others : list Drive.item) :
  calm w → Drive.plain path = true →
  List.NoDup (List.map Drive.id (Drive.files (store w))) →
  let parts := PyStr.split PyStr.slash (PyStr.strip PyStr.slash path) in
  Drive.path_folder (Drive.files (store w)) (PyStr.init_parts parts) root = Some parent →
  List.filter (Drive.matches (Drive.Query (PyStr.last_part parts) parent false))
    (Drive.files (store w)) = f :: others →
  ∃ w', GDrive.upload root path content w = (Ok tt, w')
        ∧ List.filter (Drive.matches (Drive.Query (PyStr.last_part parts) parent false))
            (Drive.files (store w'))
          = Drive.set_content (Drive.id f) content f :: others
        ∧ length (Drive.files (store w')) = length (Drive.files (store w)).
Proof.
  intros Hc Hpl Hnd parts Hpath Hleaf. rewrite upload_unfold. cbv zeta. fold parts.
  destruct (resolve_loop_found (PyStr.init_parts parts) (plain_path_init path Hpl)
              root w parent Hc Hpath)
    as (w1 & Hrun & Hc1 & Hst).
  rewrite Hrun.
  destruct (create_or_update_calm (PyStr.last_part parts) parent content w1 Hc1
              (plain_path_last path Hpl))
    as (w' & Hput & _ & [[Hnone _]|(f' & r' & Hsome & Hfs')]); rewrite Hst in *.
  { by rewrite Hnone in Hleaf. }
  rewrite Hsome in Hleaf. injection Hleaf as -> ->.
  exists w'. split; [done|]. rewrite Hfs'. split; [|by rewrite length_map].
  rewrite filter_set_content, Hsome. simpl. f_equal.
  (* the other matches have other identifiers *)
  assert (Hids : List.NoDup (List.map Drive.id (f :: others))).
  { rewrite <- Hsome. clear -Hnd.
    induction (Drive.files (store w)) as [|x l IH]; simpl in *; [constructor|].
    inversion Hnd as [|? ? Hx Hl]; subst.
    destruct (Drive.matches _ x); simpl; [|by apply IH].
    constructor; [|by apply IH]. intros Hin. apply Hx.
    apply in_map_iff in Hin as (y & Hy & Hin). apply filter_In in Hin as [Hin _].
    apply in_map_iff. eauto. }
  simpl in Hids. inversion Hids as [|? ? Hf _]; subst.
  clear -Hf. induction others as [|x l IH]; simpl in *; [done|].
  rewrite set_content_other by tauto. f_equal. apply IH. tauto.
Qed.

(** Two files f.txt in the root folder. *)
Lemma X15_witness :
  ∃ w', GDrive.upload Samples.root_folder_id "f.txt" (Samples.data "new")
          (Samples.quiet
             (Drive.DriveSt [Drive.Item 1 "f.txt" false [0] false (Samples.data "a");
                             Drive.Item 2 "f.txt" false [0] false (Samples.data "b")] 3
                Drive.refuse))
        = (Ok tt, w')
        ∧ List.filter (Drive.matches (Drive.Query "f.txt" Samples.root_folder_id false))
            (Drive.files (store w'))
          = [Drive.Item 1 "f.txt" false [0] false (Samples.data "new");
             Drive.Item 2 "f.txt" false [0] false (Samples.data "b")]
        ∧ length (Drive.files (store w')) = 2.
Proof.
  apply (X15_gdrive_upload_rewrites_the_first_match Samples.root_folder_id "f.txt"
           (Samples.data "new")
           (Samples.quiet
              (Drive.DriveSt [Drive.Item 1 "f.txt" false [0] false (Samples.data "a");
                              Drive.Item 2 "f.txt" false [0] false (Samples.data "b")] 3
                Drive.refuse))
           Samples.root_folder_id
           (Drive.Item 1 "f.txt" false [0] false (Samples.data "a"))
           [Drive.Item 2 "f.txt" false [0] false (Samples.data "b")]).
  - apply calm_quiet.
  - reflexivity.
  - simpl. repeat constructor; simpl; intros H; repeat destruct H as [H|H]; discriminate || done.
  - reflexivity.
  - reflexivity.
Defined.

(** ** Upload, then delete *)

(** X17: on the object stores an upload followed by the deletion of a
    prefix of the stored name succeeds in a calm world and leaves no
    blob of that name; blobs that do not start with the prefix are as
    before the upload. Azure stores under the path as given, GCS under
    the path without leading slashes, and matches the prefix without
    leading slashes; the name of the blob is not empty. *)
Theorem X17_blob_upload_then_delete_leaves_no_blob
    (path prefix : string) (content : bytes) (w : world (gmap string bytes)) :
  calm w →
  (path ≠ "" → String.prefix prefix path = true →
   ∃ w1 w2, Azure.upload path content w = (Ok tt, w1)
            ∧ Azure.delete_by_prefix prefix w1 = (Ok tt, w2)
            ∧ store w2 !! path = None
            ∧ ∀ k, String.prefix prefix k = false → store w2 !! k = store w !! k)
  ∧ (PyStr.lstrip PyStr.slash path ≠ "" →
     String.prefix (PyStr.lstrip PyStr.slash prefix) (PyStr.lstrip PyStr.slash path) = true →
     ∃ w1 w2, GCS.upload path content w = (Ok tt, w1)
              ∧ GCS.delete_by_prefix prefix w1 = (Ok tt, w2)
              ∧ store w2 !! PyStr.lstrip PyStr.slash path = None
              ∧ ∀ k, String.prefix (PyStr.lstrip PyStr.slash prefix) k = false →
                     store w2 !! k = store w !! k).
Proof.
  intros Hc.
  assert (Hgen : ∀ pre key,
    String.prefix pre key = true →
    ∃ w2, (let* blobs := Blob.list_blobs pre in
           for_each blobs (fun blob => Blob.delete_blob blob))
            (World (<[key := content]> (store w)) (tail (faults w))) = (Ok tt, w2)
          ∧ store w2 !! key = None
          ∧ ∀ k, String.prefix pre k = false → store w2 !! k = store w !! k).
  { intros pre key Hp.
    unfold Py.bind, Blob.list_blobs. rewrite call_calm by (by apply calm_step). simpl.
    destruct (delete_listed_calm pre
                (World (<[key := content]> (store w)) (tail (tail (faults w)))))
      as (w2 & Hrun & _ & Hl); [by apply calm_step2|].
    simpl in Hrun, Hl. exists w2. split; [exact Hrun|]. split.
    - by rewrite Hl, Hp.
    - intros k Hk. rewrite Hl, Hk. apply lookup_insert_ne. intros ->. congruence. }
  split; [intros Hne Hp|intros _ Hp].
  - destruct (Hgen prefix path Hp) as (w2 & Hrun & Hnone & Hrest).
    exists (World (<[path := content]> (store w)) (tail (faults w))), w2.
    split; [|split; [|by split]].
    + by apply azure_upload_calm.
    + unfold Azure.delete_by_prefix. by rewrite try_reraise.
  - set (pre := PyStr.lstrip PyStr.slash prefix) in *.
    set (key := PyStr.lstrip PyStr.slash path) in *.
    destruct (Hgen pre key Hp) as (w2 & Hrun & Hnone & Hrest).
    exists (World (<[key := content]> (store w)) (tail (faults w))), w2.
    split; [|split; [|by split]].
    + unfold GCS.upload. rewrite try_reraise. by apply blob_put_calm.
    + unfold GCS.delete_by_prefix. rewrite try_reraise. fold pre.
      revert Hrun. unfold Py.bind.
      destruct (Blob.list_blobs pre _) as [[[|b bs]|e] w3]; [|done..].
      simpl. done.
Qed.

Lemma X17_witness :
  ∃ w1 w2, GCS.upload "/a/b.txt" (Samples.data "x")
             (Samples.quiet (<["c" := Samples.data "z"]> Samples.empty_bucket))
           = (Ok tt, w1)
           ∧ GCS.delete_by_prefix "//a/" w1 = (Ok tt, w2)
           ∧ store w2 !! "a/b.txt" = None
           ∧ store w2 !! "c" = Some (Samples.data "z").
Proof.
  destruct (X17_blob_upload_then_delete_leaves_no_blob "/a/b.txt" "//a/" (Samples.data "x")
              (Samples.quiet (<["c" := Samples.data "z"]> Samples.empty_bucket))
              (calm_quiet _)) as [_ Hgcs].
  destruct Hgcs as (w1 & w2 & Hup & Hdel & Hnone & Hrest);
    [discriminate|clear; vm_compute; reflexivity|].
  exists w1, w2. split; [exact Hup|]. split; [exact Hdel|]. split; [exact Hnone|].
  rewrite Hrest; clear; vm_compute; reflexivity.
Defined.

(** What a successful [open(p, 'wb')] found. *)
Lemma open_wb_parent p w q w' :
  OS.open_wb p w = (Ok q, w') →
  ∃ d nm, OS.parent_of (store w) p = Some (d, nm) ∧ OS.dots nm = false
          ∧ q = OS.child d nm.
Proof.
  intros H. apply call_ok_inv in H.
  destruct (String.eqb_spec p ""); [done|].
  destruct (OS.parent_of (store w) p) as [[d name]|] eqn:Hpar.
  2:{ by destruct (OS.components p). }
  destruct (OS.dots name) eqn:Hdots; [done|].
  exists d, name.
  destruct (OS.kind (store w) (OS.child d name)) as [[c|]|] eqn:Hk; [| done |];
    destruct (PyStr.endswith PyStr.slash p) eqn:He; try done;
    injection H as <- _; done.
Qed.

Lemma parent_of_ext fs fs' p :
  OS.cwd fs' = OS.cwd fs → (∀ x, OS.is_dir fs x = OS.is_dir fs' x) →
  OS.parent_of fs p = OS.parent_of fs' p.
Proof.
  intros Hcwd H. unfold OS.parent_of.
  destruct (OS.components p) as [|c cs]; [done|].
  unfold OS.start. rewrite Hcwd.
  rewrite (walk_ext fs fs') by done.
  destruct (OS.walk fs' _ _) as [d|]; [|done]. by rewrite H.
Qed.

(** X18: after a successful [LocalStorageProvider.upload],
    [delete_by_prefix] with the same path succeeds in a calm world and
    removes the file that was written, and nothing else: the directories
    that the upload made stay. *)
Theorem X18_local_delete_removes_the_uploaded_file
    (base_path path : string) (content : bytes) (w w1 : world OS.fsys) :
  Local.upload base_path path content w = (Ok tt, w1) →
  calm w1 →
  ∃ q w2, OS.resolve (store w1) (OS.path_join base_path path) = Some q
          ∧ OS.tree (store w1) !! q = Some (OS.F content)
          ∧ Local.delete_by_prefix base_path path w1 = (Ok tt, w2)
          ∧ OS.tree (store w2) !! q = None
          ∧ ∀ k, k ≠ q → OS.tree (store w2) !! k = OS.tree (store w1) !! k.
Proof.
  intros Hup Hc1.
  pose proof (local_upload_ok _ _ _ _ _ Hup) as Hstat.
  unfold Local.upload in Hup. rewrite try_reraise in Hup.
  set (full := OS.path_join base_path path) in *.
  apply bind_ok_inv in Hup as (ex & wa & _ & Hup).
  apply bind_ok_inv in Hup as (u & wb & _ & Hup).
  apply bind_ok_inv in Hup as (q & wc & Hopen & Hwrite).
  destruct (open_wb_parent _ _ _ _ Hopen) as (d & nm & Hpar & Hdots & Hq).
  apply open_wb_ok in Hopen as (Hres & Hne & Hnd & Hend & Hst).
  apply file_write_ok in Hwrite. rewrite Hst in Hwrite.
  assert (Hpar1 : OS.parent_of (store w1) full = Some (d, nm)).
  { rewrite <- Hpar. symmetry. apply parent_of_ext; rewrite Hwrite; [done|].
    intros x. symmetry.
    rewrite is_dir_set_file; [by rewrite is_dir_set_file|done|by rewrite is_dir_set_file]. }
  assert (Hfile : OS.tree (store w1) !! q = Some (OS.F content)).
  { rewrite Hwrite. apply lookup_insert_eq. }
  assert (Hk : OS.kind (store w1) (OS.child d nm) = Some (OS.F content)).
  { rewrite <- Hq. unfold OS.kind. by destruct q. }
  exists q, (World (OS.del_entry q (store w1)) (tail (faults w1))).
  split.
  { rewrite Hq. apply resolve_of_parent; [|done..].
    intros E. unfold OS.parent_of in Hpar1. by rewrite E in Hpar1. }
  split; [done|]. split.
  { unfold Local.delete_by_prefix, try_except, Py.bind, OS.path_isdir, OS.path_isfile, gets.
    fold full. rewrite Hstat. cbv beta iota. rewrite Hstat. unfold OS.remove.
    rewrite call_calm by done. by rewrite Hpar1, Hdots, Hk, Hend, Hq. }
  simpl. split; [apply lookup_delete_eq|]. intros k Hk'. by apply lookup_delete_ne.
Qed.

Lemma X18_witness :
  ∃ q w1 w2,
    Local.upload Samples.base_path "a/f.txt" (Samples.data "x")
      (Samples.quiet Samples.tree0) = (Ok tt, w1)
    ∧ Local.delete_by_prefix Samples.base_path "a/f.txt" w1 = (Ok tt, w2)
    ∧ OS.tree (store w1) !! q = Some (OS.F (Samples.data "x"))
    ∧ OS.tree (store w2) !! q = None.
Proof.
  pose (w1 := (Local.upload Samples.base_path "a/f.txt" (Samples.data "x")
                 (Samples.quiet Samples.tree0)).2).
  assert (Hup : Local.upload Samples.base_path "a/f.txt" (Samples.data "x")
                  (Samples.quiet Samples.tree0) = (Ok tt, w1)).
  { clear. vm_compute. reflexivity. }
  assert (Hc1 : calm w1).
  { clear. vm_compute. constructor. }
  destruct (X18_local_delete_removes_the_uploaded_file _ _ _ _ _ Hup Hc1)
    as (q & w2 & _ & Hfile & Hdel & Hnone & _).
  exists q, w1, w2. split; [exact Hup|]. split; [exact Hdel|]. by split.
Defined.

(** * The claims that span the providers *)

(** ** A name with a quote in a query of the drive *)

(** A service that refuses what is not a query answers a list call for
    a name that is not plain with an error. *)
Lemma files_list_refused q (w : world Drive.drive) :
  calm w → Drive.odd (store w) = Drive.refuse → Drive.plain (Drive.q_name q) = false →
  Drive.files_list q w = (Raise (HttpError 400), World (store w) (tail (faults w))).
Proof.
  intros Hc Ho Hp. unfold Drive.files_list. rewrite call_calm by done.
  by rewrite Hp, Ho.
Qed.

Lemma gdrive_delete_refused root prefix (w : world Drive.drive) :
  calm w → Drive.odd (store w) = Drive.refuse →
  Drive.plain (List.hd "" (PyStr.split PyStr.slash (PyStr.strip PyStr.slash prefix))) = false →
  GDrive.delete_by_prefix root prefix w
  = (Raise (HttpError 400), World (store w) (tail (faults w))).
Proof.
  intros Hc Ho Hp. unfold GDrive.delete_by_prefix. rewrite try_reraise. unfold Py.bind.
  pose proof (split_nonempty PyStr.slash (PyStr.strip PyStr.slash prefix)) as Hne.
  destruct (PyStr.split PyStr.slash (PyStr.strip PyStr.slash prefix)) as [|p0 rest]; [done|].
  simpl in Hp. simpl GDrive.find_loop. unfold Py.bind.
  by rewrite files_list_refused.
Qed.

Lemma gdrive_upload_refused root path c (w : world Drive.drive) :
  calm w → Drive.odd (store w) = Drive.refuse →
  Drive.plain (List.hd "" (PyStr.split PyStr.slash (PyStr.strip PyStr.slash path))) = false →
  GDrive.upload root path c w
  = (Raise (HttpError 400), World (store w) (tail (faults w))).
Proof.
  intros Hc Ho Hp. rewrite upload_unfold. cbv zeta.
  pose proof (split_nonempty PyStr.slash (PyStr.strip PyStr.slash path)) as Hne.
  destruct (PyStr.split PyStr.slash (PyStr.strip PyStr.slash path)) as [|p0 [|p1 rest]];
    [done| |]; simpl in Hp.
  - change (PyStr.init_parts [p0]) with (@nil string).
    change (PyStr.last_part [p0]) with p0. simpl GDrive.resolve_loop. unfold ret at 1.
    unfold GDrive.create_or_update, Py.bind. by rewrite files_list_refused.
  - change (PyStr.init_parts (p0 :: p1 :: rest)) with (p0 :: PyStr.init_parts (p1 :: rest)).
    simpl GDrive.resolve_loop. unfold Py.bind, GDrive._get_or_create_folder, Py.bind.
    by rewrite files_list_refused.
Qed.

(** ** Deleting what is not there *)

(** C6: deleting by a prefix that matches nothing succeeds and leaves
    the store as it was, when no call to the backend fails: on the
    object stores when no stored name starts with the prefix (as GCS
    cleans it); on the drive when the chain of folders breaks at some
    part and the prefix holds neither quote nor backslash; on the local
    file system, whatever fails, when the joined path is neither a
    directory nor a file. With a quote in the first name of the prefix
    the drive provider sends a string that is not a query; a service
    that refuses it answers with an error, which [delete_by_prefix]
    hands on: on the empty drive, where nothing matches, deleting by
    the prefix it's raises. *)
Theorem C6_delete_of_nothing_raises_on_a_quote :
  (∀ prefix (w : world (gmap string bytes)),
      calm w →
      (∀ k, is_Some (store w !! k) → String.prefix prefix k = false) →
      ∃ w', Azure.delete_by_prefix prefix w = (Ok tt, w') ∧ store w' = store w)
  ∧ (∀ prefix (w : world (gmap string bytes)),
      calm w →
      (∀ k, is_Some (store w !! k) →
            String.prefix (PyStr.lstrip PyStr.slash prefix) k = false) →
      ∃ w', GCS.delete_by_prefix prefix w = (Ok tt, w') ∧ store w' = store w)
  ∧ (∀ root prefix (w : world Drive.drive),
      calm w → Drive.plain prefix = true →
      Drive.path_folder (Drive.files (store w))
        (PyStr.split PyStr.slash (PyStr.strip PyStr.slash prefix)) root = None →
      ∃ w', GDrive.delete_by_prefix root prefix w = (Ok tt, w') ∧ store w' = store w)
  ∧ (∀ base_path prefix (w : world OS.fsys),
      OS.stat (store w) (OS.path_join base_path prefix) = None →
      Local.delete_by_prefix base_path prefix w = (Ok tt, w))
  ∧ (∀ root prefix (w : world Drive.drive),
      calm w → Drive.odd (store w) = Drive.refuse →
      Drive.plain (List.hd "" (PyStr.split PyStr.slash (PyStr.strip PyStr.slash prefix)))
      = false →
      GDrive.delete_by_prefix root prefix w
      = (Raise (HttpError 400), World (store w) (tail (faults w))))
  ∧ (Drive.path_folder (Drive.files Samples.empty_drive)
       (PyStr.split PyStr.slash (PyStr.strip PyStr.slash "it's")) Samples.root_folder_id
     = None
     ∧ GDrive.delete_by_prefix Samples.root_folder_id "it's"
         (Samples.quiet Samples.empty_drive)
       = (Raise (HttpError 400), Samples.quiet Samples.empty_drive)).
Proof.
  split; [|split; [|split; [|split; [|split]]]].
  - intros prefix w Hc H. eexists. split; [by apply azure_delete_missing|done].
  - intros prefix w Hc H. eexists. split; [by apply gcs_delete_missing|done].
  - intros root prefix w Hc Hpl H. by apply gdrive_delete_missing.
  - intros base prefix w H. by apply local_delete_missing.
  - intros root prefix w Hc Ho Hp. by apply gdrive_delete_refused.
  - split; [reflexivity|].
    apply (gdrive_delete_refused Samples.root_folder_id "it's"
             (Samples.quiet Samples.empty_drive)); [apply calm_quiet|reflexivity..].
Qed.

(** Deleting by a prefix that does not exist, on the sample tree and the
    sample drive. *)
Lemma C6_witness :
  Local.delete_by_prefix Samples.base_path "nonexistent/prefix/" (Samples.quiet Samples.tree0)
  = (Ok tt, Samples.quiet Samples.tree0)
  ∧ ∃ w', GDrive.delete_by_prefix Samples.root_folder_id "nonexistent/prefix/"
            (Samples.quiet Samples.leaf_drive) = (Ok tt, w')
          ∧ store w' = Samples.leaf_drive.
Proof.
  destruct C6_delete_of_nothing_raises_on_a_quote as (_ & _ & Hdrive & Hlocal & _).
  split.
  - apply Hlocal. clear. vm_compute. reflexivity.
  - apply Hdrive; [apply calm_quiet|clear; vm_compute; reflexivity..].
Defined.

(** ** Putting twice on every provider *)

(** Two local uploads to one path, under the conditions of
    [local_upload_creates]: both succeed, the second finds the
    directories that the first one made and rewrites the file. *)
Lemma local_put_twice base_path path c1 c2 (w : world OS.fsys) n :
  let full := OS.path_join base_path path in
  let cs := OS.components full in
  let s := OS.start (store w) full in
  calm w →
  OS.path_dirname full ≠ "" →
  PyStr.endswith PyStr.slash full = false →
  Forall (fun c => OS.dots c = false) cs →
  (n < length cs)%nat →
  (∀ i, (i ≤ n)%nat → OS.is_dir (store w) (s ++ take i cs) = true) →
  (∀ i, (n < i < length cs)%nat → OS.tree (store w) !! (s ++ take i cs)%list = None) →
  OS.is_dir (store w) (s ++ cs) = false →
  ∃ w1 w2, Local.upload base_path path c1 w = (Ok tt, w1)
           ∧ Local.upload base_path path c2 w1 = (Ok tt, w2)
           ∧ OS.tree (store w2) !! (s ++ cs)%list = Some (OS.F c2)
           ∧ (∀ k, k ≠ (s ++ cs)%list → OS.tree (store w2) !! k = OS.tree (store w1) !! k).
Proof.
  intros full cs s Hc Hdir Hend Hnd Hn Hdirs Hfree Htarget.
  destruct (local_upload_creates base_path path c1 w n Hc Hdir Hend Hnd Hn Hdirs
              Hfree Htarget) as (w1 & Hrun1 & Hc1 & Hfile1 & Hmade1 & Hrest1 & Hcwd1).
  fold full cs s in Hfile1, Hmade1, Hrest1.
  assert (Hs1 : OS.start (store w1) full = s).
  { unfold s, OS.start. by rewrite Hcwd1. }
  destruct (local_upload_creates base_path path c2 w1 (length cs - 1))
    as (w2 & Hrun2 & _ & Hfile2 & _ & Hrest2 & _);
    fold full cs; rewrite ?Hs1; try done; try lia.
  - intros i Hi. destruct (decide (i ≤ n)%nat).
    + rewrite (is_dir_same_lookup (store w)); [by apply Hdirs|].
      apply Hrest1. intros j Hj Heq. apply app_inv_head in Heq.
      apply (f_equal length) in Heq. rewrite !length_take in Heq. lia.
    + apply is_dir_lookup_D, Hmade1. lia.
  - unfold OS.is_dir, OS.kind. destruct (s ++ cs)%list eqn:E.
    + apply app_eq_nil in E as [_ E]. rewrite E in Hn. simpl in Hn. lia.
    + by rewrite Hfile1.
  - fold full cs in Hfile2, Hrest2. rewrite Hs1 in Hfile2, Hrest2.
    exists w1, w2. split; [done|]. split; [done|]. split; [done|].
    intros k Hk. apply Hrest2. intros i Hi Heq. apply Hk.
    rewrite Heq. f_equal. apply take_ge. lia.
Qed.

(** C5: putting twice at one path leaves the second content there, and
    one record. When no call fails: on Azure, for a non-empty path, and
    on GCS, for a path that is not empty without its leading slashes,
    both uploads succeed and the store is the old one with that one
    blob set to the second content. On the local file system, where the
    names of the joined path are proper names, some of its directories
    exist, the further ones are free and the target is not a directory,
    both uploads succeed, the file holds the second content and the
    second upload changes nothing else. On the drive, with well-formed
    identifiers, no two files of one name in one folder and a path with
    neither quote nor backslash, both uploads succeed, the leaf's name
    then denotes exactly one file in the resolved folder, it holds the
    second content, and the second upload has only rewritten the
    content of the file that the first one left. With a quote in the
    first name of the path the drive provider sends a string that is
    not a query; a service that refuses it answers with an error, which
    [upload] hands on without storing anything: so for the path it's
    on the empty drive. *)
Theorem C5_put_twice_raises_on_a_quote :
  (∀ path c1 c2 (w : world (gmap string bytes)),
      path ≠ "" → calm w →
      ∃ w1 w2, Azure.upload path c1 w = (Ok tt, w1)
               ∧ Azure.upload path c2 w1 = (Ok tt, w2)
               ∧ store w2 !! path = Some c2 ∧ store w2 = <[path := c2]> (store w))
  ∧ (∀ path c1 c2 (w : world (gmap string bytes)),
      PyStr.lstrip PyStr.slash path ≠ "" → calm w →
      ∃ w1 w2, GCS.upload path c1 w = (Ok tt, w1)
               ∧ GCS.upload path c2 w1 = (Ok tt, w2)
               ∧ store w2 !! PyStr.lstrip PyStr.slash path = Some c2
               ∧ store w2 = <[PyStr.lstrip PyStr.slash path := c2]> (store w))
  ∧ (∀ base_path path c1 c2 (w : world OS.fsys) n,
      let full := OS.path_join base_path path in
      let cs := OS.components full in
      let s := OS.start (store w) full in
      calm w →
      OS.path_dirname full ≠ "" →
      PyStr.endswith PyStr.slash full = false →
      Forall (fun c => OS.dots c = false) cs →
      (n < length cs)%nat →
      (∀ i, (i ≤ n)%nat → OS.is_dir (store w) (s ++ take i cs) = true) →
      (∀ i, (n < i < length cs)%nat → OS.tree (store w) !! (s ++ take i cs)%list = None) →
      OS.is_dir (store w) (s ++ cs) = false →
      ∃ w1 w2, Local.upload base_path path c1 w = (Ok tt, w1)
               ∧ Local.upload base_path path c2 w1 = (Ok tt, w2)
               ∧ OS.tree (store w2) !! (s ++ cs)%list = Some (OS.F c2)
               ∧ (∀ k, k ≠ (s ++ cs)%list →
                       OS.tree (store w2) !! k = OS.tree (store w1) !! k))
  ∧ (∀ root path c1 c2 (w : world Drive.drive),
      calm w → Drive.plain path = true →
      Drive.wf root (store w) → Drive.name_unique (Drive.files (store w)) →
      let parts := PyStr.split PyStr.slash (PyStr.strip PyStr.slash path) in
      ∃ w1 w2 parent it1 it2,
        GDrive.upload root path c1 w = (Ok tt, w1)
        ∧ GDrive.upload root path c2 w1 = (Ok tt, w2)
        ∧ Drive.path_folder (Drive.files (store w2)) (PyStr.init_parts parts) root
          = Some parent
        ∧ List.filter (Drive.matches (Drive.Query (PyStr.last_part parts) parent false))
            (Drive.files (store w1)) = [it1]
        ∧ List.filter (Drive.matches (Drive.Query (PyStr.last_part parts) parent false))
            (Drive.files (store w2)) = [it2]
        ∧ Drive.content it2 = c2 ∧ Drive.id it2 = Drive.id it1
        ∧ Drive.files (store w2)
          = List.map (Drive.set_content (Drive.id it1) c2) (Drive.files (store w1)))
  ∧ (∀ root path c (w : world Drive.drive),
      calm w → Drive.odd (store w) = Drive.refuse →
      Drive.plain (List.hd "" (PyStr.split PyStr.slash (PyStr.strip PyStr.slash path)))
      = false →
      GDrive.upload root path c w
      = (Raise (HttpError 400), World (store w) (tail (faults w))))
  ∧ GDrive.upload Samples.root_folder_id "it's" (Samples.data "c1")
      (Samples.quiet Samples.empty_drive)
    = (Raise (HttpError 400), Samples.quiet Samples.empty_drive).
Proof.
  split; [|split; [|split; [|split; [|split]]]].
  - intros path c1 c2 w Hne Hc. do 2 eexists.
    split; [by apply azure_upload_calm|].
    split; [apply azure_upload_calm; [done|by apply calm_step]|].
    simpl. split; [apply lookup_insert_eq|apply insert_insert_eq].
  - intros path c1 c2 w _ Hc. do 2 eexists.
    split; [by apply gcs_upload_calm|].
    split; [apply gcs_upload_calm; by apply calm_step|].
    simpl. split; [apply lookup_insert_eq|apply insert_insert_eq].
  - intros base path c1 c2 w n. apply local_put_twice.
  - intros root path c1 c2 w Hc Hpl Hwf Hu parts.
    destruct (gdrive_upload_fresh root path c1 w Hc Hpl Hwf Hu)
      as (w1 & parent & it1 & Hrun1 & Hc1 & Hpath1 & Hleaf1 & _).
    destruct (gdrive_upload_again root path c2 w1 parent it1 Hc1 Hpl Hpath1 Hleaf1)
      as (w2 & Hrun2 & _ & Hfs2).
    exists w1, w2, parent, it1, (Drive.set_content (Drive.id it1) c2 it1).
    fold parts in Hpath1, Hleaf1. repeat split; try done.
    + by rewrite Hfs2, path_folder_set_content.
    + by rewrite Hfs2, filter_set_content, Hleaf1.
    + unfold Drive.set_content. by rewrite Nat.eqb_refl.
    + apply id_set_content.
  - intros root path c w Hc Ho Hp. by apply gdrive_upload_refused.
  - apply (gdrive_upload_refused Samples.root_folder_id "it's" (Samples.data "c1")
             (Samples.quiet Samples.empty_drive)); [apply calm_quiet|reflexivity..].
Qed.

(** Putting twice into the empty bucket, the sample tree and the empty
    drive. *)
Lemma C5_witness :
  (∃ w1 w2,
      Azure.upload "test_cases/101/01" (Samples.data "old")
        (Samples.quiet Samples.empty_bucket) = (Ok tt, w1)
      ∧ Azure.upload "test_cases/101/01" (Samples.data "new") w1 = (Ok tt, w2)
      ∧ store w2 !! "test_cases/101/01" = Some (Samples.data "new")
      ∧ store w2 = <["test_cases/101/01" := Samples.data "new"]> Samples.empty_bucket)
  ∧ (∃ w1 w2,
      Local.upload Samples.base_path "test_folder/file.txt" (Samples.data "old")
        (Samples.quiet Samples.tree0) = (Ok tt, w1)
      ∧ Local.upload Samples.base_path "test_folder/file.txt"
          (Samples.data "Hello Local Storage") w1 = (Ok tt, w2)
      ∧ OS.tree (store w2) !! ["srv"; "media"; "test_folder"; "file.txt"]
        = Some (OS.F (Samples.data "Hello Local Storage")))
  ∧ (∃ w1 w2 parent it1 it2,
        GDrive.upload Samples.root_folder_id "x/y/1" (Samples.data "old")
          (Samples.quiet Samples.empty_drive) = (Ok tt, w1)
        ∧ GDrive.upload Samples.root_folder_id "x/y/1" (Samples.data "new") w1 = (Ok tt, w2)
        ∧ Drive.path_folder (Drive.files (store w2)) ["x"; "y"] Samples.root_folder_id
          = Some parent
        ∧ List.filter (Drive.matches (Drive.Query "1" parent false))
            (Drive.files (store w1)) = [it1]
        ∧ List.filter (Drive.matches (Drive.Query "1" parent false))
            (Drive.files (store w2)) = [it2]
        ∧ Drive.content it2 = Samples.data "new" ∧ Drive.id it2 = Drive.id it1
        ∧ Drive.files (store w2)
          = List.map (Drive.set_content (Drive.id it1) (Samples.data "new"))
              (Drive.files (store w1))).
Proof.
  destruct C5_put_twice_raises_on_a_quote as (Hazure & _ & Hlocal & Hdrive & _).
  split; [|split].
  - apply (Hazure "test_cases/101/01"); [discriminate|apply calm_quiet].
  - destruct (Hlocal Samples.base_path "test_folder/file.txt" (Samples.data "old")
                (Samples.data "Hello Local Storage") (Samples.quiet Samples.tree0) 2)
      as (w1 & w2 & Hrun1 & Hrun2 & Hfile & _).
    + constructor.
    + clear. by vm_compute.
    + clear. vm_compute. reflexivity.
    + clear. vm_compute. repeat constructor.
    + clear. vm_compute. lia.
    + clear. intros i Hi. destruct i as [|[|[|i]]]; [vm_compute; reflexivity..|lia].
    + clear. intros i Hi. change (length _) with 4%nat in Hi.
      destruct i as [|[|[|[|i]]]]; try lia; vm_compute; reflexivity.
    + clear. vm_compute. reflexivity.
    + exists w1, w2. split; [exact Hrun1|]. split; [exact Hrun2|]. exact Hfile.
  - apply (Hdrive Samples.root_folder_id "x/y/1" (Samples.data "old") (Samples.data "new")
             (Samples.quiet Samples.empty_drive)).
    + apply calm_quiet.
    + reflexivity.
    + split; [unfold Samples.root_folder_id; simpl; lia|constructor].
    + intros nm parent. simpl. lia.
Defined.

(** ** Absolute paths on the local file system *)




(** ** The factory *)






(** C10: the factory does for a setting what it does for its
    upper-cased form, [upper()] being idempotent; in particular the
    value azure runs the constructor of the Azure provider. More
    generally two settings with the same upper-cased form are treated
    alike. *)
Theorem C10_selection_ignores_case (upper : string → string) (ctors : Factory.remote) :
  PyStr.upper_idempotent upper → PyStr.upper_on_ascii upper →
  (∀ s BASE_DIR,
      Factory.get_storage_provider upper ctors (Some s) BASE_DIR
      = Factory.get_storage_provider upper ctors (Some (upper s)) BASE_DIR)
  ∧ (∀ s t BASE_DIR,
      upper s = upper t →
      Factory.get_storage_provider upper ctors (Some s) BASE_DIR
      = Factory.get_storage_provider upper ctors (Some t) BASE_DIR)
  ∧ (∀ BASE_DIR,
      Factory.get_storage_provider upper ctors (Some "azure") BASE_DIR
      = (let* _ := Factory.azure_init ctors in ret Factory.AzureStorageProvider)).
Proof.
  intros Hid Hup. split; [|split].
  - intros s BASE_DIR. unfold Factory.get_storage_provider. simpl default.
    by rewrite Hid.
  - intros s t BASE_DIR Heq. unfold Factory.get_storage_provider. simpl default.
    by rewrite Heq.
  - intros BASE_DIR. unfold Factory.get_storage_provider. simpl default.
    by rewrite (Hup "azure" eq_refl).
Qed.

(** The values Azure and AZURE with the ASCII upper-casing. *)
Lemma C10_witness :
  Factory.get_storage_provider PyStr.ascii_upper Samples.ready (Some "Azure") "/srv"
  = Factory.get_storage_provider PyStr.ascii_upper Samples.ready (Some "AZURE") "/srv"
  ∧ Factory.get_storage_provider PyStr.ascii_upper Samples.ready (Some "azure") "/srv"
      (Samples.quiet Samples.tree0)
    = (Ok Factory.AzureStorageProvider, Samples.quiet Samples.tree0).
Proof.
  destruct (C10_selection_ignores_case PyStr.ascii_upper Samples.ready)
    as (Hsame & _ & Hazure).
  - intros s. apply upper_idem.
  - by intros s _.
  - split.
    + apply (Hsame "Azure" "/srv").
    + by rewrite Hazure.
Defined.
